(** * YaMDb (api_yamdb): access policy, rating, registration and validation

    A shallow embedding of the domain logic of the [api] and [reviews]
    applications:

    - [reviews/models.py]   : the role constants and the stored records;
    - [api/permissions.py]  : the three permission classes;
    - [api/serializers.py]  : [get_rating], [validate_username],
                              [validate_score], [validate_title];
    - [api/utils.py]        : the confirmation-code helper;
    - [api/views.py]        : registration, token exchange, the self-profile
                              action and the review endpoints.

    Database tables are lists of rows, a query set is a [filter] over them,
    Python exceptions are the [Raise] branch of [result], and a view is a
    function from the store to a response and the next store. *)

From Stdlib Require Import ZArith QArith Qround List String Ascii Bool Lia.
From Stdlib Require Import DecimalString Permutation.
Import ListNotations.
Open Scope string_scope.
Open Scope Z_scope.

(** ** Exceptions and results *)

(** The field errors of a serializer: field name and messages. *)
Definition ErrorDict := list (string * list string).

(** The [detail] of a [ValidationError]: the messages of one field, or the
    messages of every field of a serializer. *)
Inductive detail : Type :=
| Messages (msgs : list string)
| Fields (errors : ErrorDict).

Inductive exn : Type :=
| Http404
| DoesNotExist
| ValidationError (d : detail)
| IntegrityError
| AttributeError
| TypeError
| NotAuthenticated
| PermissionDenied
| MethodNotAllowed (method : string)
| KeyError.

Inductive result (A : Type) : Type :=
| Ok (a : A)
| Raise (e : exn).
Arguments Ok {A} a.
Arguments Raise {A} e.

Definition bind {A B} (m : result A) (k : A -> result B) : result B :=
  match m with
  | Ok a => k a
  | Raise e => Raise e
  end.

Notation "x <- m ;; k" := (bind m (fun x => k))
  (at level 61, m at next level, right associativity).

(** ** reviews/models.py *)

Definition USER_ROLE_USER : string := "user".
Definition USER_ROLE_MODERATOR : string := "moderator".
Definition USER_ROLE_ADMIN : string := "admin".

Definition USER_ROLE_CHOICES : list string :=
  [USER_ROLE_USER; USER_ROLE_MODERATOR; USER_ROLE_ADMIN].

(** Python's [x in xs] on strings. *)
Definition str_in (x : string) (xs : list string) : bool :=
  existsb (String.eqb x) xs.

Module CustomUser.
Record t : Type := Build {
  pk : Z;
  username : string;
  email : string;
  role : string;
  bio : string;
  first_name : string;
  last_name : string;
  confirmation_code : string;
  is_superuser : bool
}.
End CustomUser.

Module Title.
Record t : Type := Build {
  pk : Z;
  name : string;
  year : Z;
  description : string
}.
End Title.

Module Review.
Record t : Type := Build {
  pk : Z;
  author : Z;      (* foreign key: CustomUser.pk *)
  text : string;
  title : Z;       (* foreign key: Title.pk *)
  score : Z
}.
End Review.

Module Comment.
Record t : Type := Build {
  pk : Z;
  author : Z;      (* foreign key: CustomUser.pk *)
  text : string;
  review : Z       (* foreign key: Review.pk *)
}.
End Comment.

(** ** The request *)

Inductive http_method : Type :=
| GET | HEAD | OPTIONS | POST | PUT | PATCH | DELETE.

Definition method_eqb (a b : http_method) : bool :=
  match a, b with
  | GET, GET | HEAD, HEAD | OPTIONS, OPTIONS | POST, POST
  | PUT, PUT | PATCH, PATCH | DELETE, DELETE => true
  | _, _ => false
  end.

(** [request.method]. *)
Definition method_name (m : http_method) : string :=
  match m with
  | GET => "GET"
  | HEAD => "HEAD"
  | OPTIONS => "OPTIONS"
  | POST => "POST"
  | PUT => "PUT"
  | PATCH => "PATCH"
  | DELETE => "DELETE"
  end.

(** [rest_framework.permissions.SAFE_METHODS]. *)
Definition SAFE_METHODS : list http_method := [GET; HEAD; OPTIONS].

Definition method_in (m : http_method) (ms : list http_method) : bool :=
  existsb (method_eqb m) ms.

(** [request.user]: Django's [AnonymousUser] or a stored user. *)
Inductive request_user : Type :=
| AnonymousUser
| User (u : CustomUser.t).

Definition is_authenticated (ru : request_user) : bool :=
  match ru with
  | AnonymousUser => false
  | User _ => true
  end.

Record Request : Type := mkRequest {
  method : http_method;
  user : request_user
}.

(** The object handed to [has_object_permission]. *)
Inductive model_obj : Type :=
| CategoryObj (slug : string)
| GenreObj (slug : string)
| TitleObj (t : Title.t)
| ReviewObj (r : Review.t)
| CommentObj (c : Comment.t)
| UserObj (u : CustomUser.t).

(** [obj.author]; only reviews and comments have the attribute. *)
Definition obj_author (o : model_obj) : result Z :=
  match o with
  | ReviewObj r => Ok (Review.author r)
  | CommentObj c => Ok (Comment.author c)
  | _ => Raise AttributeError
  end.

(** ** api/permissions.py *)

(** [permissions.BasePermission]: the interface of a permission class. *)
Class BasePermission : Type := {
  has_permission : Request -> bool;
  has_object_permission : Request -> model_obj -> result bool
}.

(** The default of [BasePermission.has_object_permission]. *)
Definition default_has_object_permission
  (_ : Request) (_ : model_obj) : result bool := Ok true.

(** [request.user.is_authenticated and (role == ADMIN or is_superuser)];
    [and] short-circuits, so an anonymous user is never asked its role. *)
Definition IsAdmin_has_permission (request : Request) : bool :=
  match user request with
  | AnonymousUser => false
  | User u =>
      String.eqb (CustomUser.role u) USER_ROLE_ADMIN
      || CustomUser.is_superuser u
  end.

Definition IsAdmin : BasePermission := {|
  has_permission := IsAdmin_has_permission;
  has_object_permission := default_has_object_permission
|}.

Definition IsOwnerAdminModeratorOrReadOnly_has_permission
  (request : Request) : bool :=
  method_in (method request) SAFE_METHODS
  || is_authenticated (user request).

(** [obj.author == request.user] compares primary keys; against
    [AnonymousUser] it is [False], and the next disjunct then reads
    [request.user.role], which [AnonymousUser] does not have. *)
Definition IsOwnerAdminModeratorOrReadOnly_has_object_permission
  (request : Request) (obj : model_obj) : result bool :=
  let roles := [USER_ROLE_MODERATOR; USER_ROLE_ADMIN] in
  if method_in (method request) SAFE_METHODS then Ok true
  else
    a <- obj_author obj ;;
    match user request with
    | AnonymousUser => Raise AttributeError
    | User u =>
        Ok (Z.eqb a (CustomUser.pk u) || str_in (CustomUser.role u) roles)
    end.

Definition IsOwnerAdminModeratorOrReadOnly : BasePermission := {|
  has_permission := IsOwnerAdminModeratorOrReadOnly_has_permission;
  has_object_permission :=
    IsOwnerAdminModeratorOrReadOnly_has_object_permission
|}.

Definition IsAdminOrReadOnly_has_permission (request : Request) : bool :=
  method_in (method request) SAFE_METHODS
  || match user request with
     | AnonymousUser => false
     | User u =>
         CustomUser.is_superuser u
         || String.eqb (CustomUser.role u) USER_ROLE_ADMIN
     end.

Definition IsAdminOrReadOnly : BasePermission := {|
  has_permission := IsAdminOrReadOnly_has_permission;
  has_object_permission := default_has_object_permission
|}.

(** [rest_framework.permissions.AllowAny] and [IsAuthenticated]. *)
Definition AllowAny : BasePermission := {|
  has_permission := fun _ => true;
  has_object_permission := default_has_object_permission
|}.

Definition IsAuthenticated : BasePermission := {|
  has_permission := fun request => is_authenticated (user request);
  has_object_permission := default_has_object_permission
|}.

(** ** api/views.py: the view sets and their permission classes *)

Inductive viewset : Type :=
| UserViewSet
| CategoryViewSet
| GenreViewSet
| TitleViewSet
| ReviewViewSet
| CommentViewSet.

Definition permission_classes (v : viewset) : BasePermission :=
  match v with
  | UserViewSet => IsAdmin
  | CategoryViewSet | GenreViewSet | TitleViewSet => IsAdminOrReadOnly
  | ReviewViewSet | CommentViewSet => IsOwnerAdminModeratorOrReadOnly
  end.

(** The actions of a [ModelViewSet] and the method each is routed from. *)
Inductive action : Type :=
| list_ | retrieve | create | update | partial_update | destroy.

Definition action_method (a : action) : http_method :=
  match a with
  | list_ | retrieve => GET
  | create => POST
  | update => PUT
  | partial_update => PATCH
  | destroy => DELETE
  end.

Definition is_write (a : action) : bool :=
  match a with
  | list_ | retrieve => false
  | _ => true
  end.

(** [APIView.check_permissions] followed, for an action on one object, by
    [check_object_permissions]: the decision of the access policy. *)
Definition decide (v : viewset) (actor : request_user) (a : action)
  (target : option model_obj) : result bool :=
  let request := mkRequest (action_method a) actor in
  if @has_permission (permission_classes v) request then
    match target with
    | None => Ok true
    | Some obj => @has_object_permission (permission_classes v) request obj
    end
  else Ok false.

(** The five catalogue and feedback view sets. *)
Definition is_content (v : viewset) : bool :=
  match v with
  | UserViewSet => false
  | _ => true
  end.

Definition is_catalog (v : viewset) : bool :=
  match v with
  | CategoryViewSet | GenreViewSet | TitleViewSet => true
  | _ => false
  end.


(** ** The store and the mail backend *)

(** A message handed to [django.core.mail.send_mail]. *)
Record Mail : Type := mkMail {
  subject : string;
  message : string;
  from_email : string;
  recipient_list : list string
}.

(** The tables, named after their [db_table], and the sent mail. *)
Record State : Type := mkState {
  custom_user : list CustomUser.t;
  titles : list Title.t;
  reviews : list Review.t;
  comments : list Comment.t;
  outbox : list Mail
}.

Definition set_custom_user (st : State) (rows : list CustomUser.t) : State :=
  mkState rows (titles st) (reviews st) (comments st) (outbox st).

Definition set_reviews (st : State) (rows : list Review.t) : State :=
  mkState (custom_user st) (titles st) rows (comments st) (outbox st).

Definition set_outbox (st : State) (o : list Mail) : State :=
  mkState (custom_user st) (titles st) (reviews st) (comments st) o.

(** The next value of an auto-incremented primary key: one more than the
    largest stored key. A database sequence also never gives a key of a
    row that has been deleted since, which this value may do; what the
    further properties say of a new key is only that no stored row has
    it. *)
Definition next_pk (pks : list Z) : Z := 1 + fold_right Z.max 0 pks.

(** ** Views as stateful, fallible computations *)

Definition M (A : Type) : Type := State -> result A * State.

Definition ret {A} (a : A) : M A := fun st => (Ok a, st).

Definition raise {A} (e : exn) : M A := fun st => (Raise e, st).

Definition bindM {A B} (m : M A) (k : A -> M B) : M B :=
  fun st =>
    match m st with
    | (Ok a, st') => k a st'
    | (Raise e, st') => (Raise e, st')
    end.

Notation "x <~ m ;; k" := (bindM m (fun x => k))
  (at level 61, m at next level, right associativity).

(** A pure step that reads the store. *)
Definition query {A} (f : State -> result A) : M A :=
  fun st => (f st, st).

(** [try: m except CustomUser.DoesNotExist: handler]. *)
Definition try_except_DoesNotExist {A} (m : M A) (handler : M A) : M A :=
  fun st =>
    match m st with
    | (Raise DoesNotExist, st') => handler st'
    | other => other
    end.

(** ** Responses *)

#[warnings="-register-all"]
Inductive json : Type :=
| JNull
| JInt (z : Z)
| JStr (s : string)
| JList (l : list json)
| JDict (d : list (string * json)).

Record Response : Type := mkResponse {
  data : json;
  status : Z
}.

Definition HTTP_200_OK : Z := 200.
Definition HTTP_201_CREATED : Z := 201.
Definition HTTP_400_BAD_REQUEST : Z := 400.
Definition HTTP_401_UNAUTHORIZED : Z := 401.
Definition HTTP_403_FORBIDDEN : Z := 403.
Definition HTTP_404_NOT_FOUND : Z := 404.
Definition HTTP_405_METHOD_NOT_ALLOWED : Z := 405.
Definition HTTP_500_INTERNAL_SERVER_ERROR : Z := 500.

Definition errors_json (d : detail) : json :=
  match d with
  | Messages msgs => JList (map JStr msgs)
  | Fields fs => JDict (map (fun kv => (fst kv, JList (map JStr (snd kv)))) fs)
  end.

Definition dquote : string := String (ascii_of_nat 34) "".

(** [rest_framework.views.exception_handler]: API exceptions and [Http404]
    become responses, anything else is a server error, whose body (the
    error page of the project's settings) is not modelled. *)
Definition exception_handler (e : exn) : Response :=
  match e with
  | Http404 =>
      mkResponse (JDict [("detail", JStr "Not found.")]) HTTP_404_NOT_FOUND
  | ValidationError d => mkResponse (errors_json d) HTTP_400_BAD_REQUEST
  | NotAuthenticated =>
      mkResponse
        (JDict [("detail",
                 JStr "Authentication credentials were not provided.")])
        HTTP_401_UNAUTHORIZED
  | PermissionDenied =>
      mkResponse
        (JDict [("detail",
                 JStr "You do not have permission to perform this action.")])
        HTTP_403_FORBIDDEN
  | MethodNotAllowed method =>
      mkResponse
        (JDict [("detail",
                 JStr ("Method " ++ dquote ++ method ++ dquote
                       ++ " not allowed."))])
        HTTP_405_METHOD_NOT_ALLOWED
  | DoesNotExist | IntegrityError | AttributeError | TypeError | KeyError =>
      mkResponse JNull HTTP_500_INTERNAL_SERVER_ERROR
  end.

(** Dispatching a view: its response, or the handler's for what it raised. *)
Definition dispatch (view : M Response) (st : State) : Response * State :=
  match view st with
  | (Ok r, st') => (r, st')
  | (Raise e, st') => (exception_handler e, st')
  end.

(** ** Query sets *)

(** [Model.objects.get(...)]: the first matching row or [DoesNotExist]. *)
Definition objects_get {A} (p : A -> bool) (rows : list A) : result A :=
  match find p rows with
  | Some a => Ok a
  | None => Raise DoesNotExist
  end.

(** [django.shortcuts.get_object_or_404]: [DoesNotExist] becomes
    [Http404]. *)
Definition get_object_or_404 {A} (p : A -> bool) (rows : list A) : result A :=
  match objects_get p rows with
  | Raise DoesNotExist => Raise Http404
  | other => other
  end.

(** ** Strings *)

(** A [string] holds the UTF-8 encoding of a Python [str]; the literals
    of the source are written as they stand. *)

(** A byte [10xxxxxx] continues a character. *)
Definition is_continuation_byte (a : ascii) : bool :=
  match a with
  | Ascii _ _ _ _ _ _ b6 b7 => b7 && negb b6
  end.

(** [len(s)] of a [str]: its number of characters, the bytes that start
    one. *)
Fixpoint str_len (s : string) : nat :=
  match s with
  | EmptyString => 0%nat
  | String a rest =>
      if is_continuation_byte a then str_len rest else S (str_len rest)
  end.

Definition bytes (l : list nat) : string :=
  string_of_list_ascii (map ascii_of_nat l).

(** The characters [str.isspace] holds of, which [str.strip()] removes:
    U+0009..U+000D, U+001C..U+0020, U+0085, U+00A0, U+1680,
    U+2000..U+200A, U+2028, U+2029, U+202F, U+205F and U+3000. *)
Definition WHITESPACE : list string :=
  map bytes
    [[9]; [10]; [11]; [12]; [13]; [28]; [29]; [30]; [31]; [32];
     [194; 133]; [194; 160]; [225; 154; 128];
     [226; 128; 128]; [226; 128; 129]; [226; 128; 130]; [226; 128; 131];
     [226; 128; 132]; [226; 128; 133]; [226; 128; 134]; [226; 128; 135];
     [226; 128; 136]; [226; 128; 137]; [226; 128; 138];
     [226; 128; 168]; [226; 128; 169]; [226; 128; 175];
     [226; 129; 159]; [227; 128; 128]]%nat.

(** [s] without the prefix [p], when it starts with it. *)
Fixpoint removeprefix (p s : string) : option string :=
  match p, s with
  | EmptyString, _ => Some s
  | String a p', String b s' =>
      if Ascii.eqb a b then removeprefix p' s' else None
  | String _ _, EmptyString => None
  end.

(** [s] without one leading character of [chars], when it starts with
    one. *)
Fixpoint drop_leading (chars : list string) (s : string) : option string :=
  match chars with
  | [] => None
  | c :: chars' =>
      match removeprefix c s with
      | Some rest => Some rest
      | None => drop_leading chars' s
      end
  end.

Fixpoint lstrip_chars (fuel : nat) (chars : list string) (s : string)
  : string :=
  match fuel with
  | O => s
  | S fuel' =>
      match drop_leading chars s with
      | Some rest => lstrip_chars fuel' chars rest
      | None => s
      end
  end.

Definition reversed (s : string) : string :=
  string_of_list_ascii (rev (list_ascii_of_string s)).

(** [s.lstrip()], [s.rstrip()] and [s.strip()]; a string has no more
    leading characters than bytes. *)
Definition lstrip (s : string) : string :=
  lstrip_chars (String.length s) WHITESPACE s.

Definition rstrip (s : string) : string :=
  reversed
    (lstrip_chars (String.length s) (map reversed WHITESPACE) (reversed s)).

Definition strip (s : string) : string := rstrip (lstrip s).

(** [chr(0) in s]. *)
Definition has_null_character (s : string) : bool :=
  existsb (Ascii.eqb zero) (list_ascii_of_string s).

(** A submitted value that a serializer's [CharField] takes as it stands:
    the field's whitespace trimming ([trim_whitespace=True], the default)
    leaves it unchanged and its [ProhibitNullCharactersValidator] accepts
    it. *)
Definition plain (s : string) : bool :=
  String.eqb (strip s) s && negb (has_null_character s).

Definition plain_opt (v : option string) : bool :=
  match v with
  | Some s => plain s
  | None => true
  end.

(** ** Serializer fields *)

(** A field's outcome is [Ok (Some v)], [Ok None] when the field is
    skipped, or a raised exception. *)
Definition field_result (A : Type) : Type := result (option A).

Definition invalid {A} (msgs : list string) : result A :=
  Raise (ValidationError (Messages msgs)).

Definition detail_messages (d : detail) : list string :=
  match d with
  | Messages msgs => msgs
  | Fields fs => List.concat (map snd fs)
  end.

(** One round of the loop of [Serializer.to_internal_value]: a
    [ValidationError] is recorded under the field's name, any other
    exception leaves the loop. *)
Definition run_field {A} (name : string) (r : field_result A)
  (errors : ErrorDict) : result (option A * ErrorDict) :=
  match r with
  | Ok v => Ok (v, errors)
  | Raise (ValidationError d) =>
      Ok (None, (errors ++ [(name, detail_messages d)])%list)
  | Raise e => Raise e
  end.

(** [validate_<field>] runs on the value the field accepted. *)
Definition then_validate {A} (r : field_result A) (validate : A -> result A)
  : field_result A :=
  v <- r ;;
  match v with
  | None => Ok None
  | Some a => a' <- validate a ;; Ok (Some a')
  end.

(** The end of [to_internal_value]. *)
Definition raise_if_errors {A} (errors : ErrorDict) (a : A) : result A :=
  match errors with
  | [] => Ok a
  | _ => Raise (ValidationError (Fields errors))
  end.

(** Every validator of a field runs; their messages are gathered. *)
Definition run_validators {A} (validators : list (A -> list string)) (a : A)
  : result A :=
  match List.concat (map (fun v => v a) validators) with
  | [] => Ok a
  | msgs => invalid msgs
  end.

(** A missing field: skipped on a partial update or when not required. *)
Definition validate_empty {A} (required partial : bool) : field_result A :=
  if partial then Ok None
  else if required then invalid ["This field is required."]
  else Ok None.

(** [serializers.CharField], from the point where the framework has
    trimmed the submitted value: [input] is the value after
    [to_internal_value], and a request is represented by its trimmed
    values. A blank value that is allowed skips the validators. The
    field's own [ProhibitNullCharactersValidator] is not among the
    validators run here. On a [plain] submitted value the field therefore
    does what the framework's does; where a theorem is about the values a
    client submits as such, it asks them to be [plain]. *)
Definition CharField (required allow_blank partial : bool)
  (validators : list (string -> list string)) (input : option string)
  : field_result string :=
  match input with
  | None => validate_empty required partial
  | Some s =>
      if String.eqb s "" then
        if allow_blank then Ok (Some "")
        else invalid ["This field may not be blank."]
      else s' <- run_validators validators s ;; Ok (Some s')
  end.

(** Numbers as they appear in messages. *)
Definition show_nat (n : nat) : string :=
  NilEmpty.string_of_uint (Nat.to_uint n).

Definition show_Z (z : Z) : string := NilZero.string_of_int (Z.to_int z).

(** [MaxLengthValidator]: [len(value) <= limit_value], in characters. *)
Definition MaxLengthValidator (n : nat) (s : string) : list string :=
  if Nat.leb (str_len s) n then []
  else ["Ensure this field has no more than " ++ show_nat n
        ++ " characters."].

(** [serializers.ChoiceField]. *)
Definition invalid_choice (s : string) : string :=
  dquote ++ s ++ dquote ++ " is not a valid choice.".

Definition ChoiceField (required partial : bool) (choices : list string)
  (input : option string) : field_result string :=
  match input with
  | None => validate_empty required partial
  | Some s =>
      if str_in s choices then Ok (Some s)
      else invalid [invalid_choice s]
  end.

Definition MaxValueValidator (limit : Z) (z : Z) : list string :=
  if limit <? z then
    ["Ensure this value is less than or equal to " ++ show_Z limit ++ "."]
  else [].

Definition MinValueValidator (limit : Z) (z : Z) : list string :=
  if z <? limit then
    ["Ensure this value is greater than or equal to " ++ show_Z limit ++ "."]
  else [].

(** [serializers.IntegerField]. *)
Definition IntegerField (required partial : bool)
  (validators : list (Z -> list string)) (input : option Z)
  : field_result Z :=
  match input with
  | None => validate_empty required partial
  | Some z => z' <- run_validators validators z ;; Ok (Some z')
  end.

(** ** Request payloads: the fields a client may submit *)

Module SignupData.
Record t : Type := Build {
  username : option string;
  email : option string
}.
End SignupData.

Module TokenData.
Record t : Type := Build {
  username : option string;
  confirmation_code : option string
}.
End TokenData.

Module UserData.
Record t : Type := Build {
  email : option string;
  username : option string;
  bio : option string;
  role : option string;
  first_name : option string;
  last_name : option string
}.
End UserData.

Module ReviewData.
Record t : Type := Build {
  text : option string;
  score : option Z
}.
End ReviewData.

(** [validated_data[key]]. *)
Definition getitem {A} (v : option A) : result A :=
  match v with
  | Some a => Ok a
  | None => Raise KeyError
  end.

Definition default {A} (d : A) (v : option A) : A :=
  match v with
  | Some a => a
  | None => d
  end.

(** ** api/serializers.py: the rating *)

Definition sum (l : list Z) : Z := fold_right Z.add 0 l.

Definition len {A} (l : list A) : Z := Z.of_nat (List.length l).

(** Python's one-argument [round]: to the nearest integer, a tie to the
    even neighbour. *)
Definition py_round (q : Q) : Z :=
  let f := Qfloor q in
  match (q - inject_Z f ?= 1 # 2)%Q with
  | Lt => f
  | Gt => f + 1
  | Eq => if Z.even f then f else f + 1
  end.

(** [TitleReadSerializer.get_rating]. [sum(...) / len(...)] is the true
    quotient of two integers; it is kept exact here. The double that
    Python computes is the correctly rounded quotient, and as long as the
    sum stays below 2^52 in absolute value it lies on the same side of
    every half-integer as the exact quotient (and equals it at a tie), so
    [round] gives the same integer. Beyond that bound the two differ (a
    single score of 2^53 + 1 is rated 2^53 by the program), and the
    theorems that speak of the value of the rating carry the bound as a
    hypothesis. *)
Definition get_rating (st : State) (obj : Title.t) : option Z :=
  let reviews :=
    filter (fun review => Review.title review =? Title.pk obj) (reviews st) in
  let total_scores := map Review.score reviews in
  match total_scores with
  | [] => None
  | _ =>
      let rating :=
        py_round (inject_Z (sum total_scores) / inject_Z (len total_scores))
      in
      Some rating
  end.

(** The scores of every review of a title, in stored order. *)
Definition title_scores (st : State) (obj : Title.t) : list Z :=
  map Review.score
    (filter (fun review => Review.title review =? Title.pk obj) (reviews st)).

(** ** api/serializers.py: field validators written in the source *)

(** [EmailSerializer.validate_username]. *)
Definition validate_username (value : string) : result string :=
  if String.eqb value "me" then
    invalid ["Имя пользователя: " ++ value ++ " недоступно"]
  else Ok value.

(** [ReviewSerializer.validate_score]. *)
Definition validate_score (value : Z) : result Z :=
  if negb ((1 <=? value) && (value <=? 10)) then
    invalid ["Оценка может быть от 1 до 10!"]
  else Ok value.

(** [Review.objects.filter(author=..., title=...).exists()]. *)
Definition review_exists (rows : list Review.t) (author title : Z) : bool :=
  existsb
    (fun r => (Review.author r =? author) && (Review.title r =? title)) rows.

(** [ReviewSerializer.validate_title]; [username] is [request.user]. A
    query filtered by [AnonymousUser] is a type error. *)
Definition validate_title (st : State) (username : request_user)
  (value : Title.t) : result Title.t :=
  match username with
  | AnonymousUser => Raise TypeError
  | User u =>
      let reviews :=
        review_exists (reviews st) (CustomUser.pk u) (Title.pk value) in
      if reviews then
        invalid ["Нельзя добавить второй отзыв на то же самое произведение!"]
      else Ok value
  end.

(** ** Record updates *)

Definition set_confirmation_code (u : CustomUser.t) (code : string)
  : CustomUser.t :=
  CustomUser.Build (CustomUser.pk u) (CustomUser.username u)
    (CustomUser.email u) (CustomUser.role u) (CustomUser.bio u)
    (CustomUser.first_name u) (CustomUser.last_name u) code
    (CustomUser.is_superuser u).

(** [ModelSerializer.update]: every validated attribute is set on the
    instance. *)
Definition UserSerializer_update (instance : CustomUser.t)
  (validated_data : UserData.t) : CustomUser.t :=
  CustomUser.Build (CustomUser.pk instance)
    (default (CustomUser.username instance) (UserData.username validated_data))
    (default (CustomUser.email instance) (UserData.email validated_data))
    (default (CustomUser.role instance) (UserData.role validated_data))
    (default (CustomUser.bio instance) (UserData.bio validated_data))
    (default (CustomUser.first_name instance)
       (UserData.first_name validated_data))
    (default (CustomUser.last_name instance)
       (UserData.last_name validated_data))
    (CustomUser.confirmation_code instance)
    (CustomUser.is_superuser instance).

(** [serializer.save(role=...)]: the keyword overrides the validated
    value. *)
Definition with_role (validated_data : UserData.t) (role : string)
  : UserData.t :=
  UserData.Build (UserData.email validated_data)
    (UserData.username validated_data) (UserData.bio validated_data)
    (Some role) (UserData.first_name validated_data)
    (UserData.last_name validated_data).

(** ** The store's write operations and its uniqueness constraints *)

(** [send_mail] hands the message to the mail backend, which is taken to
    accept it. With [fail_silently=False] a backend that fails raises
    instead; that path is left out, and the properties of the views that
    send mail are stated so as not to depend on the delivery. *)
Definition send_mail (subject message from_email : string)
  (recipient_list : list string) : M unit :=
  fun st =>
    (Ok tt,
     set_outbox st
       (outbox st ++ [mkMail subject message from_email recipient_list])%list).

(** [unique=True] on [username] and on [email]. *)
Definition user_conflict (rows : list CustomUser.t) (u : CustomUser.t)
  : bool :=
  existsb
    (fun r =>
       negb (CustomUser.pk r =? CustomUser.pk u)
       && (String.eqb (CustomUser.username r) (CustomUser.username u)
           || String.eqb (CustomUser.email r) (CustomUser.email u)))
    rows.

(** [CustomUser.objects.create(username=..., email=...)]: the other
    columns take their defaults. *)
Definition CustomUser_objects_create (username email : string)
  : M CustomUser.t :=
  fun st =>
    let rows := custom_user st in
    let user :=
      CustomUser.Build (next_pk (map CustomUser.pk rows)) username email
        USER_ROLE_USER "" "" "" "" false in
    if user_conflict rows user then (Raise IntegrityError, st)
    else (Ok user, set_custom_user st (rows ++ [user])%list).

(** [user.save()] of a loaded instance: the row with its primary key is
    rewritten, or inserted when there is none. *)
Definition CustomUser_save (u : CustomUser.t) : M unit :=
  fun st =>
    let rows := custom_user st in
    if user_conflict rows u then (Raise IntegrityError, st)
    else if existsb (fun r => CustomUser.pk r =? CustomUser.pk u) rows then
      (Ok tt,
       set_custom_user st
         (map (fun r => if CustomUser.pk r =? CustomUser.pk u then u else r)
            rows))
    else (Ok tt, set_custom_user st (rows ++ [u])%list).

(** [Review.Meta.constraints]:
    [UniqueConstraint(fields=('title', 'author'), name='unique_title')]. *)
Definition unique_title (rows : list Review.t) (r : Review.t) : bool :=
  negb
    (existsb
       (fun r' =>
          negb (Review.pk r' =? Review.pk r)
          && (Review.title r' =? Review.title r)
          && (Review.author r' =? Review.author r))
       rows).

(** [Review.objects.create(...)]. *)
Definition Review_objects_create (author : Z) (text : string) (title : Z)
  (score : Z) : M Review.t :=
  fun st =>
    let rows := reviews st in
    let review :=
      Review.Build (next_pk (map Review.pk rows)) author text title score in
    if unique_title rows review then
      (Ok review, set_reviews st (rows ++ [review])%list)
    else (Raise IntegrityError, st).

(** [review.save()] of a loaded instance. *)
Definition Review_save (r : Review.t) : M unit :=
  fun st =>
    let rows := reviews st in
    if negb (unique_title rows r) then (Raise IntegrityError, st)
    else if existsb (fun r' => Review.pk r' =? Review.pk r) rows then
      (Ok tt,
       set_reviews st
         (map (fun r' => if Review.pk r' =? Review.pk r then r else r') rows))
    else (Ok tt, set_reviews st (rows ++ [r])%list).

(** [get_object_or_404(CustomUser, username=username)]. *)
Definition get_user_or_404 (username : string) : M CustomUser.t :=
  query (fun st =>
    get_object_or_404 (fun u => String.eqb (CustomUser.username u) username)
      (custom_user st)).

(** [get_object_or_404(Title, pk=title_id)]. *)
Definition get_title_or_404 (title_id : Z) (st : State) : result Title.t :=
  get_object_or_404 (fun t => Title.pk t =? title_id) (titles st).

(** [api/utils.py], [CurrentTitleDefault.__call__]: the title named by the
    URL. *)
Definition CurrentTitleDefault (title_id : Z) (st : State) : result Title.t :=
  get_title_or_404 title_id st.

Definition nl : string := String (ascii_of_nat 10) "".

(** ** Serializers, helpers and views *)

Section Framework.

(** What the source imports and this development keeps abstract:
    [UnicodeUsernameValidator] and Django's [EmailValidator] as
    predicates, [str(uuid.uuid3(uuid.NAMESPACE_DNS, name))],
    [str(AccessToken.for_user(user))] and the setting
    [EMAIL_HOST_USER]. *)
Variable username_validator : string -> bool.
Variable EmailValidator : string -> bool.
Variable uuid3_NAMESPACE_DNS : string -> string.
Variable AccessToken_for_user : CustomUser.t -> string.
Variable EMAIL_HOST_USER : string.

Definition UnicodeUsernameValidator (s : string) : list string :=
  if username_validator s then []
  else ["Enter a valid username. This value may contain only letters, "
        ++ "numbers, and @/./+/-/_ characters."].

Definition validate_email (s : string) : list string :=
  if EmailValidator s then [] else ["Enter a valid email address."].

(** [UniqueValidator(queryset=CustomUser.objects.all())] on a column;
    on an update the instance itself is excluded. *)
Definition UniqueValidator (column : CustomUser.t -> string)
  (msg : string) (instance : option CustomUser.t) (st : State)
  (value : string) : list string :=
  let exclude r :=
    match instance with
    | Some i => CustomUser.pk r =? CustomUser.pk i
    | None => false
    end in
  if existsb (fun r => String.eqb (column r) value && negb (exclude r))
       (custom_user st)
  then [msg] else [].

Definition username_field (instance : option CustomUser.t) (st : State)
  (partial : bool) (input : option string) : field_result string :=
  CharField true false partial
    [UnicodeUsernameValidator;
     UniqueValidator CustomUser.username
       "Пользователь с таким именем уже зарегистрирован" instance st;
     MaxLengthValidator 257]
    input.

Definition email_field (instance : option CustomUser.t) (st : State)
  (partial : bool) (input : option string) : field_result string :=
  CharField true false partial
    [UniqueValidator CustomUser.email
       "Пользователь with this Электронная почта already exists."
       instance st;
     MaxLengthValidator 257;
     validate_email]
    input.

(** [EmailSerializer(data=...).is_valid(raise_exception=True)]: the
    validated data or the [ValidationError] with every field's
    messages. *)
Definition EmailSerializer_is_valid (st : State) (data : SignupData.t)
  : result SignupData.t :=
  r1 <- run_field "username"
          (then_validate
             (username_field None st false (SignupData.username data))
             validate_username) [] ;;
  r2 <- run_field "email"
          (email_field None st false (SignupData.email data)) (snd r1) ;;
  raise_if_errors (snd r2) (SignupData.Build (fst r1) (fst r2)).

(** [EmailRegistrationView.mail_send]. *)
Definition mail_send (email : string) (user : CustomUser.t) : M unit :=
  send_mail "YaMDB Confirmation Code"
    (nl ++ "                Hello!" ++ nl ++ nl
     ++ "                Your confirmation: "
     ++ CustomUser.confirmation_code user ++ nl ++ "            ")
    EMAIL_HOST_USER [email].

(** [EmailRegistrationView.post]. *)
Definition EmailRegistrationView_post (data : SignupData.t) : M Response :=
  validated_data <~ query (fun st => EmailSerializer_is_valid st data) ;;
  email <~ query (fun _ => getitem (SignupData.email validated_data)) ;;
  username <~ query (fun _ => getitem (SignupData.username validated_data)) ;;
  _ <~ CustomUser_objects_create username email ;;
  user <~ get_user_or_404 username ;;
  _ <~ mail_send email user ;;
  ret (mkResponse
         (JDict [("username", JStr username); ("email", JStr email)])
         HTTP_200_OK).

(** [api/utils.py], [generate_and_send_confirmation_code_to_email];
    no view calls it. *)
Definition generate_and_send_confirmation_code_to_email
  (username : string) : M unit :=
  user <~ get_user_or_404 username ;;
  let confirmation_code := uuid3_NAMESPACE_DNS username in
  let user := set_confirmation_code user confirmation_code in
  _ <~ send_mail "Код подтвержения для завершения регистрации"
         ("Ваш код для получения JWT токена "
          ++ CustomUser.confirmation_code user)
         EMAIL_HOST_USER [CustomUser.email user] ;;
  CustomUser_save user.

(** [ConfirmationCodeSerializer]: two required character fields. *)
Definition ConfirmationCodeSerializer_is_valid (data : TokenData.t)
  : result TokenData.t :=
  r1 <- run_field "username"
          (CharField true false false [] (TokenData.username data)) [] ;;
  r2 <- run_field "confirmation_code"
          (CharField true false false [] (TokenData.confirmation_code data))
          (snd r1) ;;
  raise_if_errors (snd r2) (TokenData.Build (fst r1) (fst r2)).

(** [AccessTokenView.get_token]. [AccessToken_for_user] stands for the
    token issued at this call; the library stamps each token with its own
    identifier and expiry, so two calls for one user give two tokens, and
    nothing is proved from one call about another. *)
Definition get_token (user : CustomUser.t) : json :=
  JDict [("token", JStr (AccessToken_for_user user))].

(** The response of the [except CustomUser.DoesNotExist] branch. *)
Definition not_found_response : Response :=
  mkResponse (JDict [("email", JStr "Not found")]) HTTP_400_BAD_REQUEST.

(** [AccessTokenView.post]. The [try] block yields the user; its handler
    returns from the view with [not_found_response]. *)
Definition AccessTokenView_post (data : TokenData.t) : M Response :=
  validated_data <~ query (fun _ => ConfirmationCodeSerializer_is_valid data) ;;
  confirmation_code <~
    query (fun _ => getitem (TokenData.confirmation_code validated_data)) ;;
  username <~ query (fun _ => getitem (TokenData.username validated_data)) ;;
  found <~ try_except_DoesNotExist
             (user <~ get_user_or_404 username ;; ret (inr user))
             (ret (inl not_found_response)) ;;
  match found with
  | inl response => ret response
  | inr user =>
      if negb (String.eqb (CustomUser.confirmation_code user)
                 confirmation_code) then
        ret (mkResponse
               (JDict [("confirmation_code",
                        JStr ("Invalid confirmation" ++ "code for email "
                              ++ CustomUser.email user))])
               HTTP_400_BAD_REQUEST)
      else ret (mkResponse (get_token user) HTTP_200_OK)
  end.

(** [UserSerializer(instance, data=..., partial=...)]: the model's
    fields in the order of [Meta.fields]. *)
Definition UserSerializer_is_valid (st : State) (instance : CustomUser.t)
  (partial : bool) (data : UserData.t) : result UserData.t :=
  r1 <- run_field "email"
          (email_field (Some instance) st partial (UserData.email data))
          [] ;;
  r2 <- run_field "username"
          (username_field (Some instance) st partial
             (UserData.username data)) (snd r1) ;;
  r3 <- run_field "bio"
          (CharField false true partial [] (UserData.bio data)) (snd r2) ;;
  r4 <- run_field "role"
          (ChoiceField false partial USER_ROLE_CHOICES (UserData.role data))
          (snd r3) ;;
  r5 <- run_field "first_name"
          (CharField false true partial [MaxLengthValidator 257]
             (UserData.first_name data)) (snd r4) ;;
  r6 <- run_field "last_name"
          (CharField false true partial [MaxLengthValidator 257]
             (UserData.last_name data)) (snd r5) ;;
  raise_if_errors (snd r6)
    (UserData.Build (fst r1) (fst r2) (fst r3) (fst r4) (fst r5) (fst r6)).

(** [UserSerializer(user).data]. *)
Definition UserSerializer_data (u : CustomUser.t) : json :=
  JDict [("email", JStr (CustomUser.email u));
         ("username", JStr (CustomUser.username u));
         ("bio", JStr (CustomUser.bio u));
         ("role", JStr (CustomUser.role u));
         ("first_name", JStr (CustomUser.first_name u));
         ("last_name", JStr (CustomUser.last_name u))].

(** [UserViewSet.me]: the action is routed for [GET] and [PATCH] only and
    guarded by [IsAuthenticated]. [HEAD] and [OPTIONS], which the
    framework answers on its own for an authenticated user (as a [GET]
    without a body, and with the view's metadata), are outside what is
    proved of this action. *)
Definition UserViewSet_me (request : Request) (data : UserData.t)
  : M Response :=
  if negb (@has_permission IsAuthenticated request) then
    raise NotAuthenticated
  else if negb (method_in (method request) [GET; PATCH]) then
    raise (MethodNotAllowed (method_name (method request)))
  else
    match user request with
    | AnonymousUser => raise NotAuthenticated
    | User request_user =>
        if method_eqb (method request) GET then
          ret (mkResponse (UserSerializer_data request_user) HTTP_200_OK)
        else
          validated_data <~
            query (fun st =>
                     UserSerializer_is_valid st request_user true data) ;;
          let instance :=
            UserSerializer_update request_user
              (with_role validated_data (CustomUser.role request_user)) in
          _ <~ CustomUser_save instance ;;
          ret (mkResponse (UserSerializer_data instance) HTTP_200_OK)
    end.

End Framework.

(** ** Reviews: serializer and view set *)

Module ReviewAttrs.
Record t : Type := Build {
  text : option string;
  score : option Z;
  title : option Title.t
}.
End ReviewAttrs.

(** [title = serializers.HiddenField(default=CurrentTitleDefault())]: no
    input is read; on a partial update the field is skipped. *)
Definition title_field (st : State) (title_id : Z) (partial : bool)
  : field_result Title.t :=
  if partial then Ok None
  else t <- CurrentTitleDefault title_id st ;; Ok (Some t).

Section ReviewEndpoints.

(** [score] is a [PositiveIntegerField]: its serializer field carries the
    bounds of the column, 0 and the largest value the database in use
    stores, which the source does not fix. *)
Variable positive_integer_max : Z.

Definition score_field (partial : bool) (input : option Z)
  : field_result Z :=
  IntegerField true partial
    [MaxValueValidator positive_integer_max; MinValueValidator 0] input.

(** [UniqueTogetherValidator(queryset=Review.objects.all(),
    fields=('author', 'title'))]. [author] is read-only with the current
    user as its default, which a partial update skips. On a creation both
    values are required; on an update a value missing from the attributes
    is taken from the instance, and the instance itself is excluded from
    the query. The validator filters through [qs_filter], which answers a
    [TypeError] with the empty query set: with [AnonymousUser] as author
    nothing is found and the validator passes. *)
Definition UniqueTogetherValidator (st : State) (actor : request_user)
  (instance : option Review.t) (partial : bool) (attrs : ReviewAttrs.t)
  : result unit :=
  let required := ["This field is required."] in
  let missing_items :=
    match instance with
    | Some _ => []
    | None =>
        (if partial then [("author", required)] else [])
        ++ match ReviewAttrs.title attrs with
           | None => [("title", required)]
           | Some _ => []
           end
    end%list in
  _ <- raise_if_errors missing_items tt ;;
  author <-
    (if partial then
       match instance with
       | Some i => Ok (Some (Review.author i))
       | None => Raise KeyError
       end
     else
       match actor with
       | User u => Ok (Some (CustomUser.pk u))
       | AnonymousUser => Ok None
       end) ;;
  title <-
    match ReviewAttrs.title attrs, instance with
    | Some t, _ => Ok (Title.pk t)
    | None, Some i => Ok (Review.title i)
    | None, None => Raise KeyError
    end ;;
  let exclude r :=
    match instance with
    | Some i => Review.pk r =? Review.pk i
    | None => false
    end in
  match author with
  | None => Ok tt
  | Some author =>
      if existsb
           (fun r => (Review.author r =? author) && (Review.title r =? title)
                     && negb (exclude r))
           (reviews st)
      then Raise (ValidationError
                    (Fields [("non_field_errors",
                              ["The fields author, title must make a unique set."])]))
      else Ok tt
  end.

(** [ReviewSerializer(instance, data=..., partial=...)
      .is_valid(raise_exception=True)]. *)
Definition ReviewSerializer_is_valid (st : State) (actor : request_user)
  (title_id : Z) (instance : option Review.t) (partial : bool)
  (data : ReviewData.t) : result ReviewAttrs.t :=
  r1 <- run_field "text"
          (CharField true false partial [] (ReviewData.text data)) [] ;;
  r2 <- run_field "score"
          (then_validate (score_field partial (ReviewData.score data))
             validate_score) (snd r1) ;;
  r3 <- run_field "title"
          (then_validate (title_field st title_id partial)
             (validate_title st actor)) (snd r2) ;;
  attrs <- raise_if_errors (snd r3)
             (ReviewAttrs.Build (fst r1) (fst r2) (fst r3)) ;;
  _ <- UniqueTogetherValidator st actor instance partial attrs ;;
  Ok attrs.

(** [ReviewSerializer(review).data]; the creation time is left out, and
    [author] is shown by its username. *)
Definition ReviewSerializer_data (r : Review.t) (author : string) : json :=
  JDict [("id", JInt (Review.pk r));
         ("text", JStr (Review.text r));
         ("author", JStr author);
         ("score", JInt (Review.score r))].

(** [ReviewViewSet.create] with [perform_create]. *)
Definition ReviewViewSet_create (actor : request_user) (title_id : Z)
  (data : ReviewData.t) : M Response :=
  let request := mkRequest POST actor in
  if negb (@has_permission (permission_classes ReviewViewSet) request) then
    raise NotAuthenticated
  else
    attrs <~ query (fun st =>
               ReviewSerializer_is_valid st actor title_id None false data) ;;
    title <~ query (get_title_or_404 title_id) ;;
    match actor with
    | AnonymousUser => raise TypeError
    | User u =>
        text <~ query (fun _ => getitem (ReviewAttrs.text attrs)) ;;
        score <~ query (fun _ => getitem (ReviewAttrs.score attrs)) ;;
        review <~ Review_objects_create (CustomUser.pk u) text
                    (Title.pk title) score ;;
        ret (mkResponse (ReviewSerializer_data review (CustomUser.username u))
               HTTP_201_CREATED)
    end.

(** [ModelSerializer.update] on a review. *)
Definition ReviewSerializer_update (instance : Review.t)
  (attrs : ReviewAttrs.t) : Review.t :=
  Review.Build (Review.pk instance) (Review.author instance)
    (default (Review.text instance) (ReviewAttrs.text attrs))
    (default (Review.title instance)
       (option_map Title.pk (ReviewAttrs.title attrs)))
    (default (Review.score instance) (ReviewAttrs.score attrs)).

(** [ReviewViewSet.update] ([PUT]) and [partial_update] ([PATCH]):
    [get_object] looks the review up among the title's reviews and checks
    the object permission. *)
Definition ReviewViewSet_update (actor : request_user) (title_id : Z)
  (review_id : Z) (partial : bool) (data : ReviewData.t) : M Response :=
  let request := mkRequest (if partial then PATCH else PUT) actor in
  if negb (@has_permission (permission_classes ReviewViewSet) request) then
    raise NotAuthenticated
  else
    title <~ query (get_title_or_404 title_id) ;;
    instance <~ query (fun st =>
                  get_object_or_404 (fun r => Review.pk r =? review_id)
                    (filter (fun r => Review.title r =? Title.pk title)
                       (reviews st))) ;;
    allowed <~ query (fun _ =>
                 @has_object_permission (permission_classes ReviewViewSet)
                   request (ReviewObj instance)) ;;
    if negb allowed then raise PermissionDenied
    else
      attrs <~ query (fun st =>
                 ReviewSerializer_is_valid st actor title_id (Some instance)
                   partial data) ;;
      let instance := ReviewSerializer_update instance attrs in
      _ <~ Review_save instance ;;
      author <~ query (fun st =>
                  objects_get
                    (fun u => CustomUser.pk u =? Review.author instance)
                    (custom_user st)) ;;
      ret (mkResponse
             (ReviewSerializer_data instance (CustomUser.username author))
             HTTP_200_OK).

End ReviewEndpoints.

(** [GenreViewSet.retrieve]. *)
Definition GenreViewSet_retrieve : Response :=
  mkResponse JNull HTTP_405_METHOD_NOT_ALLOWED.

(** The messages of the two validators of [ReviewSerializer]. *)
Definition duplicate_review_message : string :=
  "Нельзя добавить второй отзыв на то же самое произведение!".

Definition score_message : string := "Оценка может быть от 1 до 10!".

(** ** Sample data *)

Definition admin_user : CustomUser.t :=
  CustomUser.Build 1 "root" "root@yamdb.fake" USER_ROLE_ADMIN "" "" "" ""
    false.

Definition alice : CustomUser.t :=
  CustomUser.Build 2 "alice" "alice@yamdb.fake" USER_ROLE_USER "" "" "" ""
    false.

Definition bob : CustomUser.t :=
  CustomUser.Build 3 "bob" "bob@yamdb.fake" USER_ROLE_USER "" "" "" "" false.

Definition moderator_user : CustomUser.t :=
  CustomUser.Build 4 "carol" "carol@yamdb.fake" USER_ROLE_MODERATOR "" "" ""
    "" false.

Definition solaris : Title.t := Title.Build 1 "Solaris" 1972 "".

Definition alice_review : Review.t := Review.Build 1 2 "Slow and deep" 1 7.

Definition empty_state : State := mkState [] [] [] [] [].

Definition sample_state : State :=
  mkState [admin_user; alice; bob; moderator_user] [solaris] [alice_review]
    [] [].

Definition rated_state : State :=
  mkState [admin_user; alice; bob; moderator_user] [solaris]
    [Review.Build 1 2 "Slow" 1 3; Review.Build 2 3 "Fine" 1 5;
     Review.Build 3 4 "Great" 1 10] [] [].

(** One choice of the functions and settings the development is abstract
    in, to run the views on the sample data. *)
Definition any_string (_ : string) : bool := true.

Definition sample_uuid3 (name : string) : string := "uuid3:" ++ name.

Definition sample_token (u : CustomUser.t) : string :=
  "jwt:" ++ CustomUser.username u.

Definition sample_host : string := "noreply@yamdb.fake".

Definition sample_integer_max : Z := 2147483647.

(** The empty store after the registration of [dave]. *)
Definition registered_state : State :=
  mkState
    [CustomUser.Build 1 "dave" "dave@yamdb.fake" USER_ROLE_USER "" "" "" ""
       false]
    [] [] []
    [mkMail "YaMDB Confirmation Code"
       (nl ++ "                Hello!" ++ nl ++ nl
        ++ "                Your confirmation: " ++ nl ++ "            ")
       sample_host ["dave@yamdb.fake"]].

(** ** The access policy: targets and flags *)

(** The kind of object a view set looks up and hands to
    [check_object_permissions]. *)
Definition obj_matches (v : viewset) (obj : model_obj) : bool :=
  match v, obj with
  | UserViewSet, UserObj _
  | CategoryViewSet, CategoryObj _
  | GenreViewSet, GenreObj _
  | TitleViewSet, TitleObj _
  | ReviewViewSet, ReviewObj _
  | CommentViewSet, CommentObj _ => true
  | _, _ => false
  end.

(** The two view sets guarded by [IsOwnerAdminModeratorOrReadOnly]. *)
Definition is_feedback (v : viewset) : bool :=
  match v with
  | ReviewViewSet | CommentViewSet => true
  | _ => false
  end.

Definition set_is_superuser (u : CustomUser.t) (flag : bool) : CustomUser.t :=
  CustomUser.Build (CustomUser.pk u) (CustomUser.username u)
    (CustomUser.email u) (CustomUser.role u) (CustomUser.bio u)
    (CustomUser.first_name u) (CustomUser.last_name u)
    (CustomUser.confirmation_code u) flag.

Definition alice_comment : Comment.t := Comment.Build 1 2 "Seconded" 1.

(** ** Registration: the conditions the validators impose, and what is
    added *)

(** What the fields of [EmailSerializer] ask of a username and an email,
    given the validators of the two model fields and the users in the
    store. *)
Definition registrable (username_validator EmailValidator : string -> bool)
  (st : State) (username email : string) : Prop :=
  username <> "" /\ username <> "me"
  /\ username_validator username = true
  /\ (str_len username <= 257)%nat
  /\ existsb (fun r => String.eqb (CustomUser.username r) username)
       (custom_user st) = false
  /\ email <> ""
  /\ EmailValidator email = true
  /\ (str_len email <= 257)%nat
  /\ existsb (fun r => String.eqb (CustomUser.email r) email)
       (custom_user st) = false.

(** The row [CustomUser.objects.create] inserts for a registration. *)
Definition new_user (st : State) (username email : string) : CustomUser.t :=
  CustomUser.Build (next_pk (map CustomUser.pk (custom_user st)))
    username email USER_ROLE_USER "" "" "" "" false.

(** The message [mail_send] hands over for a user whose code is empty. *)
Definition signup_mail (EMAIL_HOST_USER email : string) : Mail :=
  mkMail "YaMDB Confirmation Code"
    (nl ++ "                Hello!" ++ nl ++ nl
     ++ "                Your confirmation: " ++ "" ++ nl ++ "            ")
    EMAIL_HOST_USER [email].

(** The uniqueness the store demands of its users: primary keys,
    usernames ([unique=True]) and emails ([unique=True]). *)
Definition users_unique (rows : list CustomUser.t) : Prop :=
  NoDup (map CustomUser.pk rows)
  /\ NoDup (map CustomUser.username rows)
  /\ NoDup (map CustomUser.email rows).

(** ** Reviews: what identifies a review, and the table's uniqueness *)

(** The columns of a review no endpoint is meant to change. *)
Definition review_key (r : Review.t) : Z * Z * Z :=
  (Review.pk r, Review.author r, Review.title r).

(** Primary keys are unique, and so are the pairs the constraint
    [unique_title] is declared on. *)
Definition reviews_unique (rows : list Review.t) : Prop :=
  NoDup (map Review.pk rows)
  /\ NoDup (map (fun r => (Review.author r, Review.title r)) rows).

(** The row [Review.objects.create] inserts for a user, a title, a text and
    a score. *)
Definition new_review (st : State) (u : CustomUser.t) (t : Title.t)
  (text : string) (score : Z) : Review.t :=
  Review.Build (next_pk (map Review.pk (reviews st))) (CustomUser.pk u) text
    (Title.pk t) score.

(** ** reviews/models.py: the year of a title *)

(** [validate_year]. [CINEMATOGRAPHY_CREATION_YEAR] is a setting the source
    imports, and [year_now] stands for [datetime.now().year]. *)
Definition validate_year (CINEMATOGRAPHY_CREATION_YEAR year_now : Z)
  (value : Z) : result Z :=
  if (year_now >=? value) && (value >=? CINEMATOGRAPHY_CREATION_YEAR) then
    Ok value
  else
    invalid
      ["Год выпуска произведения " ++ show_Z value
       ++ " не может быть больше настоящего года " ++ show_Z year_now
       ++ ", либо меньше даты создания кинематографа " ++ dquote
       ++ show_Z CINEMATOGRAPHY_CREATION_YEAR ++ dquote ++ "г."
       ++ "Проверьте введеные данные."].

(** ** Comments, and the deletion of a review *)

Module CommentData.
Record t : Type := Build {
  text : option string
}.
End CommentData.

Definition set_comments (st : State) (rows : list Comment.t) : State :=
  mkState (custom_user st) (titles st) (reviews st) rows (outbox st).

Definition HTTP_204_NO_CONTENT : Z := 204.

(** The two lookups [CommentViewSet] starts with:
    [get_object_or_404(Title, pk=title_id)], then
    [title.reviews.get(pk=review_id)], which raises [DoesNotExist] when the
    title has no such review. *)
Definition title_review (title_id review_id : Z) (st : State)
  : result Review.t :=
  title <- get_title_or_404 title_id st ;;
  objects_get (fun r => Review.pk r =? review_id)
    (filter (fun r => Review.title r =? Title.pk title) (reviews st)).

(** [CommentViewSet.get_queryset]: the comments of the review. They come
    in stored order here. The program lists them by
    [Comment.Meta.ordering], newest first and then by author, on a
    creation time that the rows of this development do not carry; what is
    proved of the result is therefore about which comments it holds, not
    about their order. *)
Definition CommentViewSet_get_queryset (title_id review_id : Z) (st : State)
  : result (list Comment.t) :=
  review <- title_review title_id review_id st ;;
  Ok (filter (fun c => Comment.review c =? Review.pk review) (comments st)).

(** [CommentSerializer]: [text] is the one field a client writes. *)
Definition CommentSerializer_is_valid (data : CommentData.t)
  : result (option string) :=
  r1 <- run_field "text"
          (CharField true false false [] (CommentData.text data)) [] ;;
  raise_if_errors (snd r1) (fst r1).

(** [CommentSerializer(comment).data], the creation time left out. *)
Definition CommentSerializer_data (c : Comment.t) (author : string) : json :=
  JDict [("id", JInt (Comment.pk c));
         ("text", JStr (Comment.text c));
         ("author", JStr author);
         ("review", JInt (Comment.review c))].

(** [Comment.objects.create(...)]. *)
Definition Comment_objects_create (author : Z) (text : string) (review : Z)
  : M Comment.t :=
  fun st =>
    let rows := comments st in
    let comment :=
      Comment.Build (next_pk (map Comment.pk rows)) author text review in
    (Ok comment, set_comments st (rows ++ [comment])%list).

(** [CommentViewSet.create] with [perform_create]. *)
Definition CommentViewSet_create (actor : request_user)
  (title_id review_id : Z) (data : CommentData.t) : M Response :=
  let request := mkRequest POST actor in
  if negb (@has_permission (permission_classes CommentViewSet) request) then
    raise NotAuthenticated
  else
    validated_data <~ query (fun _ => CommentSerializer_is_valid data) ;;
    review <~ query (title_review title_id review_id) ;;
    match actor with
    | AnonymousUser => raise TypeError
    | User u =>
        text <~ query (fun _ => getitem validated_data) ;;
        comment <~ Comment_objects_create (CustomUser.pk u) text
                     (Review.pk review) ;;
        ret (mkResponse
               (CommentSerializer_data comment (CustomUser.username u))
               HTTP_201_CREATED)
    end.

(** [review.delete()]: the row goes, and with it the comments, whose
    [review] key is declared [on_delete=models.CASCADE]. *)
Definition Review_delete (r : Review.t) : M unit :=
  fun st =>
    (Ok tt,
     mkState (custom_user st) (titles st)
       (filter (fun r' => negb (Review.pk r' =? Review.pk r)) (reviews st))
       (filter (fun c => negb (Comment.review c =? Review.pk r))
          (comments st))
       (outbox st)).

(** [ReviewViewSet.destroy]: [get_object], then [perform_destroy]. *)
Definition ReviewViewSet_destroy (actor : request_user)
  (title_id review_id : Z) : M Response :=
  let request := mkRequest DELETE actor in
  if negb (@has_permission (permission_classes ReviewViewSet) request) then
    raise NotAuthenticated
  else
    title <~ query (get_title_or_404 title_id) ;;
    instance <~ query (fun st =>
                  get_object_or_404 (fun r => Review.pk r =? review_id)
                    (filter (fun r => Review.title r =? Title.pk title)
                       (reviews st))) ;;
    allowed <~ query (fun _ =>
                 @has_object_permission (permission_classes ReviewViewSet)
                   request (ReviewObj instance)) ;;
    if negb allowed then raise PermissionDenied
    else
      _ <~ Review_delete instance ;;
      ret (mkResponse JNull HTTP_204_NO_CONTENT).

(** Every comment belongs to a stored review. *)
Definition comments_attached (st : State) : Prop :=
  forall c, In c (comments st) ->
            exists r, In r (reviews st) /\ Review.pk r = Comment.review c.

(** A store with comments: [bob] and [carol] commented [alice]'s review. *)
Definition discussed_state : State :=
  mkState [admin_user; alice; bob; moderator_user] [solaris] [alice_review]
    [Comment.Build 1 3 "Agreed" 1; Comment.Build 2 4 "Too slow for me" 1] [].

(** * Theorems *)

(** ** The access policy *)

Lemma str_in_roles (r : string) :
  str_in r [USER_ROLE_MODERATOR; USER_ROLE_ADMIN] = true <->
  r = USER_ROLE_MODERATOR \/ r = USER_ROLE_ADMIN.
Proof.
  unfold str_in; simpl.
  rewrite !orb_true_iff, !String.eqb_eq. intuition discriminate.
Qed.

(** C3. Whoever the actor is, anonymous included, the access policy allows
    the read-only actions [list] and [retrieve] on Category, Genre, Title,
    Review and Comment: both the request-level and the object-level check
    of the view set's permission class answer yes for [GET]. *)
Theorem C3_read_only_always_allowed :
  forall (v : viewset) (actor : request_user) (a : action)
         (target : option model_obj),
    is_content v = true ->
    is_write a = false ->
    @has_permission (permission_classes v)
       (mkRequest (action_method a) actor) = true
    /\ (forall obj,
          @has_object_permission (permission_classes v)
             (mkRequest (action_method a) actor) obj = Ok true)
    /\ decide v actor a target = Ok true.
Proof.
  intros v actor a target Hv Ha.
  destruct v; try discriminate Hv;
    destruct a; try discriminate Ha;
    (split; [reflexivity | split; [intro obj; reflexivity |]]);
    destruct target; reflexivity.
Qed.

Lemma C3_read_only_always_allowed_witness :
  decide GenreViewSet AnonymousUser retrieve (Some (GenreObj "rock"))
  = Ok true.
Proof.
  apply (C3_read_only_always_allowed GenreViewSet AnonymousUser retrieve
           (Some (GenreObj "rock"))); reflexivity.
Defined.

(** The policy allows retrieving a genre, yet the view itself answers
    405 to whoever asks. *)
Lemma GenreViewSet_retrieve_405 :
  status GenreViewSet_retrieve = HTTP_405_METHOD_NOT_ALLOWED.
Proof. reflexivity. Qed.

Lemma decide_catalog_write (v : viewset) (actor : request_user) (a : action)
  (target : option model_obj) :
  is_catalog v = true ->
  is_write a = true ->
  decide v actor a target =
  Ok match actor with
     | AnonymousUser => false
     | User u =>
         CustomUser.is_superuser u
         || String.eqb (CustomUser.role u) USER_ROLE_ADMIN
     end.
Proof.
  intros Hv Ha.
  destruct v; try discriminate Hv; destruct a; try discriminate Ha;
    unfold decide; simpl; unfold IsAdminOrReadOnly_has_permission; simpl;
    destruct actor as [|u]; simpl; try reflexivity;
    destruct (CustomUser.is_superuser u
              || String.eqb (CustomUser.role u) USER_ROLE_ADMIN);
    destruct target; reflexivity.
Qed.

(** C4. On Category, Genre and Title every write action (create, update,
    partial update, delete) is allowed exactly when the actor is
    authenticated and has role [admin] or the superuser flag, and is denied
    otherwise. An anonymous actor creating a Category is denied; an admin
    is allowed. *)
Theorem C4_catalog_write_iff_admin :
  forall (v : viewset) (actor : request_user) (a : action)
         (target : option model_obj),
    is_catalog v = true ->
    is_write a = true ->
    (decide v actor a target = Ok true <->
     exists u, actor = User u
               /\ (CustomUser.role u = USER_ROLE_ADMIN
                   \/ CustomUser.is_superuser u = true))
    /\ (decide v actor a target = Ok true
        \/ decide v actor a target = Ok false)
    /\ decide CategoryViewSet AnonymousUser create None = Ok false
    /\ (forall u, CustomUser.role u = USER_ROLE_ADMIN ->
                  decide CategoryViewSet (User u) create None = Ok true).
Proof.
  intros v actor a target Hv Ha.
  pose proof (decide_catalog_write v actor a target Hv Ha) as Hd.
  split; [| split; [| split]].
  - rewrite Hd. destruct actor as [|u].
    + split; [discriminate | intros [u [Hu _]]; discriminate].
    + split.
      * intros H. exists u. split; [reflexivity|].
        injection H as H. apply orb_true_iff in H.
        rewrite String.eqb_eq in H. tauto.
      * intros [u' [Hu [Hr | Hs]]]; injection Hu as <-; f_equal;
          apply orb_true_iff; rewrite String.eqb_eq; tauto.
  - rewrite Hd.
    destruct actor as [|u]; [right; reflexivity |].
    destruct (CustomUser.is_superuser u
              || String.eqb (CustomUser.role u) USER_ROLE_ADMIN);
      [left | right]; reflexivity.
  - reflexivity.
  - intros u Hr. unfold decide; simpl.
    unfold IsAdminOrReadOnly_has_permission; simpl.
    rewrite Hr. simpl. rewrite orb_true_r. reflexivity.
Qed.

Lemma C4_catalog_write_iff_admin_witness :
  decide TitleViewSet (User admin_user) destroy None = Ok true.
Proof.
  destruct (C4_catalog_write_iff_admin TitleViewSet (User admin_user) destroy
              None eq_refl eq_refl) as [[_ H] _].
  apply H. exists admin_user. split; [reflexivity | left; reflexivity].
Defined.

(** C5. For an authenticated actor and a review, updating or deleting the
    review is allowed exactly when the actor is the review's author or has
    role [moderator] or [admin]. A non-author with role [user] is denied,
    the author is allowed, and a moderator is allowed on any review. *)
Theorem C5_review_write_iff_owner_or_staff :
  forall (u : CustomUser.t) (r : Review.t) (a : action),
    a = update \/ a = partial_update \/ a = destroy ->
    (decide ReviewViewSet (User u) a (Some (ReviewObj r)) = Ok true <->
     Review.author r = CustomUser.pk u
     \/ CustomUser.role u = USER_ROLE_MODERATOR
     \/ CustomUser.role u = USER_ROLE_ADMIN)
    /\ (decide ReviewViewSet (User u) a (Some (ReviewObj r)) = Ok true
        \/ decide ReviewViewSet (User u) a (Some (ReviewObj r)) = Ok false)
    /\ (Review.author r <> CustomUser.pk u ->
        CustomUser.role u = USER_ROLE_USER ->
        decide ReviewViewSet (User u) a (Some (ReviewObj r)) = Ok false)
    /\ (Review.author r = CustomUser.pk u ->
        decide ReviewViewSet (User u) a (Some (ReviewObj r)) = Ok true)
    /\ (CustomUser.role u = USER_ROLE_MODERATOR ->
        decide ReviewViewSet (User u) a (Some (ReviewObj r)) = Ok true).
Proof.
  intros u r a Ha.
  assert (Hd : decide ReviewViewSet (User u) a (Some (ReviewObj r)) =
               Ok ((Review.author r =? CustomUser.pk u)
                   || str_in (CustomUser.role u)
                        [USER_ROLE_MODERATOR; USER_ROLE_ADMIN])).
  { destruct Ha as [-> | [-> | ->]]; reflexivity. }
  assert (Hiff : (Review.author r =? CustomUser.pk u)
                 || str_in (CustomUser.role u)
                      [USER_ROLE_MODERATOR; USER_ROLE_ADMIN] = true <->
                 Review.author r = CustomUser.pk u
                 \/ CustomUser.role u = USER_ROLE_MODERATOR
                 \/ CustomUser.role u = USER_ROLE_ADMIN).
  { rewrite orb_true_iff, Z.eqb_eq, str_in_roles. tauto. }
  rewrite Hd.
  split; [| split; [| split; [| split]]].
  - rewrite <- Hiff. split; [intros H; injection H; auto | intros ->; auto].
  - destruct ((Review.author r =? CustomUser.pk u)
              || str_in (CustomUser.role u)
                   [USER_ROLE_MODERATOR; USER_ROLE_ADMIN]); auto.
  - intros Hne Hrole. f_equal. apply not_true_is_false. rewrite Hiff.
    rewrite Hrole. intros [H | [H | H]];
      [contradiction | discriminate | discriminate].
  - intros H. f_equal. apply Hiff. auto.
  - intros H. f_equal. apply Hiff. auto.
Qed.

Lemma C5_review_write_iff_owner_or_staff_witness :
  decide ReviewViewSet (User bob) destroy (Some (ReviewObj alice_review))
  = Ok false
  /\ decide ReviewViewSet (User alice) destroy (Some (ReviewObj alice_review))
     = Ok true
  /\ decide ReviewViewSet (User moderator_user) destroy
       (Some (ReviewObj alice_review)) = Ok true.
Proof.
  split; [| split].
  - destruct (C5_review_write_iff_owner_or_staff bob alice_review destroy)
      as [_ [_ [H _]]]; [right; right; reflexivity |].
    apply H; [discriminate | reflexivity].
  - destruct (C5_review_write_iff_owner_or_staff alice alice_review destroy)
      as [_ [_ [_ [H _]]]]; [right; right; reflexivity |].
    apply H; reflexivity.
  - destruct (C5_review_write_iff_owner_or_staff moderator_user alice_review
                destroy) as [_ [_ [_ [_ H]]]]; [right; right; reflexivity |].
    apply H; reflexivity.
Defined.

(** ** The rating *)

Lemma py_round_div (s n : Z) :
  0 < n ->
  py_round (inject_Z s / inject_Z n) =
  match 2 * (s mod n) ?= n with
  | Lt => s / n
  | Gt => s / n + 1
  | Eq => if Z.even (s / n) then s / n else s / n + 1
  end.
Proof.
  intros Hn. destruct n as [|p|p]; try lia.
  pose proof (Z.div_mod s (Z.pos p) ltac:(lia)) as Hdm.
  pose proof (Z.mod_pos_bound s (Z.pos p) ltac:(lia)) as Hm.
  unfold py_round.
  assert (Hf : Qfloor (inject_Z s / inject_Z (Z.pos p)) = s / Z.pos p).
  { unfold Qdiv, Qinv, Qmult, inject_Z, Qfloor; simpl.
    rewrite Z.mul_1_r. reflexivity. }
  rewrite Hf.
  set (q := s / Z.pos p) in *. set (m := s mod Z.pos p) in *.
  assert (Hc : (inject_Z s / inject_Z (Z.pos p) - inject_Z q ?= 1 # 2)%Q
               = (2 * m ?= Z.pos p)).
  { destruct (Z.compare_spec (2 * m) (Z.pos p)) as [H | H | H];
      unfold Qcompare, Qminus, Qplus, Qopp, Qdiv, Qinv, Qmult, inject_Z;
      simpl; rewrite ?Z.mul_1_r, ?Pos.mul_1_r, ?Pos.mul_1_l.
    - apply Z.compare_eq_iff. nia.
    - apply Z.compare_lt_iff. nia.
    - apply Z.compare_gt_iff. nia. }
  rewrite Hc. reflexivity.
Qed.

Lemma len_pos {A} (l : list A) : l <> [] -> 0 < len l.
Proof. destruct l; [congruence | intros _; unfold len; simpl; lia]. Qed.

Lemma get_rating_unfold (st : State) (obj : Title.t) :
  get_rating st obj =
  match title_scores st obj with
  | [] => None
  | _ => Some (py_round (inject_Z (sum (title_scores st obj))
                         / inject_Z (len (title_scores st obj))))
  end.
Proof. reflexivity. Qed.

(** C1. A title without reviews has no rating ([None], not zero). A title
    with reviews is rated by an integer [r] nearest to the mean of all its
    review scores: with [s] their sum and [n] their number,
    [|2s - 2nr| <= n], i.e. [|s/n - r| <= 1/2]. The tie-break is that of
    Python's [round]: when the mean lies exactly between two integers the
    even one is returned. Scores 3, 5, 10 are rated 6. This is stated for
    scores whose sum is below 2^52 in absolute value, where the double
    that Python divides in rounds as the exact quotient does. *)
Theorem C1_get_rating_rounds_mean :
  forall (st : State) (obj : Title.t),
    Z.abs (sum (title_scores st obj)) < 2 ^ 52 ->
    (title_scores st obj = [] -> get_rating st obj = None)
    /\ (title_scores st obj <> [] ->
        exists r,
          get_rating st obj = Some r
          /\ Z.abs (2 * sum (title_scores st obj)
                    - 2 * len (title_scores st obj) * r)
             <= len (title_scores st obj)
          /\ (Z.abs (2 * sum (title_scores st obj)
                     - 2 * len (title_scores st obj) * r)
              = len (title_scores st obj) -> Z.even r = true))
    /\ (title_scores st obj = [3; 5; 10] -> get_rating st obj = Some 6).
Proof.
  intros st obj _. rewrite get_rating_unfold.
  split; [| split].
  - intros ->. reflexivity.
  - intros Hne. pose proof (len_pos _ Hne) as Hn.
    destruct (title_scores st obj) as [|x xs] eqn:E; [congruence|].
    rewrite <- E in *. clear E.
    set (s := sum (title_scores st obj)) in *.
    set (n := len (title_scores st obj)) in *.
    rewrite (py_round_div s n Hn).
    pose proof (Z.div_mod s n ltac:(lia)) as Hdm.
    pose proof (Z.mod_pos_bound s n Hn) as Hm.
    set (q := s / n) in *. set (m := s mod n) in *.
    assert (Hs : 2 * s - 2 * n * q = 2 * m) by lia.
    assert (Hs1 : 2 * s - 2 * n * (q + 1) = 2 * m - 2 * n) by lia.
    destruct (Z.compare_spec (2 * m) n) as [H | H | H].
    + destruct (Z.even q) eqn:Ev.
      * exists q. rewrite Hs. split; [reflexivity | split; [lia | auto]].
      * exists (q + 1). rewrite Hs1.
        split; [reflexivity | split; [lia |]].
        intros _. rewrite Z.even_add, Ev. reflexivity.
    + exists q. rewrite Hs. split; [reflexivity | split; lia].
    + exists (q + 1). rewrite Hs1. split; [reflexivity | split; lia].
  - intros ->. reflexivity.
Qed.

Lemma C1_get_rating_rounds_mean_witness :
  Z.abs (sum (title_scores rated_state solaris)) < 2 ^ 52
  /\ get_rating rated_state solaris = Some 6.
Proof.
  assert (Hb : Z.abs (sum (title_scores rated_state solaris)) < 2 ^ 52)
    by (vm_compute; reflexivity).
  split; [exact Hb|].
  destruct (C1_get_rating_rounds_mean rated_state solaris Hb) as [_ [_ H]].
  apply H. reflexivity.
Defined.

(** Ties go to the even neighbour, upwards or downwards. *)
Example get_rating_tie_up :
  get_rating
    (mkState [] [solaris]
       [Review.Build 1 2 "" 1 7; Review.Build 2 3 "" 1 8] [] [])
    solaris = Some 8.
Proof. reflexivity. Qed.

Example get_rating_tie_down :
  get_rating
    (mkState [] [solaris]
       [Review.Build 1 2 "" 1 6; Review.Build 2 3 "" 1 7] [] [])
    solaris = Some 6.
Proof. reflexivity. Qed.

(** ** Reading a successful validation backwards *)

Lemma raise_if_errors_Ok {A} (errors : ErrorDict) (a b : A) :
  raise_if_errors errors a = Ok b -> errors = [] /\ b = a.
Proof.
  destruct errors; simpl; [intros H; injection H; auto | discriminate].
Qed.

Lemma run_field_nil {A} (name : string) (r : field_result A)
  (errors : ErrorDict) (v : option A) (errors' : ErrorDict) :
  run_field name r errors = Ok (v, errors') ->
  errors' = [] ->
  r = Ok v /\ errors = [].
Proof.
  destruct r as [a | e]; simpl.
  - intros H; injection H as -> ->. auto.
  - destruct e; try discriminate.
    intros H; injection H as _ <-. intros H.
    apply app_eq_nil in H. destruct H; discriminate.
Qed.

Lemma run_field_raise {A} (name : string) (r : field_result A)
  (errors : ErrorDict) (e : exn) :
  run_field name r errors = Raise e -> r = Raise e.
Proof.
  destruct r as [a | e']; simpl; [discriminate|].
  destruct e'; simpl; try discriminate;
    intros H; injection H as <-; reflexivity.
Qed.

Lemma run_validators_Ok {A} (validators : list (A -> list string)) (a b : A) :
  run_validators validators a = Ok b ->
  b = a /\ forall v, In v validators -> v a = [].
Proof.
  unfold run_validators.
  destruct (List.concat (map (fun v => v a) validators)) eqn:E;
    [| discriminate].
  intros H; injection H as <-. split; [reflexivity|].
  intros v Hin.
  assert (Hc : forall l, In l (map (fun v => v a) validators) -> l = []).
  { apply Forall_forall. apply concat_nil_Forall. exact E. }
  apply Hc. apply in_map_iff. exists v. auto.
Qed.

Lemma run_validators_not_other {A} (validators : list (A -> list string))
  (a : A) (e : exn) :
  run_validators validators a = Raise e -> exists d, e = ValidationError d.
Proof.
  unfold run_validators, invalid.
  destruct (List.concat _); [discriminate|].
  intros H; injection H as <-. eauto.
Qed.

(** A character field that validates returns its input, every validator
    having passed on a value that is not blank. *)
Lemma CharField_Ok (required allow_blank partial : bool)
  (validators : list (string -> list string)) (input v : option string) :
  CharField required allow_blank partial validators input = Ok v ->
  v = input
  /\ forall s, input = Some s -> s <> "" ->
               forall f, In f validators -> f s = [].
Proof.
  unfold CharField, validate_empty. destruct input as [s|].
  - destruct (String.eqb_spec s "") as [-> | Hne].
    + destruct allow_blank; [| discriminate].
      intros H; injection H as <-. split; [reflexivity|].
      intros s Hs Hne. injection Hs as <-. congruence.
    + destruct (run_validators validators s) as [s'|e] eqn:E; simpl;
        [| discriminate].
      intros H; injection H as <-.
      apply run_validators_Ok in E. destruct E as [-> Hv].
      split; [reflexivity|]. intros s0 Hs _. injection Hs as <-. exact Hv.
  - destruct partial; [| destruct required; [discriminate|]];
      intros H; injection H as <-; split; auto; discriminate.
Qed.

Lemma CharField_raises (required allow_blank partial : bool)
  (validators : list (string -> list string)) (input : option string)
  (e : exn) :
  CharField required allow_blank partial validators input = Raise e ->
  exists d, e = ValidationError d.
Proof.
  unfold CharField, validate_empty, invalid. destruct input as [s|].
  - destruct (String.eqb s "").
    + destruct allow_blank; [discriminate|].
      intros H; injection H as <-; eauto.
    + destruct (run_validators validators s) eqn:E; simpl; [discriminate|].
      intros H; injection H as <-.
      apply run_validators_not_other in E. exact E.
  - destruct partial; [discriminate|].
    destruct required; [| discriminate].
    intros H; injection H as <-; eauto.
Qed.

Lemma ChoiceField_Ok (required partial : bool) (choices : list string)
  (input v : option string) :
  ChoiceField required partial choices input = Ok v ->
  v = input /\ forall s, input = Some s -> str_in s choices = true.
Proof.
  unfold ChoiceField, validate_empty. destruct input as [s|].
  - destruct (str_in s choices) eqn:E; [| discriminate].
    intros H; injection H as <-. split; [reflexivity|].
    intros s0 Hs. injection Hs as <-. exact E.
  - destruct partial; [| destruct required; [discriminate|]];
      intros H; injection H as <-; split; auto; discriminate.
Qed.

Lemma CharField_required_Ok (validators : list (string -> list string))
  (input v : option string) :
  CharField true false false validators input = Ok v ->
  exists s, input = Some s /\ v = Some s /\ s <> ""
            /\ forall f, In f validators -> f s = [].
Proof.
  intros H. pose proof (CharField_Ok _ _ _ _ _ _ H) as [-> Hv].
  destruct input as [s|]; [| discriminate H].
  assert (Hs : s <> "").
  { intros ->. discriminate H. }
  exists s. repeat split; auto.
Qed.

(** The loop over the fields goes on after a character field, whatever it
    holds, and keeps the errors gathered so far. *)
Lemma run_field_CharField (name : string) (required allow_blank partial : bool)
  (validators : list (string -> list string)) (input : option string)
  (errors : ErrorDict) :
  exists v errors',
    run_field name (CharField required allow_blank partial validators input)
      errors = Ok (v, errors')
    /\ forall x, In x errors -> In x errors'.
Proof.
  destruct (CharField required allow_blank partial validators input)
    as [v|e] eqn:E.
  - exists v, errors. split; [reflexivity | auto].
  - apply CharField_raises in E. destruct E as [d ->]. simpl.
    eexists _, _. split; [reflexivity|].
    intros x Hx. apply in_or_app. auto.
Qed.

Lemma existsb_false_find {A} (p : A -> bool) (l : list A) :
  existsb p l = false -> find p l = None.
Proof.
  induction l as [|x xs IH]; simpl; [reflexivity|].
  destruct (p x); simpl; [discriminate | exact IH].
Qed.

Lemma find_app_last {A} (p : A -> bool) (l : list A) (x : A) :
  find p l = None -> p x = true -> find p (l ++ [x]) = Some x.
Proof.
  induction l as [|y ys IH]; simpl; intros H Hx.
  - rewrite Hx. reflexivity.
  - destruct (p y); [discriminate | auto].
Qed.

Lemma exception_handler_not_200 (e : exn) :
  status (exception_handler e) <> HTTP_200_OK.
Proof. destruct e; discriminate. Qed.

Lemma existsb_map_pointwise {A} (f : A -> bool) (g : A -> A) (l : list A) :
  (forall x, f (g x) = f x) -> existsb f (map g l) = existsb f l.
Proof.
  intros H. induction l as [|x xs IH]; simpl; [reflexivity|].
  rewrite H, IH. reflexivity.
Qed.

(** After rewriting the rows of primary key [pk u'] by [u'], a query that
    found such a row before, and that [u'] satisfies, finds [u']. *)
Lemma find_map_replace (p : CustomUser.t -> bool) (rows : list CustomUser.t)
  (u0 u' : CustomUser.t) :
  find p rows = Some u0 ->
  CustomUser.pk u0 = CustomUser.pk u' ->
  p u' = true ->
  find p
    (map (fun r => if CustomUser.pk r =? CustomUser.pk u' then u' else r)
       rows) = Some u'.
Proof.
  intros Hf Hk Hp. induction rows as [|r rs IH]; simpl in *; [discriminate|].
  destruct (Z.eqb_spec (CustomUser.pk r) (CustomUser.pk u')) as [E | E].
  - rewrite Hp. reflexivity.
  - destruct (p r) eqn:Hr.
    + injection Hf as ->. congruence.
    + apply IH. exact Hf.
Qed.

Lemma map_replace_idempotent (rows : list CustomUser.t) (u' : CustomUser.t) :
  let g := fun r => if CustomUser.pk r =? CustomUser.pk u' then u' else r in
  map g (map g rows) = map g rows.
Proof.
  intros g. rewrite map_map. apply map_ext. intros r. unfold g.
  destruct (Z.eqb_spec (CustomUser.pk r) (CustomUser.pk u')) as [E | E].
  - rewrite Z.eqb_refl. reflexivity.
  - apply Z.eqb_neq in E. rewrite E. reflexivity.
Qed.

Lemma user_conflict_map_replace (rows : list CustomUser.t)
  (u' : CustomUser.t) :
  user_conflict
    (map (fun r => if CustomUser.pk r =? CustomUser.pk u' then u' else r)
       rows) u'
  = user_conflict rows u'.
Proof.
  unfold user_conflict. apply existsb_map_pointwise. intros r. cbv beta.
  destruct (CustomUser.pk r =? CustomUser.pk u') eqn:E; [| rewrite E; auto].
  rewrite Z.eqb_refl. reflexivity.
Qed.

(** Stepping over a character field in a goal about a serializer. *)
Ltac step_char_field :=
  match goal with
  | |- context [run_field ?n (CharField ?a ?b ?c ?vs ?i) ?e] =>
      let H := fresh "Hstep" in
      let Hin := fresh "Hkeep" in
      destruct (run_field_CharField n a b c vs i e) as [? [? [H Hin]]];
      rewrite H; clear H; cbn [bind fst snd]
  end.

(** ** One review per author and title *)

Lemma next_pk_fresh (pks : list Z) (x : Z) : In x pks -> x < next_pk pks.
Proof.
  unfold next_pk. induction pks as [|y ys IH]; cbn [fold_right In];
    [tauto|].
  intros [-> | H]; [lia | specialize (IH H); lia].
Qed.

Lemma existsb_pointwise {A} (f g : A -> bool) (l : list A) :
  (forall x, f x = g x) -> existsb f l = existsb g l.
Proof.
  intros H. induction l as [|x xs IH]; simpl; [reflexivity|].
  rewrite H, IH. reflexivity.
Qed.

Lemma review_exists_iff (rows : list Review.t) (author title : Z) :
  review_exists rows author title = true <->
  exists r, In r rows /\ Review.author r = author /\ Review.title r = title.
Proof.
  unfold review_exists. rewrite existsb_exists.
  split; intros [r [Hin H]]; exists r; split; auto.
  - apply andb_true_iff in H. rewrite !Z.eqb_eq in H. exact H.
  - apply andb_true_iff. rewrite !Z.eqb_eq. exact H.
Qed.

Lemma validate_score_spec (v : Z) :
  (1 <= v <= 10 -> validate_score v = Ok v)
  /\ (v < 1 \/ 10 < v -> validate_score v = invalid [score_message]).
Proof.
  unfold validate_score.
  destruct (Z.leb_spec 1 v), (Z.leb_spec v 10); simpl; split;
    intros; try lia; reflexivity.
Qed.

Lemma get_object_or_404_raises {A} (p : A -> bool) (rows : list A) (e : exn) :
  get_object_or_404 p rows = Raise e -> e = Http404.
Proof.
  unfold get_object_or_404, objects_get.
  destruct (find p rows); [discriminate | intros H; injection H; auto].
Qed.

Lemma raise_if_errors_In {A} (errors : ErrorDict) (a : A)
  (x : string * list string) :
  In x errors -> raise_if_errors errors a = Raise (ValidationError (Fields errors)).
Proof. destruct errors; [intros [] | reflexivity]. Qed.

Section ReviewFacts.

Variable positive_integer_max : Z.

Local Abbreviation is_valid :=
  (ReviewSerializer_is_valid positive_integer_max).
Local Abbreviation create_review :=
  (ReviewViewSet_create positive_integer_max).
Local Abbreviation update_review :=
  (ReviewViewSet_update positive_integer_max).

Lemma score_field_raises (partial : bool) (input : option Z) (e : exn) :
  then_validate (score_field positive_integer_max partial input)
    validate_score = Raise e ->
  exists d, e = ValidationError d.
Proof.
  unfold then_validate, score_field, IntegerField, validate_empty.
  destruct input as [z|].
  - destruct (run_validators _ z) as [z'|e'] eqn:E; cbn [bind].
    + unfold validate_score.
      destruct (negb _); cbn [bind invalid]; [| discriminate].
      intros H; injection H as <-; eauto.
    + intros H; injection H as <-.
      apply run_validators_not_other in E. exact E.
  - destruct partial; cbn [bind invalid]; [discriminate|].
    intros H; injection H as <-; eauto.
Qed.

Lemma run_field_score (partial : bool) (input : option Z)
  (errors : ErrorDict) :
  exists v errors',
    run_field "score"
      (then_validate (score_field positive_integer_max partial input)
         validate_score) errors = Ok (v, errors')
    /\ forall x, In x errors -> In x errors'.
Proof.
  destruct (then_validate _ validate_score) as [v|e] eqn:E.
  - exists v, errors. split; [reflexivity | auto].
  - apply score_field_raises in E. destruct E as [d ->]. simpl.
    eexists _, _. split; [reflexivity|].
    intros x Hx. apply in_or_app. auto.
Qed.

(** A score outside 1..10 does not pass the field: either a bound of the
    column or [validate_score] refuses it. *)
Lemma score_field_bad (partial : bool) (v : Z) :
  v < 1 \/ 10 < v ->
  exists msgs,
    then_validate (score_field positive_integer_max partial (Some v))
      validate_score = invalid msgs.
Proof.
  intros Hv. apply (proj2 (validate_score_spec v)) in Hv.
  unfold then_validate, score_field, IntegerField, run_validators,
    MaxValueValidator, MinValueValidator.
  cbn [map List.concat].
  destruct (positive_integer_max <? v), (v <? 0); cbn [app bind invalid];
    try (eexists; reflexivity).
  rewrite Hv. eexists; reflexivity.
Qed.

(** The [title] field: the title of the URL is missing, or the loop over
    the fields goes on. *)
Lemma run_field_title (st : State) (u : CustomUser.t) (title_id : Z)
  (partial : bool) (errors : ErrorDict) :
  (get_title_or_404 title_id st = Raise Http404
   /\ run_field "title"
        (then_validate (title_field st title_id partial)
           (validate_title st (User u))) errors = Raise Http404)
  \/ exists v errors',
       run_field "title"
         (then_validate (title_field st title_id partial)
            (validate_title st (User u))) errors = Ok (v, errors')
       /\ forall x, In x errors -> In x errors'.
Proof.
  unfold title_field, CurrentTitleDefault.
  destruct partial.
  - right. eexists _, _. split; [reflexivity | auto].
  - destruct (get_title_or_404 title_id st) as [t|e] eqn:Ht.
    + right. unfold validate_title. cbn [bind then_validate].
      destruct (review_exists _ _ _); cbn [bind invalid run_field];
        eexists _, _; (split; [reflexivity|]); auto.
      intros x Hx. apply in_or_app. auto.
    + apply get_object_or_404_raises in Ht. subst e. left. auto.
Qed.

(** With a review of the title by the actor in the store, validation of a
    new or fully replaced review fails on the [title] field, whatever the
    text and the score. *)
Lemma ReviewSerializer_is_valid_duplicate (st : State) (u : CustomUser.t)
  (title_id : Z) (t : Title.t) (instance : option Review.t)
  (data : ReviewData.t) :
  get_title_or_404 title_id st = Ok t ->
  review_exists (reviews st) (CustomUser.pk u) (Title.pk t) = true ->
  exists errors,
    is_valid st (User u) title_id instance false data
    = Raise (ValidationError (Fields errors))
    /\ In ("title", [duplicate_review_message]) errors.
Proof.
  intros Ht Hex. unfold ReviewSerializer_is_valid.
  step_char_field.
  match goal with
  | |- context [run_field "score" _ ?e] =>
      destruct (run_field_score false (ReviewData.score data) e)
        as [v2 [e2 [H2 _]]]; rewrite H2; cbn [bind fst snd]
  end.
  unfold title_field, CurrentTitleDefault, validate_title.
  rewrite Ht. cbn [bind then_validate]. rewrite Hex.
  cbn [bind invalid run_field detail_messages fst snd].
  rewrite (raise_if_errors_In _ _ ("title", [duplicate_review_message]))
    by (apply in_or_app; simpl; auto).
  eexists. split; [reflexivity|]. apply in_or_app; simpl; auto.
Qed.

(** C2. When the store holds a review of a title by an author, a further
    attempt of that author to review the title is rejected, whatever its
    text and score, and three layers reject it on their own: the pre-check
    [validate_title], the serializer's [UniqueTogetherValidator], and the
    store's uniqueness constraint on insertion. The view answers 400 with
    the duplicate message under [title] and leaves the store as it was. *)
Theorem C2_second_review_rejected :
  forall (st : State) (u : CustomUser.t) (title_id : Z) (t : Title.t),
    get_title_or_404 title_id st = Ok t ->
    review_exists (reviews st) (CustomUser.pk u) (Title.pk t) = true ->
    validate_title st (User u) t = invalid [duplicate_review_message]
    /\ (forall text score,
          UniqueTogetherValidator st (User u) None false
            (ReviewAttrs.Build text score (Some t))
          = Raise (ValidationError
                     (Fields
                        [("non_field_errors",
                          ["The fields author, title must make a unique set."])])))
    /\ (forall text score,
          Review_objects_create (CustomUser.pk u) text (Title.pk t) score st
          = (Raise IntegrityError, st))
    /\ (forall data,
          exists errors,
            dispatch (create_review (User u) title_id data) st
            = (mkResponse (errors_json (Fields errors)) HTTP_400_BAD_REQUEST,
               st)
            /\ In ("title", [duplicate_review_message]) errors).
Proof.
  intros st u title_id t Ht Hex.
  split; [| split; [| split]].
  - unfold validate_title. rewrite Hex. reflexivity.
  - intros text score. unfold UniqueTogetherValidator; simpl.
    unfold review_exists in Hex.
    rewrite (existsb_pointwise _ _ _ (fun r => andb_true_r _)).
    rewrite Hex. reflexivity.
  - intros text score. unfold Review_objects_create.
    replace (unique_title _ _) with false; [reflexivity|].
    symmetry. unfold unique_title. apply negb_false_iff. simpl.
    apply review_exists_iff in Hex. destruct Hex as [r [Hin [Ha Hti]]].
    apply existsb_exists. exists r. split; [exact Hin|].
    rewrite Ha, Hti, !Z.eqb_refl, !andb_true_r.
    apply negb_true_iff, Z.eqb_neq.
    pose proof (next_pk_fresh (map Review.pk (reviews st)) (Review.pk r)
                  (in_map _ _ _ Hin)). lia.
  - intros data.
    destruct (ReviewSerializer_is_valid_duplicate st u title_id t None data
                Ht Hex) as [errors [Hv Hin]].
    exists errors. split; [| exact Hin].
    unfold dispatch, ReviewViewSet_create, bindM, query; simpl.
    rewrite Hv. reflexivity.
Qed.

(** ** The score of a review *)

(** A submitted score outside 1..10 makes validation fail, on creation, on
    replacement and on partial update alike: either the title of the URL
    does not exist, or the field errors name [score]. *)
Lemma ReviewSerializer_is_valid_bad_score (st : State) (u : CustomUser.t)
  (title_id : Z) (instance : option Review.t) (partial : bool)
  (text : option string) (v : Z) :
  v < 1 \/ 10 < v ->
  exists e,
    is_valid st (User u) title_id instance partial
      (ReviewData.Build text (Some v)) = Raise e
    /\ ((e = Http404 /\ get_title_or_404 title_id st = Raise Http404)
        \/ exists errors msgs,
             e = ValidationError (Fields errors)
             /\ In ("score", msgs) errors).
Proof.
  intros Hv. destruct (score_field_bad partial v Hv) as [msgs Hs].
  unfold ReviewSerializer_is_valid.
  step_char_field.
  cbn [ReviewData.score]. rewrite Hs.
  cbn [run_field invalid detail_messages bind fst snd].
  match goal with
  | |- context [run_field "title" _ ?e] =>
      destruct (run_field_title st u title_id partial e)
        as [[Ht H3] | [v3 [e3 [H3 Hk]]]]; rewrite H3; cbn [bind fst snd]
  end.
  - eexists. split; [reflexivity | left; auto].
  - assert (Hin : In ("score", msgs) e3).
    { apply Hk. apply in_or_app. simpl; auto. }
    rewrite (raise_if_errors_In _ _ _ Hin). cbn [bind].
    eexists. split; [reflexivity | right; eauto].
Qed.

(** C9. [validate_score] accepts exactly the integers from 1 to 10, the
    bounds 1 and 10 included. A review submitted with a score outside that
    interval is rejected before anything is written, on creation and on
    update: the store is unchanged and the answer is an error (400 with
    messages under [score] for an authenticated actor on an existing
    title). *)
Theorem C9_score_outside_1_10_rejected :
  forall (v : Z),
    (validate_score v = Ok v <-> 1 <= v <= 10)
    /\ validate_score 1 = Ok 1
    /\ validate_score 10 = Ok 10
    /\ (v < 1 \/ 10 < v ->
        validate_score v = invalid [score_message]
        /\ forall (st : State) (actor : request_user) (title_id : Z)
                  (text : option string),
            (exists resp,
                dispatch (create_review actor title_id
                            (ReviewData.Build text (Some v))) st = (resp, st)
                /\ In (status resp)
                     [HTTP_400_BAD_REQUEST; HTTP_401_UNAUTHORIZED;
                      HTTP_404_NOT_FOUND])
            /\ (forall review_id partial,
                   exists resp,
                     dispatch (update_review actor title_id review_id
                                 partial (ReviewData.Build text (Some v))) st
                     = (resp, st)
                     /\ In (status resp)
                          [HTTP_400_BAD_REQUEST; HTTP_401_UNAUTHORIZED;
                           HTTP_403_FORBIDDEN; HTTP_404_NOT_FOUND])
            /\ (forall u t,
                   actor = User u ->
                   get_title_or_404 title_id st = Ok t ->
                   exists errors msgs,
                     dispatch (create_review actor title_id
                                 (ReviewData.Build text (Some v))) st
                     = (mkResponse (errors_json (Fields errors))
                          HTTP_400_BAD_REQUEST, st)
                     /\ In ("score", msgs) errors)).
Proof.
  intros v. destruct (validate_score_spec v) as [Hin Hout].
  split; [| split; [| split]]; try reflexivity.
  - split; [| exact Hin].
    intros H. destruct (Z.le_gt_cases 1 v), (Z.le_gt_cases v 10); try lia;
      rewrite Hout in H by lia; discriminate.
  - intros Hv. split; [exact (Hout Hv)|].
    intros st actor title_id text. split; [| split].
    + destruct actor as [|u].
      * eexists. split; [reflexivity | simpl; auto].
      * destruct (ReviewSerializer_is_valid_bad_score st u title_id None
                    false text v Hv) as [e [He Hk]].
        exists (exception_handler e). split.
        -- unfold dispatch, ReviewViewSet_create, bindM, query; simpl.
           rewrite He. reflexivity.
        -- destruct Hk as [[-> _] | [errors [msgs [-> _]]]]; simpl; auto.
    + intros review_id partial. destruct actor as [|u].
      * destruct partial; eexists; (split; [reflexivity | simpl; auto]).
      * unfold dispatch, ReviewViewSet_update, bindM, query.
        replace (negb _) with false by (destruct partial; reflexivity).
        cbv iota.
        destruct (get_title_or_404 title_id st) as [t|e] eqn:Ht.
        2:{ apply get_object_or_404_raises in Ht. subst e.
            eexists. split; [reflexivity | simpl; auto]. }
        destruct (get_object_or_404 _ _) as [r|e] eqn:Hr.
        2:{ apply get_object_or_404_raises in Hr. subst e.
            eexists. split; [reflexivity | simpl; auto]. }
        assert (Hp : exists b,
                   @has_object_permission (permission_classes ReviewViewSet)
                     (mkRequest (if partial then PATCH else PUT) (User u))
                     (ReviewObj r) = Ok b).
        { destruct partial; eexists; reflexivity. }
        destruct Hp as [b Hp]. rewrite Hp.
        destruct b; simpl.
        2:{ eexists. split; [reflexivity | simpl; auto]. }
        destruct (ReviewSerializer_is_valid_bad_score st u title_id (Some r)
                    partial text v Hv) as [e [He Hk]].
        rewrite He.
        exists (exception_handler e). split; [reflexivity|].
        destruct Hk as [[-> _] | [errors [msgs [-> _]]]]; simpl; auto.
    + intros u t -> Ht.
      destruct (ReviewSerializer_is_valid_bad_score st u title_id None
                  false text v Hv) as [e [He Hk]].
      destruct Hk as [[_ H404] | [errors [msgs [-> Hin']]]];
        [congruence|].
      exists errors, msgs. split; [| exact Hin'].
      unfold dispatch, ReviewViewSet_create, bindM, query; simpl.
      rewrite He. reflexivity.
Qed.

End ReviewFacts.

Lemma C2_second_review_rejected_witness :
  Review_objects_create (CustomUser.pk alice) "Changed my mind"
    (Title.pk solaris) 2 sample_state
  = (Raise IntegrityError, sample_state)
  /\ validate_title sample_state (User alice) solaris
     = invalid [duplicate_review_message].
Proof.
  destruct (C2_second_review_rejected sample_integer_max sample_state alice 1
              solaris eq_refl eq_refl) as [H1 [_ [H3 _]]].
  split; [apply H3 | exact H1].
Defined.

Lemma C9_score_outside_1_10_rejected_witness :
  validate_score 0 = invalid [score_message]
  /\ validate_score 11 = invalid [score_message].
Proof.
  split.
  - destruct (C9_score_outside_1_10_rejected sample_integer_max 0)
      as [_ [_ [_ H]]].
    apply H. lia.
  - destruct (C9_score_outside_1_10_rejected sample_integer_max 11)
      as [_ [_ [_ H]]].
    apply H. lia.
Defined.

(** The bounds are accepted end to end: [bob] rates [solaris] 1 or 10 and
    the review is stored. A negative score is stopped by the column's lower
    bound before [validate_score] is reached. *)
Example create_review_score_1 :
  dispatch (ReviewViewSet_create sample_integer_max (User bob) 1
              (ReviewData.Build (Some "Dull") (Some 1))) sample_state
  = (mkResponse
       (JDict [("id", JInt 2); ("text", JStr "Dull"); ("author", JStr "bob");
               ("score", JInt 1)]) HTTP_201_CREATED,
     set_reviews sample_state [alice_review; Review.Build 2 3 "Dull" 1 1]).
Proof. reflexivity. Qed.

Example create_review_score_10 :
  status (fst (dispatch (ReviewViewSet_create sample_integer_max (User bob) 1
                           (ReviewData.Build (Some "Superb") (Some 10)))
                 sample_state)) = HTTP_201_CREATED.
Proof. reflexivity. Qed.

Example create_review_score_negative :
  fst (dispatch (ReviewViewSet_create sample_integer_max (User bob) 1
                   (ReviewData.Build (Some "Awful") (Some (-5))))
         sample_state)
  = mkResponse
      (JDict [("score",
               JList [JStr "Ensure this value is greater than or equal to 0."])])
      HTTP_400_BAD_REQUEST.
Proof. reflexivity. Qed.

(** ** Registration, token exchange and the self-profile *)

Section FrameworkFacts.

Variable username_validator : string -> bool.
Variable EmailValidator : string -> bool.
Variable uuid3_NAMESPACE_DNS : string -> string.
Variable AccessToken_for_user : CustomUser.t -> string.
Variable EMAIL_HOST_USER : string.

Local Abbreviation signup :=
  (EmailRegistrationView_post username_validator EmailValidator
     EMAIL_HOST_USER).
Local Abbreviation token := (AccessTokenView_post AccessToken_for_user).
Local Abbreviation generate :=
  (generate_and_send_confirmation_code_to_email uuid3_NAMESPACE_DNS
     EMAIL_HOST_USER).
Local Abbreviation me := (UserViewSet_me username_validator EmailValidator).

Lemma get_user_or_404_not_DoesNotExist (username : string) (st : State) :
  fst (get_user_or_404 username st) <> Raise DoesNotExist.
Proof.
  unfold get_user_or_404, query. simpl. intros H.
  apply get_object_or_404_raises in H. discriminate.
Qed.

(** C10. In [AccessTokenView.post] the handler of
    [CustomUser.DoesNotExist] never runs: [get_object_or_404] reports a
    missing user as [Http404], so the [try] block behaves as if it had no
    handler, no request is answered with the 400 [Not found] body, and a
    well-formed request for an unknown username is answered 404. *)
Theorem C10_DoesNotExist_branch_unreachable :
  forall (data : TokenData.t) (st : State),
    (forall username (handler : M (Response + CustomUser.t)),
        try_except_DoesNotExist
          (user <~ get_user_or_404 username ;; ret (inr user)) handler st
        = (user <~ get_user_or_404 username ;; ret (inr user)) st)
    /\ fst (dispatch (token data) st) <> not_found_response
    /\ (forall username code,
           data = TokenData.Build (Some username) (Some code) ->
           username <> "" -> code <> "" ->
           find (fun u => String.eqb (CustomUser.username u) username)
             (custom_user st) = None ->
           dispatch (token data) st = (exception_handler Http404, st)).
Proof.
  intros data st. split; [| split].
  - intros username handler.
    unfold try_except_DoesNotExist, bindM, get_user_or_404, query,
      get_object_or_404, objects_get.
    destruct (find _ (custom_user st)); reflexivity.
  - unfold dispatch, AccessTokenView_post, bindM, query,
      try_except_DoesNotExist, get_user_or_404, get_object_or_404,
      objects_get, ConfirmationCodeSerializer_is_valid.
    destruct data as [[u|] [c|]]; simpl;
      try destruct (String.eqb u ""); try destruct (String.eqb c "");
      simpl; try discriminate.
    destruct (find _ (custom_user st)) as [usr|]; simpl;
      [| discriminate].
    destruct (String.eqb (CustomUser.confirmation_code usr) c); simpl;
      discriminate.
  - intros username code -> Hu Hc Hfind.
    apply String.eqb_neq in Hu, Hc.
    unfold dispatch, AccessTokenView_post, bindM, query,
      try_except_DoesNotExist, get_user_or_404, get_object_or_404,
      objects_get, ConfirmationCodeSerializer_is_valid.
    simpl. rewrite Hu, Hc. simpl. rewrite Hfind. reflexivity.
Qed.


Lemma UniqueValidator_passes (column : CustomUser.t -> string)
  (msg : string) (st : State) (value : string) :
  UniqueValidator column msg None st value = [] ->
  existsb (fun r => String.eqb (column r) value) (custom_user st) = false.
Proof.
  unfold UniqueValidator.
  rewrite (existsb_pointwise _ _ _ (fun r => andb_true_r _)).
  destruct (existsb _ (custom_user st)); [discriminate | reflexivity].
Qed.

Lemma UniqueValidator_fails (column : CustomUser.t -> string)
  (msg : string) (st : State) (value : string) :
  existsb (fun r => String.eqb (column r) value) (custom_user st) = true ->
  UniqueValidator column msg None st value = [msg].
Proof.
  unfold UniqueValidator.
  rewrite (existsb_pointwise _ _ _ (fun r => andb_true_r _)).
  intros ->. reflexivity.
Qed.

(** What a successful validation of a registration tells. *)
Lemma EmailSerializer_is_valid_Ok (st : State) (data vd : SignupData.t) :
  EmailSerializer_is_valid username_validator EmailValidator st data
  = Ok vd ->
  exists username email,
    data = SignupData.Build (Some username) (Some email)
    /\ vd = data
    /\ username <> "me"
    /\ existsb (fun r => String.eqb (CustomUser.username r) username)
         (custom_user st) = false
    /\ existsb (fun r => String.eqb (CustomUser.email r) email)
         (custom_user st) = false.
Proof.
  unfold EmailSerializer_is_valid.
  destruct (run_field "username" _ []) as [[v1 e1]|e] eqn:H1;
    [| discriminate].
  cbn [bind fst snd].
  destruct (run_field "email" _ e1) as [[v2 e2]|e] eqn:H2;
    [| discriminate].
  cbn [bind fst snd]. intros H.
  apply raise_if_errors_Ok in H. destruct H as [-> ->].
  apply run_field_nil in H2; [| reflexivity]. destruct H2 as [H2 ->].
  apply run_field_nil in H1; [| reflexivity]. destruct H1 as [H1 _].
  unfold email_field in H2. apply CharField_required_Ok in H2.
  destruct H2 as [email [He [-> [_ Hve]]]].
  unfold then_validate, username_field in H1.
  destruct (CharField true false false _ (SignupData.username data))
    as [v0|] eqn:H0; [| discriminate].
  apply CharField_required_Ok in H0.
  destruct H0 as [username [Hu [-> [_ Hvu]]]].
  cbn [bind] in H1. unfold validate_username in H1.
  destruct (String.eqb_spec username "me") as [| Hme]; [discriminate|].
  injection H1 as <-.
  exists username, email. destruct data as [du de]; simpl in *. subst.
  repeat split; auto.
  - eapply UniqueValidator_passes. apply Hvu. simpl; auto.
  - eapply UniqueValidator_passes. apply Hve. simpl; auto.
Qed.

(** A registration under a username already in the store does not
    validate. *)
Lemma EmailSerializer_is_valid_taken (st : State) (data : SignupData.t)
  (username : string) :
  SignupData.username data = Some username ->
  existsb (fun r => String.eqb (CustomUser.username r) username)
    (custom_user st) = true ->
  exists errors,
    EmailSerializer_is_valid username_validator EmailValidator st data
    = Raise (ValidationError (Fields errors))
    /\ exists msgs, In ("username", msgs) errors.
Proof.
  intros Hu Hex. unfold EmailSerializer_is_valid. rewrite Hu.
  assert (H1 : exists msgs,
             run_field "username"
               (then_validate
                  (username_field username_validator None st false
                     (Some username)) validate_username) []
             = Ok (None, [("username", msgs)])).
  { unfold username_field, CharField.
    destruct (String.eqb username ""); [eexists; reflexivity|].
    unfold run_validators. cbn [map List.concat].
    rewrite (UniqueValidator_fails _ _ _ _ Hex).
    destruct (UnicodeUsernameValidator username_validator username);
      simpl; eexists; reflexivity. }
  destruct H1 as [msgs H1]. rewrite H1. cbn [bind fst snd].
  unfold email_field.
  destruct (run_field_CharField "email" true false false
              [UniqueValidator CustomUser.email
                 "Пользователь with this Электронная почта already exists."
                 None st;
               MaxLengthValidator 257;
               validate_email EmailValidator]
              (SignupData.email data) [("username", msgs)])
    as [v2 [e2 [H2 Hin]]].
  rewrite H2. cbn [bind fst snd].
  assert (Hne : In ("username", msgs) e2) by (apply Hin; simpl; auto).
  destruct e2 as [|x xs]; [destruct Hne|].
  exists (x :: xs). split; [reflexivity | eauto].
Qed.

(** The helper, step by step. *)
Lemma generate_spec (username : string) (st : State) :
  generate username st =
  match find (fun u => String.eqb (CustomUser.username u) username)
          (custom_user st) with
  | None => (Raise Http404, st)
  | Some u0 =>
      let u' := set_confirmation_code u0 (uuid3_NAMESPACE_DNS username) in
      let st' :=
        set_outbox st
          (outbox st
           ++ [mkMail "Код подтвержения для завершения регистрации"
                 ("Ваш код для получения JWT токена "
                  ++ uuid3_NAMESPACE_DNS username)
                 EMAIL_HOST_USER [CustomUser.email u0]])%list in
      if user_conflict (custom_user st) u' then (Raise IntegrityError, st')
      else if existsb (fun r => CustomUser.pk r =? CustomUser.pk u')
                (custom_user st)
      then (Ok tt,
            set_custom_user st'
              (map (fun r => if CustomUser.pk r =? CustomUser.pk u'
                             then u' else r) (custom_user st)))
      else (Ok tt, set_custom_user st' (custom_user st ++ [u'])%list)
  end.
Proof.
  unfold generate_and_send_confirmation_code_to_email, bindM,
    get_user_or_404, query, get_object_or_404, objects_get, send_mail,
    CustomUser_save.
  destruct (find _ (custom_user st)) as [u0|]; reflexivity.
Qed.

(** C6 (as the code has it). Registering a username that is already in
    the store is refused: the view answers 400 with a message under
    [username] and changes neither the users nor the sent mail, so no
    code is regenerated or delivered. The confirmation-code helper
    derives the code from the username alone: once it has run for a
    username, the stored code is that value, and running it again sends
    the same code and leaves the users as they are. *)
Theorem C6_reregistration_refused_code_stable :
  forall (st : State),
    (forall data username,
        SignupData.username data = Some username ->
        existsb (fun r => String.eqb (CustomUser.username r) username)
          (custom_user st) = true ->
        exists errors,
          dispatch (signup data) st
          = (mkResponse (errors_json (Fields errors)) HTTP_400_BAD_REQUEST,
             st)
          /\ exists msgs, In ("username", msgs) errors)
    /\ (forall username st1,
          generate username st = (Ok tt, st1) ->
          exists u st2,
            get_user_or_404 username st1 = (Ok u, st1)
            /\ CustomUser.confirmation_code u
               = uuid3_NAMESPACE_DNS username
            /\ generate username st1 = (Ok tt, st2)
            /\ custom_user st2 = custom_user st1
            /\ outbox st2
               = (outbox st1
                  ++ [mkMail "Код подтвержения для завершения регистрации"
                        ("Ваш код для получения JWT токена "
                         ++ uuid3_NAMESPACE_DNS username)
                        EMAIL_HOST_USER [CustomUser.email u]])%list).
Proof.
  intros st. split.
  - intros data username Hu Hex.
    destruct (EmailSerializer_is_valid_taken st data username Hu Hex)
      as [errors [Hv Hin]].
    exists errors. split; [| exact Hin].
    unfold dispatch, EmailRegistrationView_post, bindM, query.
    rewrite Hv. reflexivity.
  - intros username st1 H. rewrite generate_spec in H.
    destruct (find _ (custom_user st)) as [u0|] eqn:Hf; [| discriminate].
    cbv zeta in H.
    remember (set_confirmation_code u0 (uuid3_NAMESPACE_DNS username))
      as u' eqn:Eu.
    assert (Hk : CustomUser.pk u0 = CustomUser.pk u') by (subst; reflexivity).
    assert (Hn : CustomUser.username u' = CustomUser.username u0)
      by (subst; reflexivity).
    assert (Hm : CustomUser.email u' = CustomUser.email u0)
      by (subst; reflexivity).
    assert (Hcode : CustomUser.confirmation_code u'
                    = uuid3_NAMESPACE_DNS username) by (subst; reflexivity).
    assert (Hidem : set_confirmation_code u' (uuid3_NAMESPACE_DNS username)
                    = u') by (subst; reflexivity).
    clear Eu.
    destruct (user_conflict (custom_user st) u') eqn:Hc; [discriminate|].
    pose proof (find_some _ _ Hf) as [Hin Hp]. cbv beta in Hp.
    assert (Hpk : existsb (fun r => CustomUser.pk r =? CustomUser.pk u')
                    (custom_user st) = true).
    { apply existsb_exists. exists u0. split; [exact Hin|].
      apply Z.eqb_eq. exact Hk. }
    rewrite Hpk in H. injection H as <-.
    pose proof (find_map_replace _ _ u0 u' Hf Hk) as Hf'.
    cbv beta in Hf'. rewrite Hn in Hf'. specialize (Hf' Hp).
    set (rows1 := map (fun r => if CustomUser.pk r =? CustomUser.pk u'
                                then u' else r) (custom_user st)) in *.
    set (st1 := set_custom_user _ rows1).
    assert (Hrows : custom_user st1 = rows1) by reflexivity.
    exists u'.
    rewrite generate_spec. rewrite Hrows, Hf'. cbv zeta.
    rewrite Hidem, Hm.
    unfold rows1 at 1. rewrite user_conflict_map_replace, Hc.
    unfold rows1 at 1. rewrite existsb_map_pointwise, Hpk.
    2:{ intros r. destruct (CustomUser.pk r =? CustomUser.pk u') eqn:E;
          [apply Z.eqb_refl | exact E]. }
    eexists. split; [| split; [exact Hcode | split; [reflexivity|]]].
    + unfold get_user_or_404, query, get_object_or_404, objects_get.
      rewrite Hrows, Hf'. reflexivity.
    + split; [| reflexivity].
      cbn [custom_user set_custom_user]. unfold rows1.
      apply map_replace_idempotent.
Qed.

(** C7 (what the view does). Whenever a registration is answered 200,
    the user row it created holds the empty string as its confirmation
    code, and the message delivered to the given address carries that
    empty code: the view never derives a code. *)
Theorem C7_registration_stores_empty_code :
  forall (st : State) (data : SignupData.t) (resp : Response) (st' : State),
    dispatch (signup data) st = (resp, st') ->
    status resp = HTTP_200_OK ->
    exists username email u,
      data = SignupData.Build (Some username) (Some email)
      /\ u = CustomUser.Build (next_pk (map CustomUser.pk (custom_user st)))
               username email USER_ROLE_USER "" "" "" "" false
      /\ custom_user st' = (custom_user st ++ [u])%list
      /\ get_user_or_404 username st' = (Ok u, st')
      /\ CustomUser.confirmation_code u = ""
      /\ outbox st'
         = (outbox st
            ++ [mkMail "YaMDB Confirmation Code"
                  (nl ++ "                Hello!" ++ nl ++ nl
                   ++ "                Your confirmation: " ++ ""
                   ++ nl ++ "            ")
                  EMAIL_HOST_USER [email]])%list.
Proof.
  intros st data resp st'.
  unfold dispatch, EmailRegistrationView_post, bindM, query.
  destruct (EmailSerializer_is_valid _ _ st data) as [vd|e] eqn:Hv.
  2:{ intros H; injection H as <- _. intros H.
      destruct (exception_handler_not_200 _ H). }
  apply EmailSerializer_is_valid_Ok in Hv.
  destruct Hv as [username [email [-> [-> [_ [Hu He]]]]]].
  cbn [SignupData.email SignupData.username getitem].
  unfold CustomUser_objects_create.
  set (u := CustomUser.Build _ username email _ _ _ _ _ _).
  destruct (user_conflict (custom_user st) u).
  { intros H; injection H as <- _. discriminate. }
  unfold get_user_or_404, query, get_object_or_404, objects_get.
  cbn [custom_user set_custom_user].
  assert (Hf : find (fun u0 => String.eqb (CustomUser.username u0) username)
                 (custom_user st ++ [u]) = Some u).
  { apply find_app_last; [apply existsb_false_find; exact Hu|].
    apply String.eqb_refl. }
  rewrite Hf. unfold mail_send, send_mail, ret.
  intros H _. injection H as _ <-.
  exists username, email, u.
  cbn [custom_user set_custom_user set_outbox outbox].
  rewrite Hf. repeat split; reflexivity.
Qed.

Lemma UniqueValidator_passes_excluding (column : CustomUser.t -> string)
  (msg : string) (instance : CustomUser.t) (st : State) (value : string) :
  UniqueValidator column msg (Some instance) st value = [] ->
  existsb
    (fun r => String.eqb (column r) value
              && negb (CustomUser.pk r =? CustomUser.pk instance))
    (custom_user st) = false.
Proof.
  unfold UniqueValidator.
  destruct (existsb _ (custom_user st)); [discriminate | reflexivity].
Qed.

(** What a successful validation of a profile update tells: the
    validated data are the submitted ones, a submitted username or email
    belongs to no other user, and a submitted role is one of the
    choices. *)
Lemma UserSerializer_is_valid_Ok (st : State) (u : CustomUser.t)
  (partial : bool) (data vd : UserData.t) :
  UserSerializer_is_valid username_validator EmailValidator st u partial
    data = Ok vd ->
  vd = data
  /\ (forall s, UserData.username data = Some s ->
        existsb
          (fun r => String.eqb (CustomUser.username r) s
                    && negb (CustomUser.pk r =? CustomUser.pk u))
          (custom_user st) = false)
  /\ (forall s, UserData.email data = Some s ->
        existsb
          (fun r => String.eqb (CustomUser.email r) s
                    && negb (CustomUser.pk r =? CustomUser.pk u))
          (custom_user st) = false)
  /\ (forall r, UserData.role data = Some r ->
        str_in r USER_ROLE_CHOICES = true).
Proof.
  unfold UserSerializer_is_valid.
  destruct (run_field "email" _ []) as [[v1 e1]|e] eqn:H1; [| discriminate].
  cbn [bind fst snd].
  destruct (run_field "username" _ e1) as [[v2 e2]|e] eqn:H2;
    [| discriminate].
  cbn [bind fst snd].
  destruct (run_field "bio" _ e2) as [[v3 e3]|e] eqn:H3; [| discriminate].
  cbn [bind fst snd].
  destruct (run_field "role" _ e3) as [[v4 e4]|e] eqn:H4; [| discriminate].
  cbn [bind fst snd].
  destruct (run_field "first_name" _ e4) as [[v5 e5]|e] eqn:H5;
    [| discriminate].
  cbn [bind fst snd].
  destruct (run_field "last_name" _ e5) as [[v6 e6]|e] eqn:H6;
    [| discriminate].
  cbn [bind fst snd]. intros H.
  apply raise_if_errors_Ok in H. destruct H as [-> ->].
  apply run_field_nil in H6; [| reflexivity]. destruct H6 as [H6 ->].
  apply run_field_nil in H5; [| reflexivity]. destruct H5 as [H5 ->].
  apply run_field_nil in H4; [| reflexivity]. destruct H4 as [H4 ->].
  apply run_field_nil in H3; [| reflexivity]. destruct H3 as [H3 ->].
  apply run_field_nil in H2; [| reflexivity]. destruct H2 as [H2 ->].
  apply run_field_nil in H1; [| reflexivity]. destruct H1 as [H1 _].
  unfold email_field in H1. unfold username_field in H2.
  pose proof (CharField_Ok _ _ _ _ _ _ H1) as [-> Hve].
  pose proof (CharField_Ok _ _ _ _ _ _ H2) as [-> Hvu].
  apply CharField_Ok in H3. destruct H3 as [-> _].
  apply ChoiceField_Ok in H4. destruct H4 as [-> Hrole].
  apply CharField_Ok in H5. destruct H5 as [-> _].
  apply CharField_Ok in H6. destruct H6 as [-> _].
  split; [destruct data; reflexivity|].
  split; [| split; [| exact Hrole]].
  - intros s Hs. eapply UniqueValidator_passes_excluding.
    apply (Hvu s Hs); [| simpl; auto].
    intros ->. rewrite Hs in H2. discriminate H2.
  - intros s Hs. eapply UniqueValidator_passes_excluding.
    apply (Hve s Hs); [| simpl; auto].
    intros ->. rewrite Hs in H1. discriminate H1.
Qed.

(** With the store's uniqueness holding for a user, it holds for the
    user as updated by a validated payload. *)
Lemma user_conflict_after_update (st : State) (u : CustomUser.t)
  (data : UserData.t) :
  user_conflict (custom_user st) u = false ->
  (forall s, UserData.username data = Some s ->
     existsb
       (fun r => String.eqb (CustomUser.username r) s
                 && negb (CustomUser.pk r =? CustomUser.pk u))
       (custom_user st) = false) ->
  (forall s, UserData.email data = Some s ->
     existsb
       (fun r => String.eqb (CustomUser.email r) s
                 && negb (CustomUser.pk r =? CustomUser.pk u))
       (custom_user st) = false) ->
  user_conflict (custom_user st)
    (UserSerializer_update u (with_role data (CustomUser.role u))) = false.
Proof.
  intros Hc Hu He. apply not_true_is_false. intros H.
  unfold user_conflict in H. apply existsb_exists in H.
  destruct H as [r [Hin H]]. cbn [UserSerializer_update with_role
    CustomUser.pk CustomUser.username CustomUser.email UserData.username
    UserData.email] in H.
  apply andb_true_iff in H. destruct H as [Hpk H].
  apply orb_true_iff in H. destruct H as [H | H].
  - destruct (UserData.username data) as [s|] eqn:Es; cbn [default] in H.
    + specialize (Hu s eq_refl).
      assert (existsb
                (fun r => String.eqb (CustomUser.username r) s
                          && negb (CustomUser.pk r =? CustomUser.pk u))
                (custom_user st) = true); [| congruence].
      apply existsb_exists. exists r. rewrite H, Hpk. auto.
    + assert (user_conflict (custom_user st) u = true); [| congruence].
      apply existsb_exists. exists r. rewrite H, Hpk. auto.
  - destruct (UserData.email data) as [s|] eqn:Es; cbn [default] in H.
    + specialize (He s eq_refl).
      assert (existsb
                (fun r => String.eqb (CustomUser.email r) s
                          && negb (CustomUser.pk r =? CustomUser.pk u))
                (custom_user st) = true); [| congruence].
      apply existsb_exists. exists r. rewrite H, Hpk. auto.
    + assert (user_conflict (custom_user st) u = true); [| congruence].
      apply existsb_exists. exists r. rewrite H, Hpk, orb_true_r. auto.
Qed.

(** A submitted role outside the choices fails validation. *)
Lemma UserSerializer_is_valid_bad_role (st : State) (u : CustomUser.t)
  (partial : bool) (data : UserData.t) (r : string) :
  UserData.role data = Some r ->
  str_in r USER_ROLE_CHOICES = false ->
  exists errors,
    UserSerializer_is_valid username_validator EmailValidator st u partial
      data = Raise (ValidationError (Fields errors))
    /\ In ("role", [invalid_choice r]) errors.
Proof.
  intros Hr Hs.
  unfold UserSerializer_is_valid, email_field, username_field.
  do 3 step_char_field.
  rewrite Hr. unfold ChoiceField. rewrite Hs.
  cbn [run_field invalid detail_messages bind fst snd].
  do 2 step_char_field.
  match goal with
  | |- context [raise_if_errors ?e _] =>
      assert (Hin : In ("role",
                        [invalid_choice r]) e)
  end.
  { auto using in_or_app, in_eq. }
  match goal with
  | |- context [raise_if_errors ?e _] => destruct e as [|y ys]
  end; [destruct Hin|].
  eexists. split; [reflexivity | exact Hin].
Qed.

Lemma me_patch_unfold (u : CustomUser.t) (data : UserData.t) (st : State) :
  me (mkRequest PATCH (User u)) data st =
  match UserSerializer_is_valid username_validator EmailValidator st u true
          data with
  | Raise e => (Raise e, st)
  | Ok vd =>
      let instance :=
        UserSerializer_update u (with_role vd (CustomUser.role u)) in
      match CustomUser_save instance st with
      | (Ok _, st') =>
          (Ok (mkResponse (UserSerializer_data instance) HTTP_200_OK), st')
      | (Raise e, st') => (Raise e, st')
      end
  end.
Proof.
  unfold UserViewSet_me, bindM, query, ret. simpl.
  destruct (UserSerializer_is_valid _ _ st u true data); reflexivity.
Qed.

Lemma CustomUser_save_stored (st : State) (u u' : CustomUser.t) :
  objects_get (fun r => CustomUser.pk r =? CustomUser.pk u) (custom_user st)
  = Ok u ->
  CustomUser.pk u' = CustomUser.pk u ->
  user_conflict (custom_user st) u' = false ->
  exists st',
    CustomUser_save u' st = (Ok tt, st')
    /\ objects_get (fun r => CustomUser.pk r =? CustomUser.pk u)
         (custom_user st') = Ok u'
    /\ outbox st' = outbox st.
Proof.
  unfold objects_get, CustomUser_save. intros Hget Hk Hc.
  destruct (find _ (custom_user st)) as [u0|] eqn:Hf; [| discriminate].
  injection Hget as ->. rewrite Hc.
  pose proof (find_some _ _ Hf) as [Hin _].
  assert (Hpk : existsb (fun r => CustomUser.pk r =? CustomUser.pk u')
                  (custom_user st) = true).
  { apply existsb_exists. exists u. split; [exact Hin|].
    apply Z.eqb_eq. auto. }
  rewrite Hpk. eexists. split; [reflexivity|].
  cbn [custom_user set_custom_user outbox]. split; [| reflexivity].
  rewrite (find_map_replace _ _ u u' Hf); [reflexivity | auto |].
  apply Z.eqb_eq. exact Hk.
Qed.

(** C8 (as the code has it). For an authenticated user whose row is in
    the store, a partial self-profile update never changes the stored
    role. When the payload validates, the answer is 200, every other
    submitted field is stored and the role keeps its former value, a
    submitted role being dropped without an error. When the submitted
    role is not one of the three choices, the answer is 400 with a
    message under [role] and nothing is stored. *)
Theorem C8_self_update_keeps_role :
  forall (st : State) (u : CustomUser.t) (data : UserData.t),
    objects_get (fun r => CustomUser.pk r =? CustomUser.pk u)
      (custom_user st) = Ok u ->
    (forall resp st',
        dispatch (me (mkRequest PATCH (User u)) data) st = (resp, st') ->
        exists u',
          objects_get (fun r => CustomUser.pk r =? CustomUser.pk u)
            (custom_user st') = Ok u'
          /\ CustomUser.role u' = CustomUser.role u)
    /\ (forall vd,
          UserSerializer_is_valid username_validator EmailValidator st u
            true data = Ok vd ->
          user_conflict (custom_user st) u = false ->
          exists u' st',
            dispatch (me (mkRequest PATCH (User u)) data) st
            = (mkResponse (UserSerializer_data u') HTTP_200_OK, st')
            /\ objects_get (fun r => CustomUser.pk r =? CustomUser.pk u)
                 (custom_user st') = Ok u'
            /\ CustomUser.role u' = CustomUser.role u
            /\ CustomUser.email u'
               = default (CustomUser.email u) (UserData.email data)
            /\ CustomUser.username u'
               = default (CustomUser.username u) (UserData.username data)
            /\ CustomUser.bio u'
               = default (CustomUser.bio u) (UserData.bio data)
            /\ CustomUser.first_name u'
               = default (CustomUser.first_name u)
                   (UserData.first_name data)
            /\ CustomUser.last_name u'
               = default (CustomUser.last_name u)
                   (UserData.last_name data))
    /\ (forall r,
          UserData.role data = Some r ->
          str_in r USER_ROLE_CHOICES = false ->
          exists errors,
            dispatch (me (mkRequest PATCH (User u)) data) st
            = (mkResponse (errors_json (Fields errors))
                 HTTP_400_BAD_REQUEST, st)
            /\ In ("role",
                   [invalid_choice r])
                 errors).
Proof.
  intros st u data Hget. split; [| split].
  - intros resp st'. unfold dispatch. rewrite me_patch_unfold.
    destruct (UserSerializer_is_valid _ _ st u true data) as [vd|e].
    2:{ intros H; injection H as _ <-. exists u. auto. }
    cbv zeta.
    set (instance := UserSerializer_update u _).
    destruct (user_conflict (custom_user st) instance) eqn:Hc.
    + unfold CustomUser_save. rewrite Hc.
      intros H; injection H as _ <-. exists u. auto.
    + destruct (CustomUser_save_stored st u instance Hget eq_refl Hc)
        as [st1 [Hs [Hg _]]].
      rewrite Hs. intros H; injection H as _ <-.
      exists instance. split; [exact Hg | reflexivity].
  - intros vd Hv Hc.
    pose proof (UserSerializer_is_valid_Ok _ _ _ _ _ Hv) as [-> [Hu [He _]]].
    pose proof (user_conflict_after_update st u data Hc Hu He) as Hc'.
    destruct (CustomUser_save_stored st u
                (UserSerializer_update u
                   (with_role data (CustomUser.role u))) Hget eq_refl Hc')
      as [st1 [Hs [Hg _]]].
    eexists _, st1. split; [| split; [exact Hg |]].
    + unfold dispatch. rewrite me_patch_unfold, Hv. cbv zeta.
      rewrite Hs. reflexivity.
    + repeat split; reflexivity.
  - intros r Hr Hs.
    destruct (UserSerializer_is_valid_bad_role st u true data r Hr Hs)
      as [errors [Hv Hin]].
    exists errors. split; [| exact Hin].
    unfold dispatch. rewrite me_patch_unfold, Hv. reflexivity.
Qed.

End FrameworkFacts.

(** ** The theorems at sample inputs *)

Lemma C10_DoesNotExist_branch_unreachable_witness :
  dispatch
    (AccessTokenView_post sample_token
       (TokenData.Build (Some "nobody") (Some "0000")))
    sample_state
  = (exception_handler Http404, sample_state).
Proof.
  destruct (C10_DoesNotExist_branch_unreachable sample_token
              (TokenData.Build (Some "nobody") (Some "0000")) sample_state)
    as [_ [_ H]].
  apply (H "nobody" "0000"); [reflexivity | discriminate | discriminate
                              | reflexivity].
Defined.

(** The claim of C6 fails: [alice] is registered, and registering [alice]
    again is answered 400 and changes nothing, so no code is regenerated
    and none is delivered. *)
Lemma C6_reregistration_counterexample :
  let r :=
    dispatch
      (EmailRegistrationView_post any_string any_string sample_host
         (SignupData.Build (Some "alice") (Some "alice@yamdb.fake")))
      sample_state in
  status (fst r) = HTTP_400_BAD_REQUEST
  /\ status (fst r) <> HTTP_200_OK
  /\ snd r = sample_state.
Proof. repeat split. discriminate. Qed.

Lemma C6_reregistration_refused_code_stable_witness :
  exists errors,
    dispatch
      (EmailRegistrationView_post any_string any_string sample_host
         (SignupData.Build (Some "alice") (Some "other@yamdb.fake")))
      sample_state
    = (mkResponse (errors_json (Fields errors)) HTTP_400_BAD_REQUEST,
       sample_state)
    /\ exists msgs, In ("username", msgs) errors.
Proof.
  destruct (C6_reregistration_refused_code_stable any_string any_string
              sample_uuid3 sample_host sample_state) as [H _].
  apply (H (SignupData.Build (Some "alice") (Some "other@yamdb.fake"))
           "alice"); reflexivity.
Defined.

Lemma C7_registration_stores_empty_code_witness :
  exists username email u,
    SignupData.Build (Some "dave") (Some "dave@yamdb.fake")
    = SignupData.Build (Some username) (Some email)
    /\ u = CustomUser.Build 1 username email USER_ROLE_USER "" "" "" "" false
    /\ custom_user registered_state = ([] ++ [u])%list
    /\ get_user_or_404 username registered_state = (Ok u, registered_state)
    /\ CustomUser.confirmation_code u = ""
    /\ outbox registered_state
       = ([] ++ [mkMail "YaMDB Confirmation Code"
                   (nl ++ "                Hello!" ++ nl ++ nl
                    ++ "                Your confirmation: " ++ ""
                    ++ nl ++ "            ")
                   sample_host [email]])%list.
Proof.
  apply (C7_registration_stores_empty_code any_string any_string sample_host
           empty_state
           (SignupData.Build (Some "dave") (Some "dave@yamdb.fake"))
           (mkResponse
              (JDict [("username", JStr "dave");
                      ("email", JStr "dave@yamdb.fake")]) HTTP_200_OK)
           registered_state); reflexivity.
Defined.

(** After such a registration no submitted code opens the account: a blank
    code does not validate and any other differs from the stored one. *)
Lemma token_after_registration (code : option string) :
  status
    (fst (dispatch
            (AccessTokenView_post sample_token
               (TokenData.Build (Some "dave") code)) registered_state))
  = HTTP_400_BAD_REQUEST.
Proof.
  destruct code as [c|]; [| reflexivity].
  unfold dispatch, AccessTokenView_post, bindM, query,
    ConfirmationCodeSerializer_is_valid, CharField.
  simpl. destruct c as [|a c']; reflexivity.
Qed.

(** The claim of C8 fails: [alice] submits a biography together with a role
    outside the choices; the answer is 400 and the biography is not
    stored. *)
Lemma C8_self_update_counterexample :
  let r :=
    dispatch
      (UserViewSet_me any_string any_string (mkRequest PATCH (User alice))
         (UserData.Build None None (Some "Film critic") (Some "owner")
            None None))
      sample_state in
  status (fst r) = HTTP_400_BAD_REQUEST
  /\ snd r = sample_state
  /\ objects_get (fun u => CustomUser.pk u =? CustomUser.pk alice)
       (custom_user (snd r)) = Ok alice
  /\ CustomUser.bio alice <> "Film critic".
Proof. repeat split. discriminate. Qed.

Lemma C8_self_update_keeps_role_witness :
  exists u' st',
    dispatch
      (UserViewSet_me any_string any_string (mkRequest PATCH (User alice))
         (UserData.Build None None (Some "Film critic")
            (Some USER_ROLE_ADMIN) None None))
      sample_state
    = (mkResponse (UserSerializer_data u') HTTP_200_OK, st')
    /\ objects_get (fun r => CustomUser.pk r =? CustomUser.pk alice)
         (custom_user st') = Ok u'
    /\ CustomUser.role u' = USER_ROLE_USER
    /\ CustomUser.bio u' = "Film critic".
Proof.
  destruct (C8_self_update_keeps_role any_string any_string sample_state
              alice
              (UserData.Build None None (Some "Film critic")
                 (Some USER_ROLE_ADMIN) None None) eq_refl)
    as [_ [H _]].
  destruct (H _ eq_refl eq_refl) as [u' [st' [Hd [Hg [Hr [_ [_ [Hb _]]]]]]]].
  exists u', st'. repeat split; assumption.
Defined.

(** * Further properties of the code *)

(** ** The access policy beyond the catalogue *)

(** X1. On the users view set each of the six standard actions ([list],
    [create], [retrieve], [update], [partial_update], [destroy]), reading
    included, is allowed exactly to an authenticated actor with role
    [admin] or the superuser flag; the object-level check adds nothing.
    The view set's own action [me] is not under this rule: it is declared
    with [IsAuthenticated], so a [GET] by any authenticated user, whatever
    the role, is answered 200 with that user's profile, and only an
    anonymous request is turned away. *)
Theorem X1_users_admin_only :
  forall (actor : request_user) (a : action) (target : option model_obj),
    (decide UserViewSet actor a target = Ok true <->
     exists u, actor = User u
               /\ (CustomUser.role u = USER_ROLE_ADMIN
                   \/ CustomUser.is_superuser u = true))
    /\ (decide UserViewSet actor a target = Ok true
        \/ decide UserViewSet actor a target = Ok false)
    /\ (forall username_validator EmailValidator (u : CustomUser.t)
               (data : UserData.t) (st : State),
          dispatch
            (UserViewSet_me username_validator EmailValidator
               (mkRequest GET (User u)) data) st
          = (mkResponse (UserSerializer_data u) HTTP_200_OK, st))
    /\ (forall username_validator EmailValidator (m : http_method)
               (data : UserData.t) (st : State),
          status
            (fst (dispatch
                    (UserViewSet_me username_validator EmailValidator
                       (mkRequest m AnonymousUser) data) st))
          <> HTTP_200_OK).
Proof.
  intros actor a target.
  assert (Hme : (forall username_validator EmailValidator (u : CustomUser.t)
                        (data : UserData.t) (st : State),
                   dispatch
                     (UserViewSet_me username_validator EmailValidator
                        (mkRequest GET (User u)) data) st
                   = (mkResponse (UserSerializer_data u) HTTP_200_OK, st))
                /\ (forall username_validator EmailValidator
                           (m : http_method) (data : UserData.t)
                           (st : State),
                      status
                        (fst (dispatch
                                (UserViewSet_me username_validator
                                   EmailValidator
                                   (mkRequest m AnonymousUser) data) st))
                      <> HTTP_200_OK)).
  { split.
    - intros uv ev u data st. reflexivity.
    - intros uv ev m data st. destruct m; discriminate. }
  rewrite <- !and_assoc. split; [| exact (proj2 Hme)].
  split; [| exact (proj1 Hme)].
  assert (Hd : decide UserViewSet actor a target =
               Ok match actor with
                  | AnonymousUser => false
                  | User u =>
                      String.eqb (CustomUser.role u) USER_ROLE_ADMIN
                      || CustomUser.is_superuser u
                  end).
  { unfold decide; simpl. unfold IsAdmin_has_permission; simpl.
    destruct actor as [|u]; [reflexivity|].
    destruct (String.eqb (CustomUser.role u) USER_ROLE_ADMIN
              || CustomUser.is_superuser u);
      destruct target; reflexivity. }
  rewrite Hd. split.
  - destruct actor as [|u].
    + split; [discriminate | intros [u' [Hu _]]; discriminate].
    + split.
      * intros H. exists u. split; [reflexivity|].
        injection H as H. apply orb_true_iff in H.
        rewrite String.eqb_eq in H. exact H.
      * intros [u' [Hu H]]. injection Hu as <-. f_equal.
        apply orb_true_iff. rewrite String.eqb_eq. exact H.
  - destruct actor as [|u]; [right; reflexivity|].
    destruct (String.eqb (CustomUser.role u) USER_ROLE_ADMIN
              || CustomUser.is_superuser u); auto.
Qed.

(** X2. Creating a review or a comment asks for authentication and nothing
    else: any authenticated actor, whatever the role, is allowed, and an
    anonymous actor is denied. *)
Theorem X2_feedback_create_needs_authentication :
  forall (v : viewset) (actor : request_user),
    is_feedback v = true ->
    decide v actor create None = Ok (is_authenticated actor)
    /\ decide v AnonymousUser create None = Ok false
    /\ (forall u, decide v (User u) create None = Ok true).
Proof.
  intros v actor Hv.
  destruct v; try discriminate Hv; (split; [| split; [reflexivity |]]);
    try (intros u; reflexivity); destruct actor; reflexivity.
Qed.

Lemma X2_feedback_create_needs_authentication_witness :
  decide CommentViewSet (User bob) create None = Ok true.
Proof.
  destruct (X2_feedback_create_needs_authentication CommentViewSet
              (User bob) eq_refl) as [_ [_ H]].
  apply H.
Defined.

(** X3. The object-level check of [IsOwnerAdminModeratorOrReadOnly] reads
    [request.user.role] and so raises for an anonymous write, but the
    decision of the policy never raises: the request-level check has
    denied that request before. For every view set, actor and action, on a
    target of the view set's own kind, the decision is a plain yes or no. *)
Theorem X3_decide_never_raises :
  forall (v : viewset) (actor : request_user) (a : action)
         (target : option model_obj),
    (forall obj, target = Some obj -> obj_matches v obj = true) ->
    (exists b, decide v actor a target = Ok b)
    /\ (forall r,
          IsOwnerAdminModeratorOrReadOnly_has_object_permission
            (mkRequest DELETE AnonymousUser) (ReviewObj r)
          = Raise AttributeError).
Proof.
  intros v actor a target Hm. split; [| reflexivity].
  destruct target as [obj|].
  - specialize (Hm obj eq_refl).
    destruct v, obj; try discriminate Hm; destruct a, actor as [|usr];
      unfold decide; simpl;
      try (eexists; reflexivity);
      match goal with
      | |- context [if ?c then _ else _] => destruct c; eexists; reflexivity
      end.
  - unfold decide.
    destruct (@has_permission (permission_classes v) _); eexists; reflexivity.
Qed.

Lemma X3_decide_never_raises_witness :
  exists b,
    decide ReviewViewSet AnonymousUser destroy (Some (ReviewObj alice_review))
    = Ok b.
Proof.
  apply (X3_decide_never_raises ReviewViewSet AnonymousUser destroy
           (Some (ReviewObj alice_review))).
  intros obj H. injection H as <-. reflexivity.
Defined.

Lemma decide_feedback_write (v : viewset) (u : CustomUser.t) (a : action)
  (obj : model_obj) (author : Z) :
  is_feedback v = true ->
  is_write a = true ->
  obj_author obj = Ok author ->
  decide v (User u) a (Some obj) =
  Ok ((author =? CustomUser.pk u)
      || str_in (CustomUser.role u) [USER_ROLE_MODERATOR; USER_ROLE_ADMIN]).
Proof.
  intros Hv Ha Ho.
  destruct v; try discriminate Hv; destruct a; try discriminate Ha;
    unfold decide; simpl;
    unfold IsOwnerAdminModeratorOrReadOnly_has_object_permission; simpl;
    rewrite Ho; reflexivity.
Qed.

(** X4. For an authenticated actor and a comment, updating or deleting the
    comment is allowed exactly when the actor is the comment's author or
    has role [moderator] or [admin]; otherwise it is denied. *)
Theorem X4_comment_write_iff_owner_or_staff :
  forall (u : CustomUser.t) (c : Comment.t) (a : action),
    a = update \/ a = partial_update \/ a = destroy ->
    (decide CommentViewSet (User u) a (Some (CommentObj c)) = Ok true <->
     Comment.author c = CustomUser.pk u
     \/ CustomUser.role u = USER_ROLE_MODERATOR
     \/ CustomUser.role u = USER_ROLE_ADMIN)
    /\ (decide CommentViewSet (User u) a (Some (CommentObj c)) = Ok true
        \/ decide CommentViewSet (User u) a (Some (CommentObj c)) = Ok false).
Proof.
  intros u c a Ha.
  assert (Hw : is_write a = true) by (destruct Ha as [-> | [-> | ->]]; auto).
  rewrite (decide_feedback_write CommentViewSet u a (CommentObj c)
             (Comment.author c) eq_refl Hw eq_refl).
  assert (Hiff : (Comment.author c =? CustomUser.pk u)
                 || str_in (CustomUser.role u)
                      [USER_ROLE_MODERATOR; USER_ROLE_ADMIN] = true <->
                 Comment.author c = CustomUser.pk u
                 \/ CustomUser.role u = USER_ROLE_MODERATOR
                 \/ CustomUser.role u = USER_ROLE_ADMIN).
  { rewrite orb_true_iff, Z.eqb_eq, str_in_roles. tauto. }
  split.
  - rewrite <- Hiff. split; [intros H; injection H; auto | intros ->; auto].
  - destruct ((Comment.author c =? CustomUser.pk u)
              || str_in (CustomUser.role u)
                   [USER_ROLE_MODERATOR; USER_ROLE_ADMIN]); auto.
Qed.

Lemma X4_comment_write_iff_owner_or_staff_witness :
  decide CommentViewSet (User alice) destroy (Some (CommentObj alice_comment))
  = Ok true.
Proof.
  destruct (X4_comment_write_iff_owner_or_staff alice alice_comment destroy)
    as [[_ H] _]; [right; right; reflexivity|].
  apply H. left. reflexivity.
Defined.

(** X5. On reviews and comments the superuser flag plays no part: the
    decision is the same with the flag set or cleared. A superuser whose
    role is [user] is therefore denied the update or deletion of another
    user's review, although the catalogue lets the same actor write. *)
Theorem X5_superuser_flag_ignored_on_feedback :
  forall (v : viewset) (u : CustomUser.t) (flag : bool) (a : action)
         (target : option model_obj),
    is_feedback v = true ->
    decide v (User (set_is_superuser u flag)) a target
    = decide v (User u) a target
    /\ (forall r,
          CustomUser.role u = USER_ROLE_USER ->
          Review.author r <> CustomUser.pk u ->
          decide ReviewViewSet (User (set_is_superuser u true)) destroy
            (Some (ReviewObj r)) = Ok false
          /\ decide TitleViewSet (User (set_is_superuser u true)) destroy None
             = Ok true).
Proof.
  intros v u flag a target Hv. split.
  - destruct v; try discriminate Hv; destruct a, target as [obj|];
      try reflexivity; destruct obj; reflexivity.
  - intros r Hr Hne. split; [| reflexivity].
    rewrite (decide_feedback_write ReviewViewSet _ destroy (ReviewObj r)
               (Review.author r) eq_refl eq_refl eq_refl).
    f_equal. apply orb_false_iff. split.
    + apply Z.eqb_neq. exact Hne.
    + change (CustomUser.role (set_is_superuser u true))
        with (CustomUser.role u). rewrite Hr. reflexivity.
Qed.

Lemma X5_superuser_flag_ignored_on_feedback_witness :
  decide ReviewViewSet (User (set_is_superuser bob true)) destroy
    (Some (ReviewObj alice_review)) = Ok false.
Proof.
  destruct (X5_superuser_flag_ignored_on_feedback ReviewViewSet bob true
              destroy None eq_refl) as [_ H].
  apply (H alice_review); [reflexivity | discriminate].
Defined.

(** ** More on the rating *)

Lemma sum_bounds (lo hi : Z) (l : list Z) :
  Forall (fun x => lo <= x <= hi) l ->
  lo * len l <= sum l <= hi * len l.
Proof.
  unfold len. induction 1 as [|x xs Hx _ IH]; simpl List.length; simpl sum.
  - lia.
  - rewrite Nat2Z.inj_succ. lia.
Qed.

Lemma title_scores_Forall (st : State) (obj : Title.t) (P : Z -> Prop) :
  (forall r, In r (reviews st) -> Review.title r = Title.pk obj ->
             P (Review.score r)) ->
  Forall P (title_scores st obj).
Proof.
  intros H. unfold title_scores. apply Forall_forall. intros x Hx.
  apply in_map_iff in Hx. destruct Hx as [r [<- Hr]].
  apply filter_In in Hr. destruct Hr as [Hin Ht].
  apply H; [exact Hin | apply Z.eqb_eq; exact Ht].
Qed.

(** X6. The rating of a reviewed title lies between the lowest and the
    highest of its scores: when every review of the title scores within
    [lo..hi], so does the rating. With scores validated to 1..10 the rating
    is in 1..10. Stated for scores whose sum is below 2^52 in absolute
    value, where Python's double quotient rounds as the exact one. *)
Theorem X6_rating_within_score_bounds :
  forall (st : State) (obj : Title.t) (lo hi : Z),
    Z.abs (sum (title_scores st obj)) < 2 ^ 52 ->
    (forall r, In r (reviews st) -> Review.title r = Title.pk obj ->
               lo <= Review.score r <= hi) ->
    title_scores st obj <> [] ->
    exists rating, get_rating st obj = Some rating /\ lo <= rating <= hi.
Proof.
  intros st obj lo hi _ Hall Hne.
  pose proof (sum_bounds lo hi _ (title_scores_Forall st obj _ Hall)) as Hb.
  pose proof (len_pos _ Hne) as Hn.
  rewrite get_rating_unfold.
  destruct (title_scores st obj) as [|x xs] eqn:E; [congruence|].
  rewrite <- E in *. clear E.
  set (s := sum (title_scores st obj)) in *.
  set (n := len (title_scores st obj)) in *.
  rewrite (py_round_div s n Hn).
  pose proof (Z.div_mod s n ltac:(lia)) as Hdm.
  pose proof (Z.mod_pos_bound s n Hn) as Hm.
  set (q := s / n) in *. set (m := s mod n) in *.
  assert (Hq : lo <= q) by nia.
  assert (Hq' : q <= hi) by nia.
  assert (Hq1 : 0 < m -> q + 1 <= hi) by nia.
  eexists. split; [reflexivity|].
  destruct (Z.compare_spec (2 * m) n); [destruct (Z.even q) | |]; lia.
Qed.

Lemma X6_rating_within_score_bounds_witness :
  exists rating, get_rating rated_state solaris = Some rating
                 /\ 1 <= rating <= 10.
Proof.
  apply (X6_rating_within_score_bounds rated_state solaris 1 10).
  - vm_compute. reflexivity.
  - intros r Hin _. simpl in Hin.
    destruct Hin as [<- | [<- | [<- | []]]]; simpl; lia.
  - discriminate.
Defined.

Lemma Permutation_filter_keep {A} (p : A -> bool) (l l' : list A) :
  Permutation l l' -> Permutation (filter p l) (filter p l').
Proof.
  induction 1 as [| x l l' _ IH | x y l | l l' l'' _ IH1 _ IH2]; simpl.
  - constructor.
  - destruct (p x); [constructor |]; exact IH.
  - destruct (p x), (p y); try apply Permutation_refl. constructor.
  - eapply Permutation_trans; eassumption.
Qed.

Lemma Permutation_sum (l l' : list Z) :
  Permutation l l' -> sum l = sum l'.
Proof.
  induction 1 as [| x l l' _ IH | x y l | l l' l'' _ IH1 _ IH2]; simpl;
    lia.
Qed.

(** X7. The rating is a function of the collection of the title's own
    reviews: two stores whose reviews of the title are the same up to
    order give the same rating. Reordering the reviews table, or adding a
    review of another title, therefore changes nothing, and neither does
    any change to the other tables. *)
Theorem X7_rating_depends_on_own_reviews :
  forall (st st' : State) (obj : Title.t),
    Permutation
      (filter (fun r => Review.title r =? Title.pk obj) (reviews st))
      (filter (fun r => Review.title r =? Title.pk obj) (reviews st')) ->
    get_rating st obj = get_rating st' obj.
Proof.
  intros st st' obj Hp.
  assert (Hs : Permutation (title_scores st obj) (title_scores st' obj)).
  { unfold title_scores. apply Permutation_map. exact Hp. }
  rewrite !get_rating_unfold.
  rewrite (Permutation_sum _ _ Hs).
  assert (Hl : len (title_scores st obj) = len (title_scores st' obj)).
  { unfold len. f_equal. apply Permutation_length. exact Hs. }
  rewrite Hl.
  destruct (title_scores st obj) as [|x xs] eqn:E1,
           (title_scores st' obj) as [|y ys] eqn:E2; try reflexivity.
  - apply Permutation_nil in Hs. discriminate.
  - apply Permutation_sym, Permutation_nil in Hs. discriminate.
Qed.

Lemma X7_rating_depends_on_own_reviews_witness :
  get_rating
    (mkState [] []
       [Review.Build 3 4 "Great" 1 10; Review.Build 9 2 "Other" 7 1;
        Review.Build 2 3 "Fine" 1 5; Review.Build 1 2 "Slow" 1 3] [] [])
    solaris
  = get_rating rated_state solaris.
Proof.
  apply X7_rating_depends_on_own_reviews. simpl.
  apply Permutation_sym.
  apply (Permutation_rev
           [Review.Build 1 2 "Slow" 1 3; Review.Build 2 3 "Fine" 1 5;
            Review.Build 3 4 "Great" 1 10]).
Defined.

Lemma sum_repeat_score (k : Z) (l : list Z) :
  Forall (fun x => x = k) l -> sum l = k * len l.
Proof.
  unfold len. induction 1 as [|x xs Hx _ IH]; simpl List.length; simpl sum.
  - lia.
  - rewrite Nat2Z.inj_succ. lia.
Qed.

(** X8. When all reviews of a title give the same score, that score is the
    rating; in particular a title with a single review is rated by that
    review's score. Stated for scores whose sum is below 2^52 in absolute
    value, where Python's double quotient rounds as the exact one. *)
Theorem X8_rating_of_equal_scores :
  forall (st : State) (obj : Title.t) (k : Z),
    Z.abs (sum (title_scores st obj)) < 2 ^ 52 ->
    (forall r, In r (reviews st) -> Review.title r = Title.pk obj ->
               Review.score r = k) ->
    title_scores st obj <> [] ->
    get_rating st obj = Some k.
Proof.
  intros st obj k _ Hall Hne.
  pose proof (sum_repeat_score k _ (title_scores_Forall st obj _ Hall)) as Hs.
  pose proof (len_pos _ Hne) as Hn.
  rewrite get_rating_unfold.
  destruct (title_scores st obj) as [|x xs] eqn:E; [congruence|].
  rewrite <- E in *. clear E.
  rewrite Hs, (py_round_div _ _ Hn).
  rewrite Z.mod_mul, Z.div_mul by lia.
  destruct (Z.compare_spec (2 * 0) (len (title_scores st obj))); try lia.
  reflexivity.
Qed.

Lemma X8_rating_of_equal_scores_witness :
  get_rating sample_state solaris = Some 7.
Proof.
  apply (X8_rating_of_equal_scores sample_state solaris 7).
  - vm_compute. reflexivity.
  - intros r Hin _. simpl in Hin. destruct Hin as [<- | []]. reflexivity.
  - discriminate.
Defined.

(** ** Registration: when it succeeds, and what it keeps *)

Lemma existsb_false_iff {A} (p : A -> bool) (l : list A) :
  existsb p l = false <-> forall x, In x l -> p x = false.
Proof.
  split.
  - intros H x Hx. apply not_true_is_false. intros Hp.
    assert (existsb p l = true) by (apply existsb_exists; eauto).
    congruence.
  - intros H. apply not_true_is_false. intros He.
    apply existsb_exists in He. destruct He as [x [Hx Hp]].
    rewrite (H x Hx) in Hp. discriminate.
Qed.

Lemma NoDup_app_last {A} (l : list A) (x : A) :
  NoDup l -> ~ In x l -> NoDup (l ++ [x]).
Proof.
  induction 1 as [|y ys Hy _ IH]; simpl; intros Hx.
  - constructor; [tauto | constructor].
  - constructor.
    + rewrite in_app_iff. simpl. intros [H | [H | []]]; [tauto|].
      subst. tauto.
    + apply IH. tauto.
Qed.

Lemma existsb_false_not_In (column : CustomUser.t -> string)
  (rows : list CustomUser.t) (value : string) :
  existsb (fun r => String.eqb (column r) value) rows = false ->
  ~ In value (map column rows).
Proof.
  intros H Hin. apply in_map_iff in Hin. destruct Hin as [r [<- Hr]].
  pose proof (proj1 (existsb_false_iff _ _) H r Hr) as Hf.
  cbv beta in Hf. rewrite String.eqb_refl in Hf. discriminate.
Qed.

Section SignupFacts.

Variable username_validator : string -> bool.
Variable EmailValidator : string -> bool.
Variable EMAIL_HOST_USER : string.

Local Abbreviation signup :=
  (EmailRegistrationView_post username_validator EmailValidator
     EMAIL_HOST_USER).
Local Abbreviation is_valid :=
  (EmailSerializer_is_valid username_validator EmailValidator).

Local Abbreviation can_register :=
  (registrable username_validator EmailValidator).
Local Abbreviation signup_mail := (signup_mail EMAIL_HOST_USER).

Lemma UniqueValidator_none (column : CustomUser.t -> string) (msg : string)
  (st : State) (value : string) :
  UniqueValidator column msg None st value = [] <->
  existsb (fun r => String.eqb (column r) value) (custom_user st) = false.
Proof.
  unfold UniqueValidator.
  rewrite (existsb_pointwise _ _ _ (fun r => andb_true_r _)).
  destruct (existsb _ (custom_user st)); split; congruence.
Qed.

Lemma MaxLengthValidator_passes (n : nat) (s : string) :
  MaxLengthValidator n s = [] <-> (str_len s <= n)%nat.
Proof.
  unfold MaxLengthValidator. rewrite <- Nat.leb_le.
  destruct (Nat.leb (str_len s) n); split; congruence.
Qed.

Lemma username_field_Ok (st : State) (input v : option string) :
  then_validate (username_field username_validator None st false input)
    validate_username = Ok v <->
  exists s, input = Some s /\ v = Some s
            /\ s <> "" /\ s <> "me"
            /\ username_validator s = true
            /\ (str_len s <= 257)%nat
            /\ existsb (fun r => String.eqb (CustomUser.username r) s)
                 (custom_user st) = false.
Proof.
  unfold then_validate, username_field. split.
  - destruct (CharField true false false _ input) as [v0|] eqn:H0;
      [| discriminate].
    apply CharField_required_Ok in H0.
    destruct H0 as [s [-> [-> [Hne Hv]]]]. cbn [bind].
    unfold validate_username.
    destruct (String.eqb_spec s "me") as [| Hme]; [discriminate|].
    intros H; injection H as <-. exists s.
    repeat split; auto.
    + assert (H : UnicodeUsernameValidator username_validator s = [])
        by (apply Hv; simpl; auto).
      unfold UnicodeUsernameValidator in H.
      destruct (username_validator s); [reflexivity | discriminate].
    + apply MaxLengthValidator_passes. apply Hv. simpl; auto.
    + eapply UniqueValidator_none. apply Hv. simpl; auto.
  - intros [s [-> [-> [Hne [Hme [Hu [Hl Hx]]]]]]].
    unfold CharField. apply String.eqb_neq in Hne. rewrite Hne.
    unfold run_validators. cbn [map List.concat].
    unfold UnicodeUsernameValidator. rewrite Hu.
    rewrite (proj2 (UniqueValidator_none _ _ _ _) Hx).
    rewrite (proj2 (MaxLengthValidator_passes _ _) Hl).
    cbn [app bind]. unfold validate_username.
    apply String.eqb_neq in Hme. rewrite Hme. reflexivity.
Qed.

Lemma email_field_Ok (st : State) (input v : option string) :
  email_field EmailValidator None st false input = Ok v <->
  exists s, input = Some s /\ v = Some s
            /\ s <> ""
            /\ EmailValidator s = true
            /\ (str_len s <= 257)%nat
            /\ existsb (fun r => String.eqb (CustomUser.email r) s)
                 (custom_user st) = false.
Proof.
  unfold email_field. split.
  - intros H0. apply CharField_required_Ok in H0.
    destruct H0 as [s [-> [-> [Hne Hv]]]]. exists s.
    repeat split; auto.
    + assert (H : validate_email EmailValidator s = [])
        by (apply Hv; simpl; auto).
      unfold validate_email in H.
      destruct (EmailValidator s); [reflexivity | discriminate].
    + apply MaxLengthValidator_passes. apply Hv. simpl; auto.
    + eapply UniqueValidator_none. apply Hv. simpl; auto.
  - intros [s [-> [-> [Hne [Hu [Hl Hx]]]]]].
    unfold CharField. apply String.eqb_neq in Hne. rewrite Hne.
    unfold run_validators. cbn [map List.concat].
    unfold validate_email. rewrite Hu.
    rewrite (proj2 (UniqueValidator_none _ _ _ _) Hx).
    rewrite (proj2 (MaxLengthValidator_passes _ _) Hl).
    reflexivity.
Qed.

Lemma username_field_raises (st : State) (input : option string) (e : exn) :
  then_validate (username_field username_validator None st false input)
    validate_username = Raise e ->
  exists d, e = ValidationError d.
Proof.
  unfold then_validate, username_field.
  destruct (CharField true false false _ input) as [v0|e0] eqn:H0;
    cbn [bind].
  - destruct v0 as [s|]; [| discriminate]. unfold validate_username.
    destruct (String.eqb s "me"); cbn [bind invalid]; [| discriminate].
    intros H; injection H as <-; eauto.
  - intros H; injection H as <-. apply CharField_raises in H0. exact H0.
Qed.

(** Validation of a registration either accepts the data as submitted or
    raises the errors of the two fields; nothing else. *)
Lemma EmailSerializer_is_valid_cases (st : State) (data : SignupData.t) :
  (exists username email,
      data = SignupData.Build (Some username) (Some email)
      /\ can_register st username email
      /\ is_valid st data = Ok data)
  \/ ((forall username email,
          data = SignupData.Build (Some username) (Some email) ->
          ~ can_register st username email)
      /\ exists errors, is_valid st data = Raise (ValidationError (Fields errors))).
Proof.
  unfold EmailSerializer_is_valid.
  destruct (then_validate _ validate_username) as [v1|e1] eqn:H1.
  - apply username_field_Ok in H1.
    destruct H1 as [u [Hu [-> [Hne [Hme [Hv [Hl Hx]]]]]]].
    cbn [run_field bind fst snd].
    destruct (email_field EmailValidator None st false (SignupData.email data))
      as [v2|e2] eqn:H2.
    + apply email_field_Ok in H2.
      destruct H2 as [m [Hm [-> [Hne' [Hv' [Hl' Hx']]]]]].
      left. exists u, m. destruct data as [du dm]; simpl in *. subst.
      unfold registrable. repeat split; auto.
    + right. split.
      * intros username email -> Hr. cbn [SignupData.email] in H2.
        unfold registrable in Hr.
        assert (Hok : email_field EmailValidator None st false (Some email)
                      = Ok (Some email)).
        { apply email_field_Ok. exists email. tauto. }
        congruence.
      * unfold email_field in H2. apply CharField_raises in H2.
        destruct H2 as [d ->]. cbn [run_field bind fst snd app].
        eexists. reflexivity.
  - right. split.
    + intros username email -> Hr. cbn [SignupData.username] in H1.
      unfold registrable in Hr.
      assert (Hok : then_validate
                      (username_field username_validator None st false
                         (Some username)) validate_username
                    = Ok (Some username)).
      { apply username_field_Ok. exists username. tauto. }
      congruence.
    + apply username_field_raises in H1. destruct H1 as [d ->].
      cbn [run_field bind fst snd app]. unfold email_field.
      step_char_field.
      match goal with
      | |- context [raise_if_errors ?e _] =>
          rewrite (raise_if_errors_In e _ ("username", detail_messages d))
            by auto using in_eq
      end.
      eexists. reflexivity.
Qed.

Lemma user_conflict_fresh (st : State) (username email : string) :
  existsb (fun r => String.eqb (CustomUser.username r) username)
    (custom_user st) = false ->
  existsb (fun r => String.eqb (CustomUser.email r) email)
    (custom_user st) = false ->
  user_conflict (custom_user st) (new_user st username email) = false.
Proof.
  intros Hu He. unfold user_conflict. apply existsb_false_iff.
  intros r Hr. unfold new_user. cbn [CustomUser.username CustomUser.email].
  rewrite (proj1 (existsb_false_iff _ _) Hu r Hr).
  rewrite (proj1 (existsb_false_iff _ _) He r Hr).
  apply andb_false_r.
Qed.

(** The two outcomes of a registration. *)
Lemma signup_outcome (st : State) (data : SignupData.t) :
  (exists username email,
      data = SignupData.Build (Some username) (Some email)
      /\ can_register st username email
      /\ dispatch (signup data) st
         = (mkResponse
              (JDict [("username", JStr username); ("email", JStr email)])
              HTTP_200_OK,
            mkState (custom_user st ++ [new_user st username email])%list
              (titles st) (reviews st) (comments st)
              (outbox st ++ [signup_mail email])%list))
  \/ ((forall username email,
          data = SignupData.Build (Some username) (Some email) ->
          ~ can_register st username email)
      /\ exists errors,
           dispatch (signup data) st
           = (mkResponse (errors_json (Fields errors)) HTTP_400_BAD_REQUEST,
              st)).
Proof.
  destruct (EmailSerializer_is_valid_cases st data)
    as [[username [email [-> [Hr Hv]]]] | [Hn [errors Hv]]].
  - left. exists username, email. split; [reflexivity|]. split; [exact Hr|].
    pose proof Hr as [_ [_ [_ [_ [Hu [_ [_ [_ He]]]]]]]].
    unfold dispatch, EmailRegistrationView_post, bindM, query.
    rewrite Hv. cbn [SignupData.email SignupData.username getitem].
    unfold CustomUser_objects_create. cbv zeta.
    fold (new_user st username email).
    rewrite (user_conflict_fresh st username email Hu He).
    unfold get_user_or_404, query, get_object_or_404, objects_get.
    cbn [custom_user set_custom_user].
    rewrite (find_app_last _ _ (new_user st username email)
               (existsb_false_find _ _ Hu) (String.eqb_refl username)).
    reflexivity.
  - right. split; [exact Hn|]. exists errors.
    unfold dispatch, EmailRegistrationView_post, bindM, query.
    rewrite Hv. reflexivity.
Qed.

(** X9. The reserved username [me] cannot be registered: whatever the
    email and the store, the view answers 400 with messages under
    [username] and creates no record and sends no mail. The comparison is
    exact, so a different spelling such as [Me] is not reserved. *)
Theorem X9_signup_rejects_me :
  forall (st : State) (email : option string),
    (exists errors msgs,
        dispatch (signup (SignupData.Build (Some "me") email)) st
        = (mkResponse (errors_json (Fields errors)) HTTP_400_BAD_REQUEST, st)
        /\ In ("username", msgs) errors)
    /\ validate_username "Me" = Ok "Me".
Proof.
  intros st email. split; [| reflexivity].
  assert (H1 : exists d,
             then_validate
               (username_field username_validator None st false (Some "me"))
               validate_username = Raise (ValidationError d)).
  { destruct (then_validate _ validate_username) as [v|e] eqn:E.
    - apply username_field_Ok in E.
      destruct E as [s [Hs [_ [_ [Hme _]]]]]. injection Hs as <-.
      congruence.
    - apply username_field_raises in E. destruct E as [d ->]. eauto. }
  destruct H1 as [d H1].
  unfold dispatch, EmailRegistrationView_post, bindM, query,
    EmailSerializer_is_valid.
  cbn [SignupData.username SignupData.email]. rewrite H1.
  cbn [run_field bind fst snd app]. unfold email_field.
  step_char_field.
  match goal with
  | |- context [raise_if_errors ?e _] =>
      assert (Hin : In ("username", detail_messages d) e)
        by auto using in_eq;
      rewrite (raise_if_errors_In e _ _ Hin)
  end.
  eexists _, _. split; [reflexivity | exact Hin].
Qed.

(** X10. When a registration is refused. For submitted values that are
    [plain] (the field's trimming leaves them as they are and they hold no
    null character), the view answers 400 exactly when a field is missing
    or the values are not registrable: the username is blank, is [me],
    fails the username validator, has more than 257 characters or is
    taken, or the email is blank, fails the email validator, has more than
    257 characters or is taken. A refused registration leaves the store as
    it was. An answer of 200 is given to registrable values only, and for
    registrable values the user row is stored, with role [user] and an
    empty confirmation code. *)
Theorem X10_signup_refused_iff :
  forall (st : State) (data : SignupData.t),
    plain_opt (SignupData.username data) = true ->
    plain_opt (SignupData.email data) = true ->
    (status (fst (dispatch (signup data) st)) = HTTP_400_BAD_REQUEST <->
     ~ exists username email,
         data = SignupData.Build (Some username) (Some email)
         /\ can_register st username email)
    /\ (status (fst (dispatch (signup data) st)) = HTTP_400_BAD_REQUEST ->
        snd (dispatch (signup data) st) = st)
    /\ (status (fst (dispatch (signup data) st)) = HTTP_200_OK ->
        exists username email,
          data = SignupData.Build (Some username) (Some email)
          /\ can_register st username email)
    /\ (forall username email,
          data = SignupData.Build (Some username) (Some email) ->
          can_register st username email ->
          exists u,
            custom_user (snd (dispatch (signup data) st))
            = (custom_user st ++ [u])%list
            /\ CustomUser.username u = username
            /\ CustomUser.email u = email
            /\ CustomUser.role u = USER_ROLE_USER
            /\ CustomUser.confirmation_code u = ""
            /\ ~ In (CustomUser.pk u) (map CustomUser.pk (custom_user st))).
Proof.
  intros st data _ _.
  destruct (signup_outcome st data)
    as [[username [email [Hd [Hr Hs]]]] | [Hn [errors Hs]]];
    rewrite Hs; cbn [fst snd status custom_user].
  - split; [| split; [discriminate | split]].
    + split; [discriminate|]. intros H. exfalso. apply H. eauto.
    + intros _. eauto.
    + intros username' email' Hd' _. rewrite Hd in Hd'.
      injection Hd' as <- <-.
      exists (new_user st username email).
      split; [reflexivity|]. do 4 (split; [reflexivity|]).
      intros Hin. apply next_pk_fresh in Hin. unfold new_user in Hin.
      cbn [CustomUser.pk] in Hin. lia.
  - split; [| split; [reflexivity | split]].
    + split; [| reflexivity].
      intros _ [username [email [Hd Hr]]]. exact (Hn username email Hd Hr).
    + discriminate.
    + intros username email Hd Hr. destruct (Hn username email Hd Hr).
Qed.

(** X11. Registration keeps the users table well formed: if primary keys,
    usernames and emails are each without duplicates before a request to
    the registration view, they are so after it, whatever was submitted. *)
Theorem X11_signup_keeps_users_unique :
  forall (st : State) (data : SignupData.t),
    users_unique (custom_user st) ->
    users_unique (custom_user (snd (dispatch (signup data) st))).
Proof.
  intros st data [Hpk [Hun Hem]].
  destruct (signup_outcome st data)
    as [[username [email [_ [Hr Hs]]]] | [_ [errors Hs]]];
    rewrite Hs; cbn [snd custom_user]; [| repeat split; assumption].
  destruct Hr as [_ [_ [_ [_ [Hu [_ [_ [_ He]]]]]]]].
  unfold users_unique. rewrite !map_app. cbn [map].
  repeat split; apply NoDup_app_last; auto.
  - intros Hin. apply next_pk_fresh in Hin. unfold new_user in Hin.
    cbn [CustomUser.pk] in Hin. lia.
  - apply (existsb_false_not_In CustomUser.username). exact Hu.
  - apply (existsb_false_not_In CustomUser.email). exact He.
Qed.

(** X12. What a registration request may touch: titles, reviews and
    comments stay as they are; the users already stored stay in place and
    at most one row is appended; a message is sent only when a row has
    been appended, never more than one, from the configured sender and to
    the address stored in that row; and an appended user always has role
    [user], no superuser flag and an empty confirmation code. *)
Theorem X12_signup_frame :
  forall (st : State) (data : SignupData.t),
    let st' := snd (dispatch (signup data) st) in
    titles st' = titles st
    /\ reviews st' = reviews st
    /\ comments st' = comments st
    /\ exists added mails,
         custom_user st' = (custom_user st ++ added)%list
         /\ outbox st' = (outbox st ++ mails)%list
         /\ (List.length added <= 1)%nat
         /\ (List.length mails <= List.length added)%nat
         /\ (forall u, In u added ->
               CustomUser.role u = USER_ROLE_USER
               /\ CustomUser.is_superuser u = false
               /\ CustomUser.confirmation_code u = ""
               /\ forall m, In m mails ->
                    recipient_list m = [CustomUser.email u]
                    /\ from_email m = EMAIL_HOST_USER).
Proof.
  intros st data st'. subst st'.
  destruct (signup_outcome st data)
    as [[username [email [-> [_ Hs]]]] | [_ [errors Hs]]];
    rewrite Hs; cbn [snd titles reviews comments custom_user outbox].
  - split; [reflexivity | split; [reflexivity | split; [reflexivity|]]].
    exists [new_user st username email], [signup_mail email].
    split; [reflexivity | split; [reflexivity | split; [simpl; lia |]]].
    split; [simpl; lia|].
    intros u [<- | []]. do 3 (split; [reflexivity|]).
    intros m [<- | []]. split; reflexivity.
  - split; [reflexivity | split; [reflexivity | split; [reflexivity|]]].
    exists [], []. rewrite !app_nil_r.
    split; [reflexivity | split; [reflexivity | split; [simpl; lia |]]].
    split; [simpl; lia|]. intros u [].
Qed.

End SignupFacts.

Lemma sample_state_users_unique : users_unique (custom_user sample_state).
Proof.
  unfold users_unique. simpl.
  repeat split; repeat constructor; simpl; intuition discriminate.
Qed.

Lemma X10_signup_refused_iff_witness :
  status
    (fst (dispatch
            (EmailRegistrationView_post any_string any_string sample_host
               (SignupData.Build (Some "alice") (Some "erin@yamdb.fake")))
            sample_state))
  = HTTP_400_BAD_REQUEST
  /\ exists u,
       custom_user
         (snd (dispatch
                 (EmailRegistrationView_post any_string any_string
                    sample_host
                    (SignupData.Build (Some "erin") (Some "erin@yamdb.fake")))
                 sample_state))
       = (custom_user sample_state ++ [u])%list
       /\ CustomUser.username u = "erin".
Proof.
  split.
  - destruct (X10_signup_refused_iff any_string any_string sample_host
                sample_state
                (SignupData.Build (Some "alice") (Some "erin@yamdb.fake"))
                eq_refl eq_refl) as [H _].
    apply H. intros [username [email [Hd [_ [_ [_ [_ [Hu _]]]]]]]].
    injection Hd as <- <-. vm_compute in Hu. discriminate.
  - destruct (X10_signup_refused_iff any_string any_string sample_host
                sample_state
                (SignupData.Build (Some "erin") (Some "erin@yamdb.fake"))
                eq_refl eq_refl) as [_ [_ [_ H]]].
    destruct (H "erin" "erin@yamdb.fake" eq_refl) as [u [Hc [Hn _]]].
    + unfold registrable. repeat split; try discriminate;
        try reflexivity; vm_compute; lia.
    + exists u. split; assumption.
Defined.

Lemma X11_signup_keeps_users_unique_witness :
  users_unique
    (custom_user
       (snd (dispatch
               (EmailRegistrationView_post any_string any_string sample_host
                  (SignupData.Build (Some "erin") (Some "erin@yamdb.fake")))
               sample_state))).
Proof.
  apply X11_signup_keeps_users_unique. exact sample_state_users_unique.
Defined.

(** ** Token exchange *)

Section TokenFacts.

Variable username_validator : string -> bool.
Variable EmailValidator : string -> bool.
Variable uuid3_NAMESPACE_DNS : string -> string.
Variable AccessToken_for_user : CustomUser.t -> string.
Variable EMAIL_HOST_USER : string.

Local Abbreviation signup :=
  (EmailRegistrationView_post username_validator EmailValidator
     EMAIL_HOST_USER).
Local Abbreviation token := (AccessTokenView_post AccessToken_for_user).
Local Abbreviation get_token := (get_token AccessToken_for_user).
Local Abbreviation generate :=
  (generate_and_send_confirmation_code_to_email uuid3_NAMESPACE_DNS
     EMAIL_HOST_USER).

(** The answer to a request with both fields filled in. *)
Lemma token_filled (st : State) (username code : string) :
  username <> "" -> code <> "" ->
  dispatch (token (TokenData.Build (Some username) (Some code))) st =
  (match find (fun u => String.eqb (CustomUser.username u) username)
           (custom_user st) with
   | None => exception_handler Http404
   | Some u =>
       if String.eqb (CustomUser.confirmation_code u) code then
         mkResponse (get_token u) HTTP_200_OK
       else
         mkResponse
           (JDict [("confirmation_code",
                    JStr ("Invalid confirmation" ++ "code for email "
                          ++ CustomUser.email u))])
           HTTP_400_BAD_REQUEST
   end, st).
Proof.
  intros Hu Hc. apply String.eqb_neq in Hu, Hc.
  unfold dispatch, AccessTokenView_post, bindM, query,
    try_except_DoesNotExist, get_user_or_404, get_object_or_404,
    objects_get, ConfirmationCodeSerializer_is_valid, CharField.
  cbn [TokenData.username TokenData.confirmation_code].
  rewrite Hu, Hc. simpl.
  destruct (find _ (custom_user st)) as [u|]; simpl; [| reflexivity].
  destruct (String.eqb (CustomUser.confirmation_code u) code); reflexivity.
Qed.

(** A request with a field missing or blank fails validation. *)
Lemma token_unfilled (st : State) (data : TokenData.t) :
  (forall username code,
      data = TokenData.Build (Some username) (Some code) ->
      username = "" \/ code = "") ->
  exists errors,
    dispatch (token data) st
    = (mkResponse (errors_json (Fields errors)) HTTP_400_BAD_REQUEST, st).
Proof.
  intros H.
  unfold dispatch, AccessTokenView_post, bindM, query,
    ConfirmationCodeSerializer_is_valid, CharField.
  destruct data as [[u|] [c|]];
    cbn [TokenData.username TokenData.confirmation_code];
    try destruct (String.eqb_spec u ""); try destruct (String.eqb_spec c "");
    cbn -[errors_json]; try (eexists; reflexivity).
  destruct (H u c eq_refl); contradiction.
Qed.

Lemma token_filled_or_not (data : TokenData.t) :
  (exists username code,
      data = TokenData.Build (Some username) (Some code)
      /\ username <> "" /\ code <> "")
  \/ (forall username code,
         data = TokenData.Build (Some username) (Some code) ->
         username = "" \/ code = "").
Proof.
  destruct data as [[u|] [c|]];
    try (right; intros username code H; discriminate H).
  destruct (String.eqb_spec u "") as [-> | Hu].
  { right. intros username code H. injection H as <- <-. auto. }
  destruct (String.eqb_spec c "") as [-> | Hc].
  { right. intros username code H. injection H as <- <-. auto. }
  left. exists u, c. auto.
Qed.

(** X13. The token view never writes: whatever it answers, be it a
    token, a validation error, 404 or the wrong-code message, the store it
    leaves (users with their confirmation codes, titles, reviews, comments
    and sent mail) is the one it was given. A confirmation code is
    therefore not used up by an exchange: the same request is answered
    with the same status again. Nothing is said of the token itself, which
    the token library issues anew on every call. *)
Theorem X13_token_view_is_read_only :
  forall (st : State) (data : TokenData.t),
    snd (dispatch (token data) st) = st
    /\ status (fst (dispatch (token data) (snd (dispatch (token data) st))))
       = status (fst (dispatch (token data) st)).
Proof.
  intros st data.
  assert (H : snd (dispatch (token data) st) = st).
  { destruct (token_filled_or_not data) as [[u [c [-> [Hu Hc]]]] | Hn].
    - rewrite (token_filled st u c Hu Hc). reflexivity.
    - destruct (token_unfilled st data Hn) as [errors ->]. reflexivity. }
  split; [exact H | rewrite H; reflexivity].
Qed.

(** X14. For a username and a code submitted [plain] (the field's
    trimming leaves them as they are and they hold no null character), a
    token is issued exactly when both fields are filled in, a user with
    the username exists and the submitted code equals the code stored for
    that user; the answer is then 200 with a token for that user. A wrong
    code is answered 400 with a message under [confirmation_code] naming
    the user's email. (A value with surrounding whitespace is compared by
    the program after trimming, which is outside this statement.) *)
Theorem X14_token_issued_iff_code_matches :
  forall (st : State) (data : TokenData.t),
    plain_opt (TokenData.username data) = true ->
    plain_opt (TokenData.confirmation_code data) = true ->
    (status (fst (dispatch (token data) st)) = HTTP_200_OK <->
     exists username code u,
       data = TokenData.Build (Some username) (Some code)
       /\ username <> "" /\ code <> ""
       /\ find (fun u => String.eqb (CustomUser.username u) username)
            (custom_user st) = Some u
       /\ CustomUser.confirmation_code u = code)
    /\ (forall username code u,
          data = TokenData.Build (Some username) (Some code) ->
          username <> "" -> code <> "" ->
          find (fun u => String.eqb (CustomUser.username u) username)
            (custom_user st) = Some u ->
          (CustomUser.confirmation_code u = code ->
           fst (dispatch (token data) st)
           = mkResponse (get_token u) HTTP_200_OK)
          /\ (CustomUser.confirmation_code u <> code ->
              fst (dispatch (token data) st)
              = mkResponse
                  (JDict [("confirmation_code",
                           JStr ("Invalid confirmationcode for email "
                                 ++ CustomUser.email u))])
                  HTTP_400_BAD_REQUEST)).
Proof.
  intros st data _ _. split.
  - destruct (token_filled_or_not data) as [[u [c [-> [Hu Hc]]]] | Hn].
    + rewrite (token_filled st u c Hu Hc). cbn [fst].
      destruct (find _ (custom_user st)) as [usr|] eqn:Hf.
      * destruct (String.eqb_spec (CustomUser.confirmation_code usr) c)
          as [He | He]; cbn [status].
        -- split; [intros _ | reflexivity].
           exists u, c, usr. auto.
        -- split; [discriminate|].
           intros [u' [c' [usr' [Hd [_ [_ [Hf' Hcode]]]]]]].
           injection Hd as <- <-. congruence.
      * split; [discriminate|].
        intros [u' [c' [usr' [Hd [_ [_ [Hf' _]]]]]]].
        injection Hd as <- <-. congruence.
    + destruct (token_unfilled st data Hn) as [errors ->]. cbn [fst status].
      split; [discriminate|].
      intros [u' [c' [usr' [Hd [Hu [Hc _]]]]]].
      destruct (Hn u' c' Hd); contradiction.
  - intros username code u -> Hu Hc Hf.
    rewrite (token_filled st username code Hu Hc), Hf. cbn [fst].
    split; intros H.
    + apply String.eqb_eq in H. rewrite H. reflexivity.
    + apply String.eqb_neq in H. rewrite H. reflexivity.
Qed.

(** After the helper has run for a username, the user found under that
    username holds the derived code. *)
Lemma generate_stores_code (username : string) (st st1 : State) :
  generate username st = (Ok tt, st1) ->
  exists u,
    find (fun u => String.eqb (CustomUser.username u) username)
      (custom_user st1) = Some u
    /\ CustomUser.confirmation_code u = uuid3_NAMESPACE_DNS username
    /\ CustomUser.username u = username.
Proof.
  intros H. rewrite generate_spec in H.
  destruct (find _ (custom_user st)) as [u0|] eqn:Hf; [| discriminate].
  cbv zeta in H.
  pose proof (find_some _ _ Hf) as [Hin Hp]. cbv beta in Hp.
  set (u' := set_confirmation_code u0 (uuid3_NAMESPACE_DNS username)) in *.
  destruct (user_conflict (custom_user st) u'); [discriminate|].
  assert (Hpk : existsb (fun r => CustomUser.pk r =? CustomUser.pk u')
                  (custom_user st) = true).
  { apply existsb_exists. exists u0. split; [exact Hin|]. apply Z.eqb_refl. }
  rewrite Hpk in H. injection H as <-.
  exists u'. cbn [custom_user set_custom_user].
  split; [| split; [reflexivity | apply String.eqb_eq; exact Hp]].
  apply (find_map_replace _ _ u0 u' Hf); [reflexivity | exact Hp].
Qed.

(** X15. The helper and the token view fit together: once the helper has
    run for a username, submitting that username with the code derived
    from it is answered 200 with a token, provided neither is blank. *)
Theorem X15_generated_code_opens_account :
  forall (st st1 : State) (username : string),
    generate username st = (Ok tt, st1) ->
    username <> "" ->
    uuid3_NAMESPACE_DNS username <> "" ->
    exists u,
      dispatch
        (token (TokenData.Build (Some username)
                  (Some (uuid3_NAMESPACE_DNS username)))) st1
      = (mkResponse (get_token u) HTTP_200_OK, st1)
      /\ CustomUser.username u = username.
Proof.
  intros st st1 username Hg Hu Hc.
  destruct (generate_stores_code username st st1 Hg) as [u [Hf [Hcode Hn]]].
  exists u. split; [| exact Hn].
  rewrite (token_filled st1 username _ Hu Hc), Hf, Hcode, String.eqb_refl.
  reflexivity.
Qed.

(** X16. No code opens an account whose stored code is empty, since a
    blank code does not pass validation. This is the state every
    registration through the view leaves behind: after a registration
    answered 200, a token request for the new username is answered 400
    whatever code it carries. *)
Theorem X16_no_token_after_signup :
  forall (st : State),
    (forall data u,
        find (fun r => String.eqb (CustomUser.username r)
                         (default "" (TokenData.username data)))
          (custom_user st) = Some u ->
        CustomUser.confirmation_code u = "" ->
        status (fst (dispatch (token data) st)) = HTTP_400_BAD_REQUEST)
    /\ (forall data resp st' code,
          dispatch (signup data) st = (resp, st') ->
          status resp = HTTP_200_OK ->
          status
            (fst (dispatch
                    (token (TokenData.Build (SignupData.username data) code))
                    st')) = HTTP_400_BAD_REQUEST).
Proof.
  assert (Hblank : forall st data u,
             find (fun r => String.eqb (CustomUser.username r)
                              (default "" (TokenData.username data)))
               (custom_user st) = Some u ->
             CustomUser.confirmation_code u = "" ->
             status (fst (dispatch (token data) st)) = HTTP_400_BAD_REQUEST).
  { intros st data u Hf Hcode.
    destruct (token_filled_or_not data) as [[un [c [-> [Hu Hc]]]] | Hn].
    - cbn [TokenData.username default] in Hf.
      rewrite (token_filled st un c Hu Hc), Hf, Hcode. cbn [fst].
      apply not_eq_sym, String.eqb_neq in Hc. rewrite Hc. reflexivity.
    - destruct (token_unfilled st data Hn) as [errors ->]. reflexivity. }
  intros st. split; [apply Hblank|].
  intros data resp st' code Hs H200.
  destruct (signup_outcome username_validator EmailValidator EMAIL_HOST_USER
              st data)
    as [[username [email [-> [Hr Hs']]]] | [_ [errors Hs']]];
    rewrite Hs' in Hs; injection Hs as <- <-; [| discriminate H200].
  destruct Hr as [_ [_ [_ [_ [Hu _]]]]].
  apply (Hblank _ _ (new_user st username email)); [| reflexivity].
  cbn [custom_user TokenData.username SignupData.username default].
  apply find_app_last;
    [apply existsb_false_find; exact Hu | apply String.eqb_refl].
Qed.

End TokenFacts.

Lemma X14_token_issued_iff_code_matches_witness :
  fst (dispatch
         (AccessTokenView_post sample_token
            (TokenData.Build (Some "alice") (Some "1234"))) sample_state)
  = mkResponse
      (JDict [("confirmation_code",
               JStr "Invalid confirmationcode for email alice@yamdb.fake")])
      HTTP_400_BAD_REQUEST.
Proof.
  destruct (X14_token_issued_iff_code_matches sample_token sample_state
              (TokenData.Build (Some "alice") (Some "1234"))
              eq_refl eq_refl) as [_ H].
  apply (H "alice" "1234" alice); try reflexivity; discriminate.
Defined.

Lemma X15_generated_code_opens_account_witness :
  exists u,
    dispatch
      (AccessTokenView_post sample_token
         (TokenData.Build (Some "alice") (Some (sample_uuid3 "alice"))))
      (snd (generate_and_send_confirmation_code_to_email sample_uuid3
              sample_host "alice" sample_state))
    = (mkResponse (get_token sample_token u) HTTP_200_OK,
       snd (generate_and_send_confirmation_code_to_email sample_uuid3
              sample_host "alice" sample_state))
    /\ CustomUser.username u = "alice".
Proof.
  apply (X15_generated_code_opens_account sample_uuid3 sample_token
           sample_host sample_state); [reflexivity | discriminate
                                       | discriminate].
Defined.

Lemma X16_no_token_after_signup_witness :
  status
    (fst (dispatch
            (AccessTokenView_post sample_token
               (TokenData.Build (Some "dave") (Some "anything")))
            registered_state)) = HTTP_400_BAD_REQUEST.
Proof.
  destruct (X16_no_token_after_signup any_string any_string sample_token
              sample_host empty_state) as [_ H].
  apply (H (SignupData.Build (Some "dave") (Some "dave@yamdb.fake"))
           (mkResponse
              (JDict [("username", JStr "dave");
                      ("email", JStr "dave@yamdb.fake")]) HTTP_200_OK)
           registered_state (Some "anything")); reflexivity.
Defined.

(** ** The self-profile action *)

Lemma NoDup_map_replace (f : CustomUser.t -> string)
  (rows : list CustomUser.t) (u' : CustomUser.t) :
  NoDup (map CustomUser.pk rows) ->
  NoDup (map f rows) ->
  (forall r, In r rows -> CustomUser.pk r <> CustomUser.pk u' ->
             f r <> f u') ->
  NoDup
    (map f
       (map (fun r => if CustomUser.pk r =? CustomUser.pk u' then u' else r)
          rows)).
Proof.
  set (g := fun r => if CustomUser.pk r =? CustomUser.pk u' then u' else r).
  induction rows as [|r rs IH]; cbn [map]; intros Hpk Hf Hother.
  - constructor.
  - inversion Hpk as [|? ? Hr Hpk']; subst.
    inversion Hf as [|? ? Hfr Hf']; subst.
    assert (Hother' : forall r0, In r0 rs ->
                      CustomUser.pk r0 <> CustomUser.pk u' -> f r0 <> f u')
      by (intros r0 H0; apply Hother; right; exact H0).
    constructor; [| apply IH; assumption].
    intros Hin. apply in_map_iff in Hin. destruct Hin as [x [Hx Hin]].
    apply in_map_iff in Hin. destruct Hin as [r0 [<- Hr0]].
    unfold g in Hx at 2.
    destruct (Z.eqb_spec (CustomUser.pk r) (CustomUser.pk u')) as [E | E].
    + (* the head is the rewritten row: no other row has its key *)
      assert (Hne : CustomUser.pk r0 <> CustomUser.pk u').
      { intros E0. apply Hr. rewrite E, <- E0. apply in_map. exact Hr0. }
      unfold g in Hx. apply Z.eqb_neq in Hne. rewrite Hne in Hx.
      apply Z.eqb_neq in Hne.
      apply (Hother' r0 Hr0 Hne). exact Hx.
    + unfold g in Hx.
      destruct (Z.eqb_spec (CustomUser.pk r0) (CustomUser.pk u')) as [E0 | E0].
      * apply (Hother r (or_introl eq_refl) E). symmetry. exact Hx.
      * apply Hfr. rewrite <- Hx. apply in_map. exact Hr0.
Qed.

Lemma map_pk_replace (rows : list CustomUser.t) (u' : CustomUser.t) :
  map CustomUser.pk
    (map (fun r => if CustomUser.pk r =? CustomUser.pk u' then u' else r)
       rows)
  = map CustomUser.pk rows.
Proof.
  rewrite map_map. apply map_ext. intros r.
  destruct (Z.eqb_spec (CustomUser.pk r) (CustomUser.pk u')); congruence.
Qed.

Lemma user_conflict_false (rows : list CustomUser.t) (u' r : CustomUser.t) :
  user_conflict rows u' = false ->
  In r rows ->
  CustomUser.pk r <> CustomUser.pk u' ->
  CustomUser.username r <> CustomUser.username u'
  /\ CustomUser.email r <> CustomUser.email u'.
Proof.
  intros Hc Hin Hne. unfold user_conflict in Hc.
  pose proof (proj1 (existsb_false_iff _ _) Hc r Hin) as H. cbv beta in H.
  apply Z.eqb_neq in Hne. rewrite Hne in H. cbn [negb andb] in H.
  apply orb_false_iff in H. destruct H as [H1 H2].
  apply String.eqb_neq in H1, H2. auto.
Qed.

Section MeFacts.

Variable username_validator : string -> bool.
Variable EmailValidator : string -> bool.

Local Abbreviation me := (UserViewSet_me username_validator EmailValidator).
Local Abbreviation is_valid :=
  (UserSerializer_is_valid username_validator EmailValidator).

(** The two outcomes of a partial update of the own profile. *)
Lemma me_patch_outcome (st : State) (u : CustomUser.t) (data : UserData.t) :
  objects_get (fun r => CustomUser.pk r =? CustomUser.pk u) (custom_user st)
  = Ok u ->
  (snd (dispatch (me (mkRequest PATCH (User u)) data) st) = st
   /\ status (fst (dispatch (me (mkRequest PATCH (User u)) data) st))
      <> HTTP_200_OK)
  \/ (is_valid st u true data = Ok data
      /\ user_conflict (custom_user st)
           (UserSerializer_update u (with_role data (CustomUser.role u)))
         = false
      /\ dispatch (me (mkRequest PATCH (User u)) data) st
         = (mkResponse
              (UserSerializer_data
                 (UserSerializer_update u
                    (with_role data (CustomUser.role u)))) HTTP_200_OK,
            set_custom_user st
              (map (fun r =>
                      if CustomUser.pk r =? CustomUser.pk u
                      then UserSerializer_update u
                             (with_role data (CustomUser.role u))
                      else r) (custom_user st)))).
Proof.
  intros Hget. unfold dispatch. rewrite me_patch_unfold.
  destruct (is_valid st u true data) as [vd|e] eqn:Hv.
  2:{ left. split; [reflexivity | apply exception_handler_not_200]. }
  pose proof (UserSerializer_is_valid_Ok _ _ _ _ _ _ _ Hv) as [-> _].
  cbv zeta. unfold CustomUser_save.
  destruct (user_conflict (custom_user st) _) eqn:Hc.
  { left. split; [reflexivity | discriminate]. }
  assert (Hpk : existsb (fun r => CustomUser.pk r =? CustomUser.pk u)
                  (custom_user st) = true).
  { unfold objects_get in Hget.
    destruct (find _ (custom_user st)) as [u0|] eqn:Hf; [| discriminate].
    injection Hget as ->. pose proof (find_some _ _ Hf) as [Hin _].
    apply existsb_exists. exists u. split; [exact Hin | apply Z.eqb_refl]. }
  cbn [UserSerializer_update CustomUser.pk] in *. rewrite Hpk.
  right. split; [reflexivity | split; reflexivity].
Qed.

(** The self-profile action at its edges. An anonymous request is
    refused as unauthenticated whatever its method and payload. For an
    authenticated user, [GET] returns the user's own profile and ignores
    the payload, and [POST], [PUT] and [DELETE] are answered 405. None of
    these changes the store. *)
Theorem me_edges :
  forall (st : State) (data : UserData.t),
    (forall m,
        dispatch (me (mkRequest m AnonymousUser) data) st
        = (exception_handler NotAuthenticated, st))
    /\ (forall u,
          dispatch (me (mkRequest GET (User u)) data) st
          = (mkResponse (UserSerializer_data u) HTTP_200_OK, st))
    /\ (forall u m,
          m = POST \/ m = PUT \/ m = DELETE ->
          dispatch (me (mkRequest m (User u)) data) st
          = (exception_handler (MethodNotAllowed (method_name m)), st)).
Proof.
  intros st data. split; [| split].
  - intros m. destruct m; reflexivity.
  - intros u. reflexivity.
  - intros u m [-> | [-> | ->]]; reflexivity.
Qed.

(** X18. What a partial self-update cannot reach. For a user whose row is
    in the store, and any payload: titles, reviews, comments and sent mail
    are untouched; the users table keeps its primary keys in place and
    every row of another user; and the user's own row keeps its primary
    key, its confirmation code and its superuser flag. *)
Theorem X18_me_patch_frame :
  forall (st : State) (u : CustomUser.t) (data : UserData.t),
    objects_get (fun r => CustomUser.pk r =? CustomUser.pk u) (custom_user st)
    = Ok u ->
    let st' := snd (dispatch (me (mkRequest PATCH (User u)) data) st) in
    titles st' = titles st
    /\ reviews st' = reviews st
    /\ comments st' = comments st
    /\ outbox st' = outbox st
    /\ map CustomUser.pk (custom_user st') = map CustomUser.pk (custom_user st)
    /\ (forall r, CustomUser.pk r <> CustomUser.pk u ->
          (In r (custom_user st') <-> In r (custom_user st)))
    /\ exists u',
         objects_get (fun r => CustomUser.pk r =? CustomUser.pk u)
           (custom_user st') = Ok u'
         /\ CustomUser.pk u' = CustomUser.pk u
         /\ CustomUser.confirmation_code u' = CustomUser.confirmation_code u
         /\ CustomUser.is_superuser u' = CustomUser.is_superuser u.
Proof.
  intros st u data Hget st'. subst st'.
  destruct (me_patch_outcome st u data Hget) as [[-> _] | [_ [_ ->]]];
    cbn [snd titles reviews comments outbox custom_user set_custom_user].
  - do 5 (split; [reflexivity|]). split; [tauto|].
    exists u. repeat split. exact Hget.
  - do 4 (split; [reflexivity|]).
    set (u' := UserSerializer_update u (with_role data (CustomUser.role u))).
    split; [apply (map_pk_replace (custom_user st) u') |]. split.
    + intros r Hne. rewrite in_map_iff. split.
      * intros [r0 [Hr0 Hin]].
        destruct (Z.eqb_spec (CustomUser.pk r0) (CustomUser.pk u)).
        -- subst r. destruct Hne. reflexivity.
        -- subst r. exact Hin.
      * intros Hin. exists r. split; [| exact Hin].
        apply Z.eqb_neq in Hne. rewrite Hne. reflexivity.
    + exists u'. repeat split.
      unfold objects_get in *.
      destruct (find _ (custom_user st)) as [u0|] eqn:Hf; [| discriminate].
      injection Hget as ->.
      assert (H : find (fun r => CustomUser.pk r =? CustomUser.pk u)
                    (map (fun r => if CustomUser.pk r =? CustomUser.pk u
                                   then u' else r) (custom_user st))
                  = Some u')
        by exact (find_map_replace _ _ u u' Hf eq_refl (Z.eqb_refl _)).
      rewrite H. reflexivity.
Qed.

Lemma users_unique_replace (rows : list CustomUser.t) (u' : CustomUser.t) :
  users_unique rows ->
  user_conflict rows u' = false ->
  users_unique
    (map (fun r => if CustomUser.pk r =? CustomUser.pk u' then u' else r)
       rows).
Proof.
  intros [Hpk [Hun Hem]] Hc. unfold users_unique.
  rewrite map_pk_replace. split; [exact Hpk|].
  split; apply NoDup_map_replace; auto; intros r Hin Hne;
    apply (user_conflict_false rows u' r Hc Hin Hne).
Qed.

(** X19. A partial self-update keeps the users table well formed: with
    primary keys, usernames and emails each without duplicates before the
    request, and the user's row in the store, they are without duplicates
    after it, whatever the payload. *)
Theorem X19_me_patch_keeps_users_unique :
  forall (st : State) (u : CustomUser.t) (data : UserData.t),
    objects_get (fun r => CustomUser.pk r =? CustomUser.pk u) (custom_user st)
    = Ok u ->
    users_unique (custom_user st) ->
    users_unique
      (custom_user (snd (dispatch (me (mkRequest PATCH (User u)) data) st))).
Proof.
  intros st u data Hget Hu.
  destruct (me_patch_outcome st u data Hget) as [[-> _] | [_ [Hc ->]]];
    [exact Hu|].
  cbn [snd custom_user set_custom_user].
  apply (users_unique_replace (custom_user st)
           (UserSerializer_update u (with_role data (CustomUser.role u)))
           Hu Hc).
Qed.

(** X20. The reserved username [me] is refused at registration only: the
    profile serializer has no such check, so a user whose row satisfies the
    store's uniqueness can rename themselves [me] by a partial self-update,
    provided the username validator accepts [me] and nobody else bears
    it. *)
Theorem X20_me_username_through_profile :
  forall (st : State) (u : CustomUser.t),
    objects_get (fun r => CustomUser.pk r =? CustomUser.pk u) (custom_user st)
    = Ok u ->
    user_conflict (custom_user st) u = false ->
    username_validator "me" = true ->
    existsb
      (fun r => String.eqb (CustomUser.username r) "me"
                && negb (CustomUser.pk r =? CustomUser.pk u))
      (custom_user st) = false ->
    exists u' st',
      dispatch
        (me (mkRequest PATCH (User u))
           (UserData.Build None (Some "me") None None None None)) st
      = (mkResponse (UserSerializer_data u') HTTP_200_OK, st')
      /\ objects_get (fun r => CustomUser.pk r =? CustomUser.pk u)
           (custom_user st') = Ok u'
      /\ CustomUser.username u' = "me".
Proof.
  intros st u Hget Hc Hv Hx.
  set (data := UserData.Build None (Some "me") None None None None).
  assert (Hvalid : is_valid st u true data = Ok data).
  { unfold UserSerializer_is_valid, email_field, username_field, CharField,
      run_validators, UnicodeUsernameValidator, UniqueValidator,
      MaxLengthValidator, ChoiceField, validate_empty.
    cbn [UserData.email UserData.username UserData.bio UserData.role
         UserData.first_name UserData.last_name data map List.concat].
    rewrite Hv, Hx. reflexivity. }
  assert (Hc' : user_conflict (custom_user st)
                  (UserSerializer_update u
                     (with_role data (CustomUser.role u))) = false).
  { apply user_conflict_after_update; [exact Hc | |].
    - intros s Hs. injection Hs as <-. exact Hx.
    - intros s Hs. discriminate Hs. }
  destruct (CustomUser_save_stored st u
              (UserSerializer_update u (with_role data (CustomUser.role u)))
              Hget eq_refl Hc') as [st1 [Hs [Hg _]]].
  eexists _, st1. split; [| split; [exact Hg | reflexivity]].
  unfold dispatch. rewrite me_patch_unfold, Hvalid. cbv zeta.
  rewrite Hs. reflexivity.
Qed.

End MeFacts.

Lemma me_edges_at_sample :
  dispatch
    (UserViewSet_me any_string any_string (mkRequest DELETE (User alice))
       (UserData.Build None None None None None None)) sample_state
  = (exception_handler (MethodNotAllowed "DELETE"), sample_state).
Proof.
  destruct (me_edges any_string any_string sample_state
              (UserData.Build None None None None None None)) as [_ [_ H]].
  apply H. right. right. reflexivity.
Defined.

Lemma X18_me_patch_frame_witness :
  reviews
    (snd (dispatch
            (UserViewSet_me any_string any_string
               (mkRequest PATCH (User alice))
               (UserData.Build None None (Some "Film critic") None None None))
            sample_state))
  = reviews sample_state.
Proof.
  destruct (X18_me_patch_frame any_string any_string sample_state alice
              (UserData.Build None None (Some "Film critic") None None None)
              eq_refl) as [_ [H _]].
  exact H.
Defined.

Lemma X19_me_patch_keeps_users_unique_witness :
  users_unique
    (custom_user
       (snd (dispatch
               (UserViewSet_me any_string any_string
                  (mkRequest PATCH (User alice))
                  (UserData.Build (Some "al@yamdb.fake") (Some "al") None
                     None None None))
               sample_state))).
Proof.
  apply X19_me_patch_keeps_users_unique;
    [reflexivity | exact sample_state_users_unique].
Defined.

Lemma X20_me_username_through_profile_witness :
  exists u' st',
    dispatch
      (UserViewSet_me any_string any_string (mkRequest PATCH (User alice))
         (UserData.Build None (Some "me") None None None None)) sample_state
    = (mkResponse (UserSerializer_data u') HTTP_200_OK, st')
    /\ objects_get (fun r => CustomUser.pk r =? CustomUser.pk alice)
         (custom_user st') = Ok u'
    /\ CustomUser.username u' = "me".
Proof.
  apply (X20_me_username_through_profile any_string any_string sample_state
           alice); reflexivity.
Defined.

(** ** Reviews: creation and update *)

Lemma NoDup_map_In_eq {A B} (f : A -> B) (l : list A) (a b : A) :
  NoDup (map f l) -> In a l -> In b l -> f a = f b -> a = b.
Proof.
  induction l as [|x xs IH]; cbn [map]; intros Hnd Ha Hb Hf; [destruct Ha|].
  inversion Hnd as [|? ? Hx Hnd']; subst.
  destruct Ha as [-> | Ha], Hb as [-> | Hb]; auto.
  - destruct Hx. rewrite Hf. apply in_map. exact Hb.
  - destruct Hx. rewrite <- Hf. apply in_map. exact Ha.
Qed.

Section ReviewMore.

Variable positive_integer_max : Z.

Local Abbreviation is_valid :=
  (ReviewSerializer_is_valid positive_integer_max).
Local Abbreviation create_review :=
  (ReviewViewSet_create positive_integer_max).
Local Abbreviation update_review :=
  (ReviewViewSet_update positive_integer_max).

Lemma score_field_Ok (partial : bool) (input v : option Z) :
  then_validate (score_field positive_integer_max partial input)
    validate_score = Ok v ->
  v = input
  /\ (forall z, input = Some z -> 1 <= z <= 10)
  /\ (partial = false -> exists z, input = Some z).
Proof.
  unfold then_validate, score_field, IntegerField, validate_empty.
  destruct input as [z|].
  - destruct (run_validators _ z) as [z'|] eqn:E; cbn [bind];
      [| discriminate].
    apply run_validators_Ok in E. destruct E as [-> _].
    destruct (validate_score_spec z) as [Hin Hout].
    destruct (Z.le_gt_cases 1 z) as [Ha | Ha],
             (Z.le_gt_cases z 10) as [Hb | Hb];
      try (rewrite Hout by lia; discriminate).
    rewrite Hin by lia. cbn [bind]. intros H; injection H as <-.
    split; [reflexivity|]. split; [| eauto].
    intros z0 Hz. injection Hz as <-. lia.
  - destruct partial; cbn [bind]; [| discriminate].
    intros H; injection H as <-.
    split; [reflexivity | split; discriminate].
Qed.

Lemma score_field_accepts (partial : bool) (z : Z) :
  1 <= z <= 10 -> z <= positive_integer_max ->
  then_validate (score_field positive_integer_max partial (Some z))
    validate_score = Ok (Some z).
Proof.
  intros Hz Hmax.
  unfold then_validate, score_field, IntegerField, run_validators,
    MaxValueValidator, MinValueValidator.
  cbn [map List.concat].
  replace (positive_integer_max <? z) with false
    by (symmetry; apply Z.ltb_ge; lia).
  replace (z <? 0) with false by (symmetry; apply Z.ltb_ge; lia).
  cbn [app bind].
  rewrite (proj1 (validate_score_spec z) Hz). reflexivity.
Qed.

Lemma title_field_Ok (st : State) (actor : request_user) (title_id : Z)
  (partial : bool) (v : option Title.t) :
  then_validate (title_field st title_id partial) (validate_title st actor)
  = Ok v ->
  (partial = true /\ v = None)
  \/ (partial = false
      /\ exists t u,
           v = Some t
           /\ get_title_or_404 title_id st = Ok t
           /\ actor = User u
           /\ review_exists (reviews st) (CustomUser.pk u) (Title.pk t)
              = false).
Proof.
  unfold then_validate, title_field, CurrentTitleDefault.
  destruct partial.
  - cbn [bind]. intros H; injection H as <-. left. auto.
  - destruct (get_title_or_404 title_id st) as [t|] eqn:Ht; cbn [bind];
      [| discriminate].
    unfold validate_title. destruct actor as [|u]; cbn [bind];
      [discriminate|].
    destruct (review_exists _ _ _) eqn:Hex; cbn [bind invalid];
      [discriminate|].
    intros H; injection H as <-. right. split; [reflexivity|].
    exists t, u. auto.
Qed.

(** What a successful validation of a review tells. *)
Lemma ReviewSerializer_is_valid_Ok (st : State) (actor : request_user)
  (title_id : Z) (instance : option Review.t) (partial : bool)
  (data : ReviewData.t) (attrs : ReviewAttrs.t) :
  is_valid st actor title_id instance partial data = Ok attrs ->
  ReviewAttrs.text attrs = ReviewData.text data
  /\ (forall s, ReviewData.text data = Some s -> s <> "")
  /\ ReviewAttrs.score attrs = ReviewData.score data
  /\ (forall z, ReviewData.score data = Some z -> 1 <= z <= 10)
  /\ ((partial = true /\ ReviewAttrs.title attrs = None)
      \/ (partial = false
          /\ exists t u,
               ReviewAttrs.title attrs = Some t
               /\ get_title_or_404 title_id st = Ok t
               /\ actor = User u
               /\ review_exists (reviews st) (CustomUser.pk u) (Title.pk t)
                  = false))
  /\ (partial = false ->
      exists s z, ReviewData.text data = Some s
                  /\ ReviewData.score data = Some z).
Proof.
  unfold ReviewSerializer_is_valid.
  destruct (run_field "text" _ []) as [[v1 e1]|] eqn:H1; [| discriminate].
  cbn [bind fst snd].
  destruct (run_field "score" _ e1) as [[v2 e2]|] eqn:H2; [| discriminate].
  cbn [bind fst snd].
  destruct (run_field "title" _ e2) as [[v3 e3]|] eqn:H3; [| discriminate].
  cbn [bind fst snd].
  destruct (raise_if_errors e3 _) as [attrs0|] eqn:H4; [| discriminate].
  cbn [bind].
  destruct (UniqueTogetherValidator _ _ _ _ _); [| discriminate].
  cbn [bind]. intros H; injection H as <-.
  apply raise_if_errors_Ok in H4. destruct H4 as [-> ->].
  apply run_field_nil in H3; [| reflexivity]. destruct H3 as [H3 ->].
  apply run_field_nil in H2; [| reflexivity]. destruct H2 as [H2 ->].
  apply run_field_nil in H1; [| reflexivity]. destruct H1 as [H1 _].
  cbn [ReviewAttrs.text ReviewAttrs.score ReviewAttrs.title].
  pose proof (CharField_Ok _ _ _ _ _ _ H1) as [-> _].
  apply score_field_Ok in H2. destruct H2 as [-> [Hrange Hreq]].
  apply title_field_Ok in H3.
  split; [reflexivity|]. split.
  { intros s Hs Hblank. subst s. rewrite Hs in H1. discriminate H1. }
  split; [reflexivity|]. split; [exact Hrange|]. split; [exact H3|].
  intros ->. unfold CharField, validate_empty in H1.
  destruct (ReviewData.text data) as [s|]; [| discriminate H1].
  destruct (Hreq eq_refl) as [z Hz]. eauto.
Qed.

Lemma exception_handler_not_201 (e : exn) :
  status (exception_handler e) <> HTTP_201_CREATED.
Proof. destruct e; discriminate. Qed.

Lemma unique_title_of_not_exists (rows : list Review.t) (r : Review.t) :
  review_exists rows (Review.author r) (Review.title r) = false ->
  unique_title rows r = true.
Proof.
  unfold review_exists, unique_title. intros H. apply negb_true_iff.
  apply existsb_false_iff. intros r' Hr'.
  pose proof (proj1 (existsb_false_iff _ _) H r' Hr') as Hf. cbv beta in Hf.
  rewrite <- andb_assoc, (andb_comm (Review.title r' =? Review.title r)), Hf.
  apply andb_false_r.
Qed.

Lemma is_valid_accepts (st : State) (u : CustomUser.t) (title_id : Z)
  (t : Title.t) (text : string) (score : Z) :
  get_title_or_404 title_id st = Ok t ->
  review_exists (reviews st) (CustomUser.pk u) (Title.pk t) = false ->
  text <> "" ->
  1 <= score <= 10 ->
  score <= positive_integer_max ->
  is_valid st (User u) title_id None false
    (ReviewData.Build (Some text) (Some score))
  = Ok (ReviewAttrs.Build (Some text) (Some score) (Some t)).
Proof.
  intros Ht Hex Htext Hscore Hmax.
  unfold ReviewSerializer_is_valid.
  cbn [ReviewData.text ReviewData.score].
  rewrite (score_field_accepts false score Hscore Hmax).
  unfold CharField, title_field, CurrentTitleDefault, validate_title,
    UniqueTogetherValidator, run_validators.
  apply String.eqb_neq in Htext. rewrite Htext, Ht.
  cbn [map List.concat bind then_validate run_field fst snd raise_if_errors].
  rewrite Hex.
  cbn [bind then_validate run_field fst snd raise_if_errors ReviewAttrs.title
       app].
  unfold review_exists in Hex.
  rewrite (existsb_pointwise _ _ _ (fun r => andb_true_r _)), Hex.
  reflexivity.
Qed.

(** The two outcomes of the creation of a review. *)
Lemma create_review_outcome (st : State) (actor : request_user)
  (title_id : Z) (data : ReviewData.t) :
  (snd (dispatch (create_review actor title_id data) st) = st
   /\ status (fst (dispatch (create_review actor title_id data) st))
      <> HTTP_201_CREATED)
  \/ exists u t text score,
       actor = User u
       /\ get_title_or_404 title_id st = Ok t
       /\ data = ReviewData.Build (Some text) (Some score)
       /\ text <> ""
       /\ 1 <= score <= 10
       /\ review_exists (reviews st) (CustomUser.pk u) (Title.pk t) = false
       /\ dispatch (create_review actor title_id data) st
          = (mkResponse
               (ReviewSerializer_data (new_review st u t text score)
                  (CustomUser.username u)) HTTP_201_CREATED,
             set_reviews st
               (reviews st ++ [new_review st u t text score])%list).
Proof.
  unfold dispatch, ReviewViewSet_create, bindM, query.
  destruct actor as [|u].
  { left. split; [reflexivity | discriminate]. }
  cbn [permission_classes has_permission IsOwnerAdminModeratorOrReadOnly
       IsOwnerAdminModeratorOrReadOnly_has_permission method user
       method_in existsb SAFE_METHODS method_eqb is_authenticated orb negb].
  destruct (is_valid st (User u) title_id None false data) as [attrs|e]
    eqn:Hv.
  2:{ left. split; [reflexivity | apply exception_handler_not_201]. }
  apply ReviewSerializer_is_valid_Ok in Hv.
  destruct Hv as [Htext [Hblank [Hscore [Hrange [Htitle Hreq]]]]].
  destruct Htitle as [[Hp _] | [_ [t [u0 [Ht [Hget [Hu Hex]]]]]]];
    [discriminate Hp|].
  injection Hu as <-.
  destruct (Hreq eq_refl) as [s [z [Hs Hz]]].
  destruct attrs as [atext ascore atitle], data as [dtext dscore].
  cbn [ReviewAttrs.text ReviewAttrs.score ReviewAttrs.title ReviewData.text
       ReviewData.score] in *.
  subst. rewrite Hget. cbn [getitem].
  unfold Review_objects_create. cbv zeta.
  fold (new_review st u t s z).
  rewrite (unique_title_of_not_exists (reviews st) (new_review st u t s z)
             Hex).
  right. exists u, t, s, z.
  repeat split; auto; apply (Hrange z eq_refl).
Qed.

(** X21. When a review is created. An authenticated user who has not yet
    reviewed an existing title and submits a non-blank text, [plain] (the
    field's trimming leaves it as it is and it holds no null character),
    and a score from 1 to 10 (within what the column stores) is answered
    201 with the stored review; the reviews table gains exactly that
    review, with the user as author, the submitted text and score, under
    a primary key that no stored review has; the other tables and the
    sent mail are untouched, and the title's scores gain the submitted
    score. *)
Theorem X21_create_review_succeeds :
  forall (st : State) (u : CustomUser.t) (title_id : Z) (t : Title.t)
         (text : string) (score : Z),
    get_title_or_404 title_id st = Ok t ->
    review_exists (reviews st) (CustomUser.pk u) (Title.pk t) = false ->
    plain text = true ->
    text <> "" ->
    1 <= score <= 10 ->
    score <= positive_integer_max ->
    exists review st',
      dispatch
        (create_review (User u) title_id
           (ReviewData.Build (Some text) (Some score))) st
      = (mkResponse (ReviewSerializer_data review (CustomUser.username u))
           HTTP_201_CREATED, st')
      /\ Review.author review = CustomUser.pk u
      /\ Review.text review = text
      /\ Review.title review = Title.pk t
      /\ Review.score review = score
      /\ ~ In (Review.pk review) (map Review.pk (reviews st))
      /\ reviews st' = (reviews st ++ [review])%list
      /\ custom_user st' = custom_user st
      /\ titles st' = titles st
      /\ comments st' = comments st
      /\ outbox st' = outbox st
      /\ title_scores st' t = (title_scores st t ++ [score])%list.
Proof.
  intros st u title_id t text score Ht Hex _ Htext Hscore Hmax.
  exists (new_review st u t text score),
    (set_reviews st (reviews st ++ [new_review st u t text score])%list).
  split; [| do 4 (split; [reflexivity|]); split;
            [| do 5 (split; [reflexivity|])]].
  - unfold dispatch, ReviewViewSet_create, bindM, query.
    cbn [permission_classes has_permission IsOwnerAdminModeratorOrReadOnly
         IsOwnerAdminModeratorOrReadOnly_has_permission method user
         method_in existsb SAFE_METHODS method_eqb is_authenticated orb negb].
    rewrite (is_valid_accepts st u title_id t text score Ht Hex Htext Hscore
               Hmax).
    rewrite Ht. cbn [ReviewAttrs.text ReviewAttrs.score getitem].
    unfold Review_objects_create. cbv zeta.
    fold (new_review st u t text score).
    rewrite (unique_title_of_not_exists (reviews st)
               (new_review st u t text score) Hex).
    reflexivity.
  - intros Hin. apply next_pk_fresh in Hin.
    unfold new_review in Hin. cbn [Review.pk] in Hin. lia.
  - unfold title_scores, new_review.
    cbn [reviews set_reviews]. rewrite filter_app, map_app.
    cbn [filter Review.title]. rewrite Z.eqb_refl. reflexivity.
Qed.

(** X22. One review per user and title, as a sequence of requests: once a
    creation has been answered 201, every further creation by the same
    user for the same title is answered 400 with the duplicate message
    under [title] and leaves the store as the first creation left it. *)
Theorem X22_create_review_twice :
  forall (st : State) (actor : request_user) (title_id : Z)
         (data : ReviewData.t) (resp : Response) (st' : State),
    dispatch (create_review actor title_id data) st = (resp, st') ->
    status resp = HTTP_201_CREATED ->
    forall data',
    exists errors,
      dispatch (create_review actor title_id data') st'
      = (mkResponse (errors_json (Fields errors)) HTTP_400_BAD_REQUEST, st')
      /\ In ("title", [duplicate_review_message]) errors.
Proof.
  intros st actor title_id data resp st' Hd H201 data'.
  destruct (create_review_outcome st actor title_id data)
    as [[_ Hn] | [u [t [text [score [-> [Ht [_ [_ [_ [_ Hs]]]]]]]]]]].
  { rewrite Hd in Hn. destruct (Hn H201). }
  rewrite Hs in Hd. injection Hd as _ <-.
  set (st1 := set_reviews st _).
  assert (Ht1 : get_title_or_404 title_id st1 = Ok t) by exact Ht.
  assert (Hex1 : review_exists (reviews st1) (CustomUser.pk u) (Title.pk t)
                 = true).
  { apply review_exists_iff. exists (new_review st u t text score).
    split; [| split; reflexivity].
    unfold st1. cbn [reviews set_reviews]. apply in_or_app. right.
    left. reflexivity. }
  destruct (ReviewSerializer_is_valid_duplicate positive_integer_max st1 u
              title_id t None data' Ht1 Hex1) as [errors [Hv Hin]].
  exists errors. split; [| exact Hin].
  unfold dispatch, ReviewViewSet_create, bindM, query.
  cbn [permission_classes has_permission IsOwnerAdminModeratorOrReadOnly
       IsOwnerAdminModeratorOrReadOnly_has_permission method user
       method_in existsb SAFE_METHODS method_eqb is_authenticated orb negb].
  rewrite Hv. reflexivity.
Qed.

Lemma get_object_in {A} (p q : A -> bool) (rows : list A) (r : A) :
  get_object_or_404 p (filter q rows) = Ok r ->
  In r rows /\ p r = true /\ q r = true.
Proof.
  unfold get_object_or_404, objects_get.
  destruct (find p (filter q rows)) as [a|] eqn:Hf; [| discriminate].
  intros H; injection H as ->.
  apply find_some in Hf. destruct Hf as [Hin Hp].
  apply filter_In in Hin. tauto.
Qed.

(** The row an update writes back in place of the instance. *)
Local Abbreviation rewritten instance attrs rows :=
  (map (fun r' : Review.t =>
          if Review.pk r' =? Review.pk instance
          then ReviewSerializer_update instance attrs else r') rows).

(** The store after an update: as it was, or with the rows of the
    instance's primary key rewritten from validated attributes. *)
Lemma update_review_outcome (st : State) (actor : request_user)
  (title_id review_id : Z) (partial : bool) (data : ReviewData.t) :
  snd (dispatch (update_review actor title_id review_id partial data) st)
  = st
  \/ exists u t instance attrs,
       actor = User u
       /\ get_title_or_404 title_id st = Ok t
       /\ In instance (reviews st)
       /\ Review.pk instance = review_id
       /\ Review.title instance = Title.pk t
       /\ is_valid st actor title_id (Some instance) partial data = Ok attrs
       /\ snd (dispatch (update_review actor title_id review_id partial data)
                 st)
          = set_reviews st (rewritten instance attrs (reviews st)).
Proof.
  unfold dispatch, ReviewViewSet_update, bindM, query.
  destruct actor as [|u].
  { left. destruct partial; reflexivity. }
  replace (negb _) with false by (destruct partial; reflexivity).
  cbv iota.
  destruct (get_title_or_404 title_id st) as [t|e] eqn:Ht;
    [| left; reflexivity].
  destruct (get_object_or_404 _ _) as [r|e] eqn:Hr; [| left; reflexivity].
  apply get_object_in in Hr. destruct Hr as [Hin [Hpk Htitle]].
  apply Z.eqb_eq in Hpk, Htitle.
  assert (Hp : exists b,
             @has_object_permission (permission_classes ReviewViewSet)
               (mkRequest (if partial then PATCH else PUT) (User u))
               (ReviewObj r) = Ok b).
  { destruct partial; eexists; reflexivity. }
  destruct Hp as [b Hp]. rewrite Hp.
  destruct b; cbn [negb]; [| left; reflexivity].
  destruct (is_valid st (User u) title_id (Some r) partial data)
    as [attrs|e] eqn:Hv; [| left; reflexivity].
  unfold Review_save.
  destruct (negb (unique_title (reviews st) _)); [left; reflexivity|].
  assert (Hex : existsb
                  (fun r' => Review.pk r' =?
                             Review.pk (ReviewSerializer_update r attrs))
                  (reviews st) = true).
  { apply existsb_exists. exists r. split; [exact Hin | apply Z.eqb_refl]. }
  rewrite Hex.
  right. exists u, t, r, attrs.
  repeat (split; [assumption || reflexivity |]).
  destruct (objects_get _ (custom_user _)); reflexivity.
Qed.

(** An update writes back a row with the key of the instance. *)
Lemma update_keeps_key (st : State) (actor : request_user) (title_id : Z)
  (t : Title.t) (instance : Review.t) (partial : bool)
  (data : ReviewData.t) (attrs : ReviewAttrs.t) :
  get_title_or_404 title_id st = Ok t ->
  Review.title instance = Title.pk t ->
  is_valid st actor title_id (Some instance) partial data = Ok attrs ->
  review_key (ReviewSerializer_update instance attrs) = review_key instance.
Proof.
  intros Ht Hti Hv. apply ReviewSerializer_is_valid_Ok in Hv.
  destruct Hv as [_ [_ [_ [_ [Htitle _]]]]].
  unfold review_key, ReviewSerializer_update.
  cbn [Review.pk Review.author Review.title].
  destruct Htitle as [[_ ->] | [_ [t' [u [-> [Ht' _]]]]]].
  - reflexivity.
  - rewrite Ht in Ht'. injection Ht' as <-. cbn [option_map default].
    rewrite Hti. reflexivity.
Qed.

Lemma rewritten_keeps_keys (rows : list Review.t) (instance : Review.t)
  (attrs : ReviewAttrs.t) :
  NoDup (map Review.pk rows) ->
  In instance rows ->
  review_key (ReviewSerializer_update instance attrs) = review_key instance ->
  map review_key (rewritten instance attrs rows) = map review_key rows.
Proof.
  intros Hnd Hin Hkey. rewrite map_map. apply map_ext_in. intros r Hr.
  destruct (Z.eqb_spec (Review.pk r) (Review.pk instance)) as [E | E];
    [| reflexivity].
  rewrite (NoDup_map_In_eq Review.pk rows r instance Hnd Hr Hin E).
  exact Hkey.
Qed.

(** X23. A full update ([PUT]) of a review by its own author is always
    refused: the duplicate check of [validate_title] looks for any review
    of the title by the requesting user and finds the very review being
    updated. The answer is 400 with the duplicate message under [title],
    whatever is submitted, and the store is unchanged. *)
Theorem X23_put_by_author_refused :
  forall (st : State) (u : CustomUser.t) (title_id review_id : Z)
         (t : Title.t) (r : Review.t) (data : ReviewData.t),
    get_title_or_404 title_id st = Ok t ->
    get_object_or_404 (fun r' => Review.pk r' =? review_id)
      (filter (fun r' => Review.title r' =? Title.pk t) (reviews st))
    = Ok r ->
    Review.author r = CustomUser.pk u ->
    exists errors,
      dispatch (update_review (User u) title_id review_id false data) st
      = (mkResponse (errors_json (Fields errors)) HTTP_400_BAD_REQUEST, st)
      /\ In ("title", [duplicate_review_message]) errors.
Proof.
  intros st u title_id review_id t r data Ht Hr Ha.
  pose proof (get_object_in _ _ _ _ Hr) as [Hin [_ Hti]].
  apply Z.eqb_eq in Hti.
  assert (Hex : review_exists (reviews st) (CustomUser.pk u) (Title.pk t)
                = true).
  { apply review_exists_iff. exists r. auto. }
  destruct (ReviewSerializer_is_valid_duplicate positive_integer_max st u
              title_id t (Some r) data Ht Hex) as [errors [Hv Hine]].
  exists errors. split; [| exact Hine].
  unfold dispatch, ReviewViewSet_update, bindM, query.
  cbn [permission_classes has_permission has_object_permission
       IsOwnerAdminModeratorOrReadOnly
       IsOwnerAdminModeratorOrReadOnly_has_permission method user
       method_in existsb SAFE_METHODS method_eqb is_authenticated orb negb].
  rewrite Ht, Hr.
  unfold IsOwnerAdminModeratorOrReadOnly_has_object_permission.
  cbn [method user method_in existsb SAFE_METHODS method_eqb orb obj_author
       bind Review.author].
  rewrite Ha, Z.eqb_refl. cbn [orb negb].
  rewrite Hv. reflexivity.
Qed.

(** X24. What an update of a review cannot reach. With unique primary keys
    in the reviews table, a full or partial update by anyone with any
    payload leaves users, titles, comments and sent mail untouched and
    keeps, row by row, the primary key, the author and the title of every
    review: only texts and scores can change. *)
Theorem X24_update_review_frame :
  forall (st : State) (actor : request_user) (title_id review_id : Z)
         (partial : bool) (data : ReviewData.t),
    NoDup (map Review.pk (reviews st)) ->
    let st' :=
      snd (dispatch (update_review actor title_id review_id partial data) st)
    in
    custom_user st' = custom_user st
    /\ titles st' = titles st
    /\ comments st' = comments st
    /\ outbox st' = outbox st
    /\ map review_key (reviews st') = map review_key (reviews st).
Proof.
  intros st actor title_id review_id partial data Hnd st'. subst st'.
  destruct (update_review_outcome st actor title_id review_id partial data)
    as [-> | [u [t [i [attrs [_ [Ht [Hin [_ [Hti [Hv ->]]]]]]]]]]].
  - repeat split; reflexivity.
  - cbn [custom_user titles comments outbox reviews set_reviews].
    repeat (split; [reflexivity|]).
    apply rewritten_keeps_keys; [exact Hnd | exact Hin |].
    exact (update_keeps_key st actor title_id t i partial data attrs Ht Hti
             Hv).
Qed.

Lemma map_pair_of_key (rows rows' : list Review.t) :
  map review_key rows' = map review_key rows ->
  map Review.pk rows' = map Review.pk rows
  /\ map (fun r => (Review.author r, Review.title r)) rows'
     = map (fun r => (Review.author r, Review.title r)) rows.
Proof.
  intros H. split.
  - assert (E : forall l, map Review.pk l
                          = map (fun k => fst (fst k)) (map review_key l))
      by (intros l; rewrite map_map; reflexivity).
    rewrite !E, H. reflexivity.
  - assert (E : forall l,
               map (fun r => (Review.author r, Review.title r)) l
               = map (fun k => (snd (fst k), snd k)) (map review_key l))
      by (intros l; rewrite map_map; reflexivity).
    rewrite !E, H. reflexivity.
Qed.

Lemma review_exists_false_not_In (rows : list Review.t) (author title : Z) :
  review_exists rows author title = false ->
  ~ In (author, title)
       (map (fun r => (Review.author r, Review.title r)) rows).
Proof.
  intros H Hin. apply in_map_iff in Hin. destruct Hin as [r [Hr Hin]].
  injection Hr as Ha Ht.
  assert (review_exists rows author title = true); [| congruence].
  apply review_exists_iff. exists r. auto.
Qed.

(** X25. The review endpoints keep the reviews table well formed: if
    primary keys are unique and no two reviews share author and title
    before a creation or an update, the same holds after it, whoever asks
    and whatever is submitted. *)
Theorem X25_reviews_stay_unique :
  forall (st : State) (actor : request_user) (title_id : Z)
         (data : ReviewData.t),
    reviews_unique (reviews st) ->
    reviews_unique
      (reviews (snd (dispatch (create_review actor title_id data) st)))
    /\ forall review_id partial,
         reviews_unique
           (reviews
              (snd (dispatch
                      (update_review actor title_id review_id partial data)
                      st))).
Proof.
  intros st actor title_id data [Hpk Hpair]. split.
  - destruct (create_review_outcome st actor title_id data)
      as [[-> _] | [u [t [text [score [_ [_ [_ [_ [_ [Hex ->]]]]]]]]]]];
      [split; assumption|].
    cbn [snd reviews set_reviews]. unfold reviews_unique.
    rewrite !map_app. cbn [map]. split; apply NoDup_app_last; auto.
    + intros Hin. apply next_pk_fresh in Hin. unfold new_review in Hin.
      cbn [Review.pk] in Hin. lia.
    + apply review_exists_false_not_In. exact Hex.
  - intros review_id partial.
    destruct (update_review_outcome st actor title_id review_id partial data)
      as [-> | [u [t [i [attrs [_ [Ht [Hin [_ [Hti [Hv ->]]]]]]]]]]];
      [split; assumption|].
    cbn [reviews set_reviews].
    pose proof (rewritten_keeps_keys (reviews st) i attrs Hpk Hin
                  (update_keeps_key st actor title_id t i partial data attrs
                     Ht Hti Hv)) as Hk.
    apply map_pair_of_key in Hk. destruct Hk as [Hk1 Hk2].
    unfold reviews_unique. rewrite Hk1, Hk2. split; assumption.
Qed.

(** X26. Stored scores stay within 1..10: if every review in the store
    scores from 1 to 10 before a creation or an update, every review does
    so after it, whoever asks and whatever is submitted. *)
Theorem X26_stored_scores_stay_in_range :
  forall (st : State) (actor : request_user) (title_id : Z)
         (data : ReviewData.t),
    (forall r, In r (reviews st) -> 1 <= Review.score r <= 10) ->
    (forall r,
        In r (reviews (snd (dispatch (create_review actor title_id data) st)))
        -> 1 <= Review.score r <= 10)
    /\ forall review_id partial r,
         In r (reviews
                 (snd (dispatch
                         (update_review actor title_id review_id partial data)
                         st))) ->
         1 <= Review.score r <= 10.
Proof.
  intros st actor title_id data Hall. split.
  - destruct (create_review_outcome st actor title_id data)
      as [[-> _] | [u [t [text [score [_ [_ [_ [_ [Hs [_ ->]]]]]]]]]]];
      [exact Hall|].
    cbn [snd reviews set_reviews]. intros r Hr.
    apply in_app_or in Hr. destruct Hr as [Hr | [<- | []]];
      [apply Hall; exact Hr | exact Hs].
  - intros review_id partial r.
    destruct (update_review_outcome st actor title_id review_id partial data)
      as [-> | [u [t [i [attrs [_ [_ [Hin [_ [_ [Hv ->]]]]]]]]]]];
      [apply Hall|].
    cbn [reviews set_reviews]. intros Hr.
    apply in_map_iff in Hr. destruct Hr as [r0 [<- Hr0]].
    destruct (Review.pk r0 =? Review.pk i); [| apply Hall; exact Hr0].
    apply ReviewSerializer_is_valid_Ok in Hv.
    destruct Hv as [_ [_ [Hscore [Hrange _]]]].
    unfold ReviewSerializer_update. cbn [Review.score]. rewrite Hscore.
    destruct (ReviewData.score data) as [z|]; cbn [default];
      [apply (Hrange z eq_refl) | apply Hall; exact Hin].
Qed.

End ReviewMore.

Lemma X21_create_review_succeeds_witness :
  exists review st',
    dispatch
      (ReviewViewSet_create sample_integer_max (User bob) 1
         (ReviewData.Build (Some "Dull") (Some 1))) sample_state
    = (mkResponse (ReviewSerializer_data review "bob") HTTP_201_CREATED, st')
    /\ reviews st' = [alice_review; review]
    /\ Review.score review = 1
    /\ Review.pk review <> Review.pk alice_review.
Proof.
  destruct (X21_create_review_succeeds sample_integer_max sample_state
              bob 1 solaris "Dull" 1 eq_refl eq_refl eq_refl)
    as [review [st' [Hd [_ [_ [_ [Hs [Hpk [Hr _]]]]]]]]];
    [discriminate | lia | unfold sample_integer_max; lia |].
  exists review, st'. split; [exact Hd|]. split; [exact Hr|].
  split; [exact Hs|]. intros E. apply Hpk. left. symmetry. exact E.
Defined.

Lemma X22_create_review_twice_witness :
  exists errors,
    dispatch
      (ReviewViewSet_create sample_integer_max (User bob) 1
         (ReviewData.Build (Some "Second thoughts") (Some 9)))
      (set_reviews sample_state
         [alice_review; new_review sample_state bob solaris "Dull" 1])
    = (mkResponse (errors_json (Fields errors)) HTTP_400_BAD_REQUEST,
       set_reviews sample_state
         [alice_review; new_review sample_state bob solaris "Dull" 1])
    /\ In ("title", [duplicate_review_message]) errors.
Proof.
  apply (X22_create_review_twice sample_integer_max sample_state (User bob) 1
           (ReviewData.Build (Some "Dull") (Some 1))
           (mkResponse
              (ReviewSerializer_data
                 (new_review sample_state bob solaris "Dull" 1) "bob")
              HTTP_201_CREATED)); reflexivity.
Defined.

Lemma X23_put_by_author_refused_witness :
  exists errors,
    dispatch
      (ReviewViewSet_update sample_integer_max (User alice) 1 1 false
         (ReviewData.Build (Some "Better on a second viewing") (Some 9)))
      sample_state
    = (mkResponse (errors_json (Fields errors)) HTTP_400_BAD_REQUEST,
       sample_state)
    /\ In ("title", [duplicate_review_message]) errors.
Proof.
  apply (X23_put_by_author_refused sample_integer_max sample_state alice 1 1
           solaris alice_review); reflexivity.
Defined.

Lemma sample_state_reviews_unique : reviews_unique (reviews sample_state).
Proof.
  unfold reviews_unique. simpl.
  split; repeat constructor; simpl; tauto.
Qed.

Lemma X24_update_review_frame_witness :
  map review_key
    (reviews
       (snd (dispatch
               (ReviewViewSet_update sample_integer_max (User alice) 1 1 true
                  (ReviewData.Build None (Some 9))) sample_state)))
  = map review_key (reviews sample_state).
Proof.
  destruct (X24_update_review_frame sample_integer_max sample_state
              (User alice) 1 1 true (ReviewData.Build None (Some 9))
              (proj1 sample_state_reviews_unique)) as [_ [_ [_ [_ H]]]].
  exact H.
Defined.

Lemma X25_reviews_stay_unique_witness :
  reviews_unique
    (reviews
       (snd (dispatch
               (ReviewViewSet_create sample_integer_max (User bob) 1
                  (ReviewData.Build (Some "Dull") (Some 1))) sample_state))).
Proof.
  destruct (X25_reviews_stay_unique sample_integer_max sample_state
              (User bob) 1 (ReviewData.Build (Some "Dull") (Some 1))
              sample_state_reviews_unique) as [H _].
  exact H.
Defined.

Lemma X26_stored_scores_stay_in_range_witness :
  Forall (fun r => 1 <= Review.score r <= 10)
    (reviews
       (snd (dispatch
               (ReviewViewSet_update sample_integer_max (User alice) 1 1
                  true (ReviewData.Build None (Some 9))) sample_state))).
Proof.
  apply Forall_forall. intros r.
  destruct (X26_stored_scores_stay_in_range sample_integer_max sample_state
              (User alice) 1 (ReviewData.Build None (Some 9))) as [_ H].
  - intros r0 [<- | []]. simpl. lia.
  - apply H.
Defined.

(** A partial update is the way to change a score: [alice] raises hers to
    9 and the rating follows. *)
Example patch_review_score :
  let st' :=
    snd (dispatch
           (ReviewViewSet_update sample_integer_max (User alice) 1 1 true
              (ReviewData.Build None (Some 9))) sample_state) in
  reviews st' = [Review.Build 1 2 "Slow and deep" 1 9]
  /\ get_rating st' solaris = Some 9.
Proof. split; reflexivity. Qed.

(** ** The year of a title *)

(** X27. [validate_year] accepts exactly the years from the creation of
    cinematography to the current year, both bounds included, and returns
    the year unchanged. A year accepted now stays accepted in every later
    year; and were the setting above the current year, no year would be
    accepted. *)
Theorem X27_validate_year_bounds :
  forall (creation year_now value : Z),
    (validate_year creation year_now value = Ok value <->
     creation <= value <= year_now)
    /\ (forall v, validate_year creation year_now value = Ok v -> v = value)
    /\ (creation <= year_now ->
        validate_year creation year_now creation = Ok creation
        /\ validate_year creation year_now year_now = Ok year_now)
    /\ (forall later,
          year_now <= later ->
          validate_year creation year_now value = Ok value ->
          validate_year creation later value = Ok value)
    /\ (year_now < creation ->
        validate_year creation year_now value <> Ok value).
Proof.
  intros creation year_now value.
  assert (Hiff : forall c n v,
             validate_year c n v = Ok v <-> c <= v <= n).
  { intros c n v. unfold validate_year.
    destruct (Z.geb_spec n v) as [Ha | Ha], (Z.geb_spec v c) as [Hb | Hb];
      cbn [andb]; split; intros Hx; try reflexivity; try lia; discriminate. }
  split; [apply Hiff|]. split; [| split; [| split]].
  - unfold validate_year. intros v.
    destruct ((year_now >=? value) && (value >=? creation));
      [intros H; injection H; auto | discriminate].
  - intros H. split; apply Hiff; lia.
  - intros later Hl H. apply Hiff. apply Hiff in H. lia.
  - intros H Hok. apply Hiff in Hok. lia.
Qed.

Lemma X27_validate_year_bounds_witness :
  validate_year 1895 2026 1895 = Ok 1895
  /\ validate_year 1895 2026 2026 = Ok 2026.
Proof.
  destruct (X27_validate_year_bounds 1895 2026 1972) as [_ [_ [H _]]].
  apply H. lia.
Defined.

(** ** Comments *)

Lemma title_review_cases (title_id review_id : Z) (st : State) :
  (title_review title_id review_id st = Raise Http404
   /\ get_title_or_404 title_id st = Raise Http404)
  \/ (exists t, get_title_or_404 title_id st = Ok t
                /\ title_review title_id review_id st = Raise DoesNotExist
                /\ find (fun r => Review.pk r =? review_id)
                     (filter (fun r => Review.title r =? Title.pk t)
                        (reviews st)) = None)
  \/ (exists t r, get_title_or_404 title_id st = Ok t
                  /\ title_review title_id review_id st = Ok r
                  /\ In r (reviews st)
                  /\ Review.pk r = review_id
                  /\ Review.title r = Title.pk t).
Proof.
  unfold title_review.
  destruct (get_title_or_404 title_id st) as [t|e] eqn:Ht; cbn [bind].
  - unfold objects_get.
    destruct (find _ (filter _ (reviews st))) as [r|] eqn:Hf.
    + right. right. exists t, r.
      apply find_some in Hf. destruct Hf as [Hin Hpk].
      apply filter_In in Hin. destruct Hin as [Hin Hti].
      apply Z.eqb_eq in Hpk, Hti. auto.
    + right. left. exists t. auto.
  - apply get_object_or_404_raises in Ht. subst e. left. auto.
Qed.

(** The two outcomes of the creation of a comment. *)
Lemma create_comment_outcome (st : State) (actor : request_user)
  (title_id review_id : Z) (data : CommentData.t) :
  (snd (dispatch (CommentViewSet_create actor title_id review_id data) st)
   = st
   /\ status
        (fst (dispatch (CommentViewSet_create actor title_id review_id data)
                st)) <> HTTP_201_CREATED)
  \/ exists u r text,
       actor = User u
       /\ title_review title_id review_id st = Ok r
       /\ data = CommentData.Build (Some text)
       /\ text <> ""
       /\ dispatch (CommentViewSet_create actor title_id review_id data) st
          = (mkResponse
               (CommentSerializer_data
                  (Comment.Build (next_pk (map Comment.pk (comments st)))
                     (CustomUser.pk u) text (Review.pk r))
                  (CustomUser.username u)) HTTP_201_CREATED,
             set_comments st
               (comments st
                ++ [Comment.Build (next_pk (map Comment.pk (comments st)))
                      (CustomUser.pk u) text (Review.pk r)])%list).
Proof.
  unfold dispatch, CommentViewSet_create, bindM, query.
  destruct actor as [|u].
  { left. split; [reflexivity | discriminate]. }
  cbn [permission_classes has_permission IsOwnerAdminModeratorOrReadOnly
       IsOwnerAdminModeratorOrReadOnly_has_permission method user
       method_in existsb SAFE_METHODS method_eqb is_authenticated orb negb].
  destruct (CommentSerializer_is_valid data) as [v|e] eqn:Hv.
  2:{ left. split; [reflexivity | apply exception_handler_not_201]. }
  destruct (title_review title_id review_id st) as [r|e] eqn:Hr.
  2:{ left. split; [reflexivity | apply exception_handler_not_201]. }
  unfold CommentSerializer_is_valid in Hv.
  destruct (run_field "text" _ []) as [[v1 e1]|] eqn:H1; [| discriminate].
  cbn [bind fst snd] in Hv. apply raise_if_errors_Ok in Hv.
  destruct Hv as [-> ->].
  apply run_field_nil in H1; [| reflexivity]. destruct H1 as [H1 _].
  apply CharField_required_Ok in H1.
  destruct H1 as [s [Hs [-> [Hne _]]]].
  right. exists u, r, s. destruct data as [dtext]. cbn in Hs. subst dtext.
  repeat split; auto.
Qed.



(** X29. Creating a comment and finding it again. An authenticated user who
    submits a non-blank text, [plain] (the field's trimming leaves it as
    it is and it holds no null character), for a review of the title is
    answered 201; the comment is stored with that user as author and that
    review as its review, under a primary key that no stored comment has;
    the comments of the review are afterwards the earlier ones and the new
    one, and no other (in which order they are listed is not stated); and
    users, titles, reviews and sent mail are untouched. *)
Theorem X29_comment_created_and_listed :
  forall (st : State) (u : CustomUser.t) (title_id review_id : Z)
         (r : Review.t) (text : string),
    title_review title_id review_id st = Ok r ->
    plain text = true ->
    text <> "" ->
    exists comment st',
      dispatch
        (CommentViewSet_create (User u) title_id review_id
           (CommentData.Build (Some text))) st
      = (mkResponse (CommentSerializer_data comment (CustomUser.username u))
           HTTP_201_CREATED, st')
      /\ Comment.author comment = CustomUser.pk u
      /\ Comment.text comment = text
      /\ Comment.review comment = Review.pk r
      /\ ~ In (Comment.pk comment) (map Comment.pk (comments st))
      /\ (forall old,
            CommentViewSet_get_queryset title_id review_id st = Ok old ->
            exists listed,
              CommentViewSet_get_queryset title_id review_id st' = Ok listed
              /\ Permutation (comment :: old) listed)
      /\ custom_user st' = custom_user st
      /\ titles st' = titles st
      /\ reviews st' = reviews st
      /\ outbox st' = outbox st.
Proof.
  intros st u title_id review_id r text Hr _ Htext.
  set (comment := Comment.Build (next_pk (map Comment.pk (comments st)))
                    (CustomUser.pk u) text (Review.pk r)).
  exists comment, (set_comments st (comments st ++ [comment])%list).
  split; [| split; [reflexivity | split; [reflexivity | split;
                                           [reflexivity | split; [| split]]]]].
  - unfold dispatch, CommentViewSet_create, bindM, query.
    cbn [permission_classes has_permission IsOwnerAdminModeratorOrReadOnly
         IsOwnerAdminModeratorOrReadOnly_has_permission method user
         method_in existsb SAFE_METHODS method_eqb is_authenticated orb negb].
    unfold CommentSerializer_is_valid, CharField.
    apply String.eqb_neq in Htext. cbn [CommentData.text].
    rewrite Htext. cbn [run_validators map List.concat bind run_field fst snd
                        raise_if_errors].
    rewrite Hr. reflexivity.
  - intros Hin. apply next_pk_fresh in Hin.
    unfold comment in Hin. cbn [Comment.pk] in Hin. lia.
  - intros old.
    unfold CommentViewSet_get_queryset.
    assert (Hr' : title_review title_id review_id
                    (set_comments st (comments st ++ [comment])%list) = Ok r)
      by exact Hr.
    rewrite Hr, Hr'. cbn [bind comments set_comments].
    intros H; injection H as <-.
    rewrite filter_app. cbn [filter Comment.review comment].
    rewrite Z.eqb_refl.
    eexists. split; [reflexivity|]. apply Permutation_cons_append.
  - repeat split.
Qed.

Lemma X29_comment_created_and_listed_witness :
  exists comment st' listed,
    dispatch
      (CommentViewSet_create (User alice) 1 1
         (CommentData.Build (Some "Thanks both"))) discussed_state
    = (mkResponse (CommentSerializer_data comment "alice") HTTP_201_CREATED,
       st')
    /\ CommentViewSet_get_queryset 1 1 st' = Ok listed
    /\ Permutation
         [comment; Comment.Build 1 3 "Agreed" 1;
          Comment.Build 2 4 "Too slow for me" 1] listed.
Proof.
  destruct (X29_comment_created_and_listed discussed_state alice 1 1
              alice_review "Thanks both" eq_refl eq_refl)
    as [comment [st' [Hd [_ [_ [_ [_ [Hq _]]]]]]]]; [discriminate|].
  destruct (Hq [Comment.Build 1 3 "Agreed" 1;
                Comment.Build 2 4 "Too slow for me" 1] eq_refl)
    as [listed [Hl Hp]].
  exists comment, st', listed. auto.
Defined.

(** ** Deleting a review *)

Lemma has_object_permission_delete (u : CustomUser.t) (r : Review.t) :
  @has_object_permission (permission_classes ReviewViewSet)
    (mkRequest DELETE (User u)) (ReviewObj r)
  = Ok ((Review.author r =? CustomUser.pk u)
        || str_in (CustomUser.role u) [USER_ROLE_MODERATOR; USER_ROLE_ADMIN]).
Proof. reflexivity. Qed.

(** The store after a deletion request: as it was, or without the review
    and its comments. *)
Lemma destroy_review_outcome (st : State) (actor : request_user)
  (title_id review_id : Z) :
  snd (dispatch (ReviewViewSet_destroy actor title_id review_id) st) = st
  \/ exists instance,
       In instance (reviews st)
       /\ snd (dispatch (ReviewViewSet_destroy actor title_id review_id) st)
          = mkState (custom_user st) (titles st)
              (filter (fun r' => negb (Review.pk r' =? Review.pk instance))
                 (reviews st))
              (filter (fun c => negb (Comment.review c =? Review.pk instance))
                 (comments st))
              (outbox st).
Proof.
  unfold dispatch, ReviewViewSet_destroy, bindM, query.
  destruct actor as [|u]; [left; reflexivity|].
  cbn [permission_classes has_permission IsOwnerAdminModeratorOrReadOnly
       IsOwnerAdminModeratorOrReadOnly_has_permission method user
       method_in existsb SAFE_METHODS method_eqb is_authenticated orb negb].
  destruct (get_title_or_404 title_id st) as [t|e]; [| left; reflexivity].
  destruct (get_object_or_404 _ _) as [r|e] eqn:Hr; [| left; reflexivity].
  apply get_object_in in Hr. destruct Hr as [Hin _].
  rewrite has_object_permission_delete.
  destruct (_ || _); cbn [negb]; [| left; reflexivity].
  right. exists r. split; [exact Hin | reflexivity].
Qed.

(** X17. Deleting a review. The author of a review, a moderator or an
    admin is answered 204; afterwards the review is gone together with
    every comment on it, every other review and comment is still there,
    and users, titles and sent mail are untouched. Any other authenticated
    user is answered 403 and nothing is deleted. *)
Theorem X17_destroy_review_cascades :
  forall (st : State) (u : CustomUser.t) (title_id review_id : Z)
         (t : Title.t) (r : Review.t),
    get_title_or_404 title_id st = Ok t ->
    get_object_or_404 (fun r' => Review.pk r' =? review_id)
      (filter (fun r' => Review.title r' =? Title.pk t) (reviews st))
    = Ok r ->
    (Review.author r = CustomUser.pk u
     \/ CustomUser.role u = USER_ROLE_MODERATOR
     \/ CustomUser.role u = USER_ROLE_ADMIN ->
     exists st',
       dispatch (ReviewViewSet_destroy (User u) title_id review_id) st
       = (mkResponse JNull HTTP_204_NO_CONTENT, st')
       /\ (forall r', In r' (reviews st') <->
                      In r' (reviews st) /\ Review.pk r' <> Review.pk r)
       /\ (forall c, In c (comments st') <->
                     In c (comments st) /\ Comment.review c <> Review.pk r)
       /\ custom_user st' = custom_user st
       /\ titles st' = titles st
       /\ outbox st' = outbox st)
    /\ (Review.author r <> CustomUser.pk u ->
        CustomUser.role u <> USER_ROLE_MODERATOR ->
        CustomUser.role u <> USER_ROLE_ADMIN ->
        dispatch (ReviewViewSet_destroy (User u) title_id review_id) st
        = (exception_handler PermissionDenied, st)).
Proof.
  intros st u title_id review_id t r Ht Hr.
  assert (Hd : dispatch (ReviewViewSet_destroy (User u) title_id review_id) st
               = if (Review.author r =? CustomUser.pk u)
                    || str_in (CustomUser.role u)
                         [USER_ROLE_MODERATOR; USER_ROLE_ADMIN]
                 then (mkResponse JNull HTTP_204_NO_CONTENT,
                       snd (Review_delete r st))
                 else (exception_handler PermissionDenied, st)).
  { unfold dispatch, ReviewViewSet_destroy, bindM, query.
    cbn [permission_classes has_permission IsOwnerAdminModeratorOrReadOnly
         IsOwnerAdminModeratorOrReadOnly_has_permission method user
         method_in existsb SAFE_METHODS method_eqb is_authenticated orb negb].
    rewrite Ht, Hr, has_object_permission_delete.
    destruct (_ || _); reflexivity. }
  assert (Hiff : (Review.author r =? CustomUser.pk u)
                 || str_in (CustomUser.role u)
                      [USER_ROLE_MODERATOR; USER_ROLE_ADMIN] = true <->
                 Review.author r = CustomUser.pk u
                 \/ CustomUser.role u = USER_ROLE_MODERATOR
                 \/ CustomUser.role u = USER_ROLE_ADMIN).
  { rewrite orb_true_iff, Z.eqb_eq, str_in_roles. tauto. }
  rewrite Hd. split.
  - intros Hallowed. apply Hiff in Hallowed. rewrite Hallowed.
    eexists. split; [reflexivity|].
    cbn [Review_delete snd reviews comments custom_user titles outbox].
    split; [| split; [| repeat split]].
    + intros r'. rewrite filter_In, negb_true_iff, Z.eqb_neq. tauto.
    + intros c. rewrite filter_In, negb_true_iff, Z.eqb_neq. tauto.
  - intros Ha Hm Had.
    replace (_ || _) with false; [reflexivity|].
    symmetry. apply not_true_is_false. rewrite Hiff. tauto.
Qed.

Lemma X17_destroy_review_cascades_witness :
  exists st',
    dispatch (ReviewViewSet_destroy (User moderator_user) 1 1) discussed_state
    = (mkResponse JNull HTTP_204_NO_CONTENT, st')
    /\ reviews st' = []
    /\ comments st' = [].
Proof.
  destruct (X17_destroy_review_cascades discussed_state moderator_user 1 1
              solaris alice_review eq_refl eq_refl) as [H _].
  destruct H as [st' [Hd _]]; [right; left; reflexivity|].
  exists st'. split; [exact Hd|].
  injection Hd as <-. split; reflexivity.
Defined.

(** ** Comments always belong to a review *)

Lemma title_review_In (title_id review_id : Z) (st : State) (r : Review.t) :
  title_review title_id review_id st = Ok r -> In r (reviews st).
Proof.
  intros H.
  destruct (title_review_cases title_id review_id st)
    as [[H1 _] | [[t [_ [H1 _]]] | [t [r' [_ [H1 [Hin _]]]]]]];
    rewrite H in H1; try discriminate.
  injection H1 as ->. exact Hin.
Qed.

(** X30. No endpoint leaves a comment without its review. If every comment
    in the store belongs to a stored review, this is still so after a
    request to create or update a review, to delete a review, or to create
    a comment, whoever asks and whatever is submitted. *)
Theorem X30_comments_stay_attached :
  forall (st : State),
    comments_attached st ->
    (forall max actor title_id data,
        comments_attached
          (snd (dispatch (ReviewViewSet_create max actor title_id data) st)))
    /\ (forall max actor title_id review_id partial data,
          comments_attached
            (snd (dispatch
                    (ReviewViewSet_update max actor title_id review_id partial
                       data) st)))
    /\ (forall actor title_id review_id,
          comments_attached
            (snd (dispatch (ReviewViewSet_destroy actor title_id review_id)
                    st)))
    /\ (forall actor title_id review_id data,
          comments_attached
            (snd (dispatch
                    (CommentViewSet_create actor title_id review_id data)
                    st))).
Proof.
  intros st Hatt. split; [| split; [| split]].
  - intros max actor title_id data.
    destruct (create_review_outcome max st actor title_id data)
      as [[-> _] | [u [t [text [score [_ [_ [_ [_ [_ [_ ->]]]]]]]]]]];
      [exact Hatt|].
    intros c Hc. cbn [snd comments set_reviews reviews] in *.
    destruct (Hatt c Hc) as [r [Hr Hpk]].
    exists r. split; [apply in_or_app; left; exact Hr | exact Hpk].
  - intros max actor title_id review_id partial data.
    destruct (update_review_outcome max st actor title_id review_id partial
                data)
      as [-> | [u [t [i [attrs [_ [_ [_ [_ [_ [_ ->]]]]]]]]]]];
      [exact Hatt|].
    intros c Hc. cbn [comments set_reviews reviews] in *.
    destruct (Hatt c Hc) as [r [Hr Hpk]].
    exists (if Review.pk r =? Review.pk i
            then ReviewSerializer_update i attrs else r).
    split.
    + apply in_map_iff. exists r. auto.
    + destruct (Z.eqb_spec (Review.pk r) (Review.pk i)) as [E | E];
        [| exact Hpk].
      cbn [ReviewSerializer_update Review.pk]. congruence.
  - intros actor title_id review_id.
    destruct (destroy_review_outcome st actor title_id review_id)
      as [-> | [i [_ ->]]]; [exact Hatt|].
    intros c Hc. cbn [comments reviews] in *.
    apply filter_In in Hc. destruct Hc as [Hc Hne].
    apply negb_true_iff, Z.eqb_neq in Hne.
    destruct (Hatt c Hc) as [r [Hr Hpk]].
    exists r. split; [| exact Hpk].
    apply filter_In. split; [exact Hr|].
    apply negb_true_iff, Z.eqb_neq. congruence.
  - intros actor title_id review_id data.
    destruct (create_comment_outcome st actor title_id review_id data)
      as [[-> _] | [u [r [text [_ [Hr [_ [_ ->]]]]]]]]; [exact Hatt|].
    intros c Hc. cbn [snd comments set_comments reviews] in *.
    apply in_app_or in Hc. destruct Hc as [Hc | [<- | []]].
    + exact (Hatt c Hc).
    + exists r. split; [| reflexivity].
      exact (title_review_In title_id review_id st r Hr).
Qed.

Lemma discussed_state_attached : comments_attached discussed_state.
Proof.
  intros c Hc. exists alice_review. split; [left; reflexivity|].
  simpl in Hc. destruct Hc as [<- | [<- | []]]; reflexivity.
Qed.

Lemma X30_comments_stay_attached_witness :
  comments_attached
    (snd (dispatch (ReviewViewSet_destroy (User alice) 1 1) discussed_state)).
Proof.
  destruct (X30_comments_stay_attached discussed_state
              discussed_state_attached) as [_ [_ [H _]]].
  apply H.
Defined.
